(** * app_chat: the HTTP daemon (request parser, response builder, adapter)

    A shallow embedding of [daemon/request.py], [daemon/response.py],
    [daemon/dictionary.py] and [daemon/httpadapter.py], and the properties
    of the protocol layer stated about them.

    Conventions of the embedding.
    - A Python [str] is a [string]; a character is a code point below 256.
      [bytes] are strings of 8-bit characters too; [encode] is UTF-8.
    - A [dict] keyed by strings whose order is never observed is a [gmap];
      the cookie store of a response, whose order is written to the wire,
      is an association list in insertion order.
    - A raised exception is the [Raise] case of [Result]; [str(e)] is its
      message.
    - Mutation of [self] is state passing: a method returns the new object
      next to its value.
    - The file system, the [mimetypes] table and the clock are parameters. *)

From stdpp Require Import base option list gmap strings.
From Stdlib Require Import Ascii NArith ZArith Lia DecimalString.

Local Open Scope stdpp_scope.

(** ** Python's string methods *)

Module PyStr.

Definition CRLF : string := String "013" (String "010" EmptyString).

(** [str.isspace] on one character: the white space of [str.split()] and
    [str.strip()]. *)
Definition is_space (c : ascii) : bool :=
  match c with
  | "009" | "010" | "011" | "012" | "013"
  | "028" | "029" | "030" | "031" | " " | "133" | "160" => true
  | _ => false
  end%char.

(** The line boundaries of [str.splitlines]. *)
Definition is_linebreak (c : ascii) : bool :=
  match c with
  | "010" | "011" | "012" | "013" | "028" | "029" | "030" | "133" => true
  | _ => false
  end%char.

(** [str.lower] on one character: A-Z and the Latin-1 capitals. *)
Definition lower_char (c : ascii) : ascii :=
  let n := N_of_ascii c in
  if ((65 <=? n) && (n <=? 90) ||
      (192 <=? n) && (n <=? 222) && negb (n =? 215))%N
  then ascii_of_N (n + 32) else c.

Fixpoint lower (s : string) : string :=
  match s with
  | EmptyString => EmptyString
  | String c s' => String (lower_char c) (lower s')
  end.

(** [s.splitlines()]: a line ends at a boundary, CR LF counts once, and a
    final boundary opens no further line. *)
Fixpoint splitlines (s : string) : list string :=
  match s with
  | EmptyString => []
  | String c rest =>
      if is_linebreak c then
        match rest with
        | String c2 rest2 =>
            if Ascii.eqb c "013" && Ascii.eqb c2 "010"
            then EmptyString :: splitlines rest2
            else EmptyString :: splitlines rest
        | EmptyString => [EmptyString]
        end
      else
        match splitlines rest with
        | [] => [String c EmptyString]
        | l :: ls => String c l :: ls
        end
  end.

(** [s.split()]: the maximal runs of characters that are not white space. *)
Fixpoint split_ws (s : string) : list string :=
  match s with
  | EmptyString => []
  | String c rest =>
      if is_space c then split_ws rest
      else
        match rest with
        | EmptyString => [String c EmptyString]
        | String c2 _ =>
            if is_space c2 then String c EmptyString :: split_ws rest
            else
              match split_ws rest with
              | t :: ts => String c t :: ts
              | [] => [String c EmptyString]
              end
        end
  end.

(** [strip_prefix p s] is [Some r] when [s = p ++ r]. *)
Fixpoint strip_prefix (p s : string) : option string :=
  match p, s with
  | EmptyString, _ => Some s
  | String a p', String b s' =>
      if Ascii.eqb a b then strip_prefix p' s' else None
  | String _ _, EmptyString => None
  end.

Definition startswith (s p : string) : bool :=
  match strip_prefix p s with Some _ => true | None => false end.

Fixpoint endswith (s suf : string) : bool :=
  String.eqb s suf ||
  match s with
  | EmptyString => false
  | String _ s' => endswith s' suf
  end.

(** The first occurrence of [sep] in [s]: what is before it and what is
    after it. *)
Fixpoint partition (sep s : string) : option (string * string) :=
  match strip_prefix sep s with
  | Some r => Some (EmptyString, r)
  | None =>
      match s with
      | EmptyString => None
      | String c s' =>
          match partition sep s' with
          | Some (a, b) => Some (String c a, b)
          | None => None
          end
      end
  end.

(** [sep in s]. *)
Definition contains (sep s : string) : bool :=
  match partition sep s with Some _ => true | None => false end.

(** [s.split(sep, 1)]. *)
Definition split1 (sep s : string) : list string :=
  match partition sep s with
  | Some (a, b) => [a; b]
  | None => [s]
  end.

(** [s.split(sep)] for a separator that is not empty.  Every cut removes
    a character, so the length of [s] bounds the number of cuts. *)
Fixpoint split_fuel (n : nat) (sep s : string) : list string :=
  match partition sep s with
  | None => [s]
  | Some (a, b) =>
      match n with
      | O => [s]
      | S n' => a :: split_fuel n' sep b
      end
  end.

Definition split (sep s : string) : list string :=
  split_fuel (String.length s) sep s.

Fixpoint mem_char (c : ascii) (chars : string) : bool :=
  match chars with
  | EmptyString => false
  | String d chars' => Ascii.eqb c d || mem_char c chars'
  end.

(** [s.lstrip(chars)]. *)
Fixpoint lstrip_chars (chars s : string) : string :=
  match s with
  | EmptyString => EmptyString
  | String c s' => if mem_char c chars then lstrip_chars chars s' else s
  end.

Fixpoint lstrip (s : string) : string :=
  match s with
  | EmptyString => EmptyString
  | String c s' => if is_space c then lstrip s' else s
  end.

Fixpoint rstrip (s : string) : string :=
  match s with
  | EmptyString => EmptyString
  | String c s' =>
      match rstrip s' with
      | EmptyString => if is_space c then EmptyString else String c EmptyString
      | r => String c r
      end
  end.

(** [s.strip()]. *)
Definition strip (s : string) : string := rstrip (lstrip s).

(** [s.replace(old, new)] for one-character [old] and [new]. *)
Fixpoint replace (old new : ascii) (s : string) : string :=
  match s with
  | EmptyString => EmptyString
  | String c s' =>
      String (if Ascii.eqb c old then new else c) (replace old new s')
  end.

(** [sep.join(l)]. *)
Fixpoint join (sep : string) (l : list string) : string :=
  match l with
  | [] => EmptyString
  | [x] => x
  | x :: l' => x +:+ sep +:+ join sep l'
  end.

(** [s.encode()]: UTF-8, one byte below 128 and two bytes from 128 on. *)
Fixpoint encode (s : string) : string :=
  match s with
  | EmptyString => EmptyString
  | String c s' =>
      let n := N_of_ascii c in
      if (n <? 128)%N then String c (encode s')
      else String (ascii_of_N (192 + n / 64))
             (String (ascii_of_N (128 + n mod 64)) (encode s'))
  end.

(** [str(n)] for a length or a status code, and for any [int]. *)
Definition str_nat (n : nat) : string :=
  NilZero.string_of_uint (Nat.to_uint n).

Definition str_int (z : Z) : string :=
  NilZero.string_of_int (Z.to_int z).

End PyStr.

(** ** Exceptions *)

Inductive ExnType := AttributeError | ValueError | TypeError | RuntimeError.

(** The outcome of a call: a value, or a raised exception with its message
    (what [str(e)] and ["{}".format(e)] show). *)
Inductive Result (A : Type) : Type :=
| Ok (a : A)
| Raise (t : ExnType) (msg : string).

Arguments Ok {A} a.
Arguments Raise {A} t msg.

#[export] Instance Result_ret : MRet Result := fun A a => Ok a.
#[export] Instance Result_bind : MBind Result := fun A B f m =>
  match m with
  | Ok a => f a
  | Raise t msg => Raise t msg
  end.

#[export] Instance Result_fmap : FMap Result := fun A B f m =>
  match m with
  | Ok a => Ok (f a)
  | Raise t msg => Raise t msg
  end.

(** Python's message for an attribute looked up on [None]. *)
Definition none_has_no (attr : string) : string :=
  "'NoneType' object has no attribute '" +:+ attr +:+ "'".

(** ** daemon/dictionary.py *)

Module CaseInsensitiveDict.

(** [_store]: a dict in insertion order, keyed by lower-cased names. *)
Definition t := list (string * string).

Definition empty : t := [].

Fixpoint store_set (k v : string) (store : t) : t :=
  match store with
  | [] => [(k, v)]
  | (k', v') :: rest =>
      if String.eqb k k' then (k, v) :: rest
      else (k', v') :: store_set k v rest
  end.

Fixpoint store_get (k : string) (store : t) : option string :=
  match store with
  | [] => None
  | (k', v') :: rest => if String.eqb k k' then Some v' else store_get k rest
  end.

Definition __setitem__ (key value : string) (self : t) : t :=
  store_set (PyStr.lower key) value self.

Definition __getitem__ (key : string) (self : t) : option string :=
  store_get (PyStr.lower key) self.

(** [items()] of the mapping: the stored keys, each with [self[key]]. *)
Definition items (self : t) : list (string * string) :=
  omap (fun kv => v ← __getitem__ kv.1 self; Some (kv.1, v)) self.

End CaseInsensitiveDict.

(** ** daemon/request.py *)

(** A reference to a registered route function. *)
Definition FunRef := string.

Module Request.

Record t := mk {
  method : option string;
  url : option string;
  headers : option (gmap string string);
  path : option string;
  cookies : option (gmap string string);
  body : option string;
  routes : gmap (string * string) FunRef;
  hook : option FunRef;
  version : option string
}.

(** [Request()] *)
Definition init : t :=
  {| method := None; url := None; headers := None; path := None;
     cookies := None; body := None; routes := ∅; hook := None;
     version := None |}.

(** The [except Exception] covers the empty buffer (no first line) and a
    first line that does not unpack into three names. *)
Definition extract_request_line (request : string)
  : option string * option string * option string :=
  match PyStr.splitlines request with
  | first :: _ =>
      match PyStr.split_ws first with
      | [method; path; version] =>
          let path := if String.eqb path "/" then "/index.html" else path in
          (Some method, Some path, Some version)
      | _ => (None, None, None)
      end
  | [] => (None, None, None)
  end.

(** One header line: [": " in line] and [line.split(": ", 1)] look for the
    same first occurrence. *)
Definition add_header (headers : gmap string string) (line : string)
  : gmap string string :=
  match PyStr.partition ": " line with
  | Some (k, v) => <[PyStr.lower k := v]> headers
  | None => headers
  end.

Definition prepare_headers (request : string) : gmap string string :=
  foldl add_header ∅ (tail (PyStr.split PyStr.CRLF request)).

(** One [pair] of the cookie header; a pair that contains ["="] still
    contains it when stripped. *)
Definition add_cookie (cookies : gmap string string) (pair : string)
  : gmap string string :=
  if PyStr.contains "=" pair then
    match PyStr.partition "=" (PyStr.strip pair) with
    | Some (k, v) => <[k := v]> cookies
    | None => cookies
    end
  else cookies.

Definition parse_cookies (self : t) : gmap string string :=
  let raw := default "" (default ∅ (headers self) !! "cookie") in
  foldl add_cookie ∅ (PyStr.split ";" raw).

Definition extract_body (request : string) : string :=
  match PyStr.split1 (PyStr.CRLF +:+ PyStr.CRLF) request with
  | _ :: b :: _ => b
  | _ => ""
  end.

Definition add_field (form : gmap string string) (pair : string)
  : gmap string string :=
  match PyStr.partition "=" pair with
  | Some (k, v) => <[k := PyStr.replace "+" " " v]> form
  | None => form
  end.

Definition parse_form_data (self : t) : gmap string string :=
  foldl add_field ∅ (PyStr.split "&" (default "" (body self))).

(** [routes.get((method, route_path))]: the keys of the table are pairs of
    strings, so an absent method finds nothing. *)
Definition routes_get (routes : gmap (string * string) FunRef)
    (method : option string) (route_path : string) : option FunRef :=
  m ← method; routes !! (m, route_path).

(** [path.split("?", 1)[0]] *)
Definition route_path_of (path : string) : string :=
  default path (head (PyStr.split1 "?" path)).

(** [prepare(request, routes)]; [routes or {}] is the table itself. *)
Definition prepare (self : t) (request : string)
    (routes : gmap (string * string) FunRef) : Result t :=
  let '(m, p, v) := extract_request_line request in
  let self := {| method := m; url := url self; headers := headers self;
                 path := p; cookies := cookies self; body := body self;
                 routes := routes; hook := hook self; version := v |} in
  self ← (if bool_decide (routes = ∅) then Ok self
          else
            match path self with
            | None => Raise AttributeError (none_has_no "split")
            | Some p =>
                let route_path := route_path_of p in
                Ok {| method := method self; url := url self;
                      headers := headers self; path := path self;
                      cookies := cookies self; body := body self;
                      routes := routes;
                      hook := routes_get routes (method self) route_path;
                      version := version self |}
            end);
  let self := {| method := method self; url := url self;
                 headers := Some (prepare_headers request);
                 path := path self; cookies := cookies self;
                 body := body self; routes := Request.routes self;
                 hook := hook self; version := version self |} in
  let self := {| method := method self; url := url self;
                 headers := headers self; path := path self;
                 cookies := Some (parse_cookies self);
                 body := body self; routes := Request.routes self;
                 hook := hook self; version := version self |} in
  Ok {| method := method self; url := url self; headers := headers self;
        path := path self; cookies := cookies self;
        body := Some (if bool_decide (method self = Some "POST")
                      then extract_body request else "");
        routes := Request.routes self; hook := hook self;
        version := version self |}.

(** [req.path = p], as the adapter assigns it. *)
Definition set_path (self : t) (p : string) : t :=
  {| method := method self; url := url self; headers := headers self;
     path := Some p; cookies := cookies self; body := body self;
     routes := routes self; hook := hook self; version := version self |}.

End Request.

(** ** What the daemon reads from outside *)

(** The outcome of [open(filepath, "rb")] followed by [read()]. *)
Inductive ReadResult :=
| ReadOk (buf : string)
| FileNotFoundError
| ReadError (msg : string).

Record World := {
  (** the file system, by file path *)
  open_rb : string → ReadResult;
  (** the type of [mimetypes.guess_type(path)], [None] when unknown *)
  guess_type : string → option string;
  (** [datetime.utcnow().strftime("%a, %d %b %Y %H:%M:%S GMT")] *)
  utcnow : string
}.

(** [os.path.join(a, b)] on POSIX. *)
Definition os_path_join (a b : string) : string :=
  if PyStr.startswith b "/" then b
  else if String.eqb a "" || PyStr.endswith a "/" then a +:+ b
  else a +:+ "/" +:+ b.

(** ** daemon/response.py *)

Module Response.

Definition BASE_DIR : string := "".

(** The dynamic payload that a route function puts into [content]: a
    [str], or [bytes] already encoded. *)
Inductive Content :=
| ContentStr (s : string)
| ContentBytes (b : string).

(** The attributes the daemon reads or writes; [_content] is [None] for
    the initial [False]. *)
Record t := mk {
  _content : option string;
  _header : option string;
  status_code : option nat;
  headers : gmap string string;
  cookies : CaseInsensitiveDict.t;
  content : option Content
}.

(** [Response()] *)
Definition init : t :=
  {| _content := None; _header := None; status_code := None;
     headers := ∅; cookies := CaseInsensitiveDict.empty; content := None |}.

Definition set_header (self : t) (k v : string) : t :=
  {| _content := _content self; _header := _header self;
     status_code := status_code self; headers := <[k := v]> (headers self);
     cookies := cookies self; content := content self |}.

Definition set__content (self : t) (c : string) : t :=
  {| _content := Some c; _header := _header self;
     status_code := status_code self; headers := headers self;
     cookies := cookies self; content := content self |}.

Definition set__header (self : t) (h : string) : t :=
  {| _content := _content self; _header := Some h;
     status_code := status_code self; headers := headers self;
     cookies := cookies self; content := content self |}.

Definition set_status_code (self : t) (n : nat) : t :=
  {| _content := _content self; _header := _header self;
     status_code := Some n; headers := headers self;
     cookies := cookies self; content := content self |}.

(** The serialized cookie of [set_cookie]. *)
Definition cookie_string (name value path : string) (max_age : option Z)
  : string :=
  let cookie := name +:+ "=" +:+ value +:+ "; Path=" +:+ path in
  match max_age with
  | Some a =>
      if bool_decide (a = 0%Z) then cookie
      else cookie +:+ "; Max-Age=" +:+ PyStr.str_int a
  | None => cookie
  end.

Definition set_cookie (self : t) (name value path : string)
    (max_age : option Z) : t :=
  {| _content := _content self; _header := _header self;
     status_code := status_code self; headers := headers self;
     cookies := CaseInsensitiveDict.__setitem__ name
                  (cookie_string name value path max_age) (cookies self);
     content := content self |}.

Section WithWorld.
Context (w : World).

(** [guess_type] raises on a path that is [None]; the [except] answers
    the default type. *)
Definition get_mime_type (path : option string) : string :=
  match path with
  | None => "application/octet-stream"
  | Some p =>
      match guess_type w p with
      | Some mt => if String.eqb mt "" then "application/octet-stream" else mt
      | None => "application/octet-stream"
      end
  end.

Definition prepare_content_type (self : t) (mime_type : string)
  : Result (t * string) :=
  match PyStr.split1 "/" mime_type with
  | [main; sub] =>
      if String.eqb main "text" then
        Ok (set_header self "Content-Type" ("text/" +:+ sub),
            BASE_DIR +:+ (if String.eqb sub "html" then "www/" else "static/"))
      else if String.eqb main "image" then
        Ok (set_header self "Content-Type" ("image/" +:+ sub),
            BASE_DIR +:+ "static/")
      else if String.eqb main "application" then
        Ok (set_header self "Content-Type" ("application/" +:+ sub),
            BASE_DIR +:+ (if negb (String.eqb sub "octet-stream")
                          then "apps/" else "static/"))
      else Raise ValueError ("Invalid MIME type: " +:+ main +:+ "/" +:+ sub)
  | _ => Raise ValueError "not enough values to unpack (expected 2, got 1)"
  end.

(** The local [filepath] of [build_content]. *)
Definition filepath_of (path base_dir : string) : string :=
  if PyStr.startswith path "/static/" then PyStr.lstrip_chars "/" path
  else os_path_join base_dir (PyStr.lstrip_chars "/" path).

Definition build_content (path base_dir : string) : nat * string :=
  match open_rb w (filepath_of path base_dir) with
  | ReadOk buf => (String.length buf, buf)
  | FileNotFoundError => (0, "File not found")
  | ReadError msg => (0, PyStr.encode ("Error reading file: " +:+ msg))
  end.

Definition build_response_header (self : t) (request : Request.t)
  : Result string :=
  match Request.headers request with
  | None => Raise AttributeError (none_has_no "get")
  | Some reqhdr =>
      match _content self with
      | None => Raise TypeError "object of type 'bool' has no len()"
      | Some c =>
          let headers := [
            ("Accept", default "application/json" (reqhdr !! "Accept"));
            ("Accept-Language",
               default "en-US,en;q=0.9" (reqhdr !! "Accept-Language"));
            ("Authorization",
               default "Basic <credentials>" (reqhdr !! "Authorization"));
            ("Cache-Control", "no-cache");
            ("Content-Type",
               default "text/html" (headers self !! "Content-Type"));
            ("Content-Length", PyStr.str_nat (String.length c));
            ("Date", utcnow w);
            ("Max-Forward", "10");
            ("Pragma", "no-cache");
            ("Proxy-Authorization", "Basic dXNlcjpwYXNz");
            ("Warning", "199 Miscellaneous warning");
            ("User-Agent",
               default "Chrome/123.0.0.0" (reqhdr !! "User-Agent"))
          ] in
          let lines :=
            ["HTTP/1.1 200 OK"]
            ++ map (fun kv => kv.1 +:+ ": " +:+ kv.2) headers
            ++ map (fun kv => "Set-Cookie: " +:+ kv.2)
                 (CaseInsensitiveDict.items (cookies self))
            ++ [""] in
          Ok (PyStr.encode (PyStr.join PyStr.CRLF lines +:+ PyStr.CRLF))
      end
  end.

Definition build_notfound : string :=
  PyStr.encode
    ("HTTP/1.1 404 Not Found" +:+ PyStr.CRLF +:+
     "Accept-Ranges: bytes" +:+ PyStr.CRLF +:+
     "Content-Type: text/html" +:+ PyStr.CRLF +:+
     "Content-Length: 13" +:+ PyStr.CRLF +:+
     "Cache-Control: max-age=86000" +:+ PyStr.CRLF +:+
     "Connection: close" +:+ PyStr.CRLF +:+
     PyStr.CRLF +:+
     "404 Not Found").

(** The truth value of [getattr(self, "content", None)]. *)
Definition has_content (self : t) : bool :=
  match content self with
  | Some (ContentStr c) | Some (ContentBytes c) => negb (String.eqb c "")
  | None => false
  end.

(** [self.content.encode() if isinstance(self.content, str) else
    self.content] *)
Definition content_bytes (self : t) : string :=
  match content self with
  | Some (ContentStr c) => PyStr.encode c
  | Some (ContentBytes b) => b
  | None => ""
  end.

Definition build_response (self : t) (request : Request.t)
  : Result (t * string) :=
  if has_content self then
    let self := set_header self "Content-Type" "application/json" in
    let self := set__content self (content_bytes self) in
    header ← build_response_header self request;
    let self := set__header self header in
    Ok (self, header +:+ default "" (_content self))
  else
    let path := Request.path request in
    let mime := get_mime_type path in
    match path with
    | None => Raise AttributeError (none_has_no "endswith")
    | Some path =>
        chosen ←
          (if PyStr.endswith path ".html" || String.eqb mime "text/html"
           then Some <$> prepare_content_type self "text/html"
           else if String.eqb mime "text/css"
           then Some <$> prepare_content_type self "text/css"
           else if PyStr.endswith path ".js"
                   || String.eqb mime "application/javascript"
                   || String.eqb mime "text/javascript"
           then Some <$> prepare_content_type self "application/javascript"
           else if PyStr.startswith mime "image/"
           then Some <$> prepare_content_type self mime
           else Ok None);
        match chosen with
        | None => Ok (self, build_notfound)
        | Some (self, base) =>
            let '(size, buf) := build_content path base in
            let self := set__content self buf in
            if Nat.eqb size 0 && String.eqb buf "File not found"
            then Ok (self, build_notfound)
            else
              header ← build_response_header self request;
              let self := set__header self header in
              Ok (self, header +:+ buf)
        end
    end.

End WithWorld.

End Response.

(** ** Route functions *)

(** What a route function returns, as the adapter tells it apart: a
    [Response], a [dict], or anything else; the last two carry [str(result)]. *)
Inductive PyValue :=
| VResponse (r : Response.t)
| VDict (shown : string)
| VOther (shown : string).

(** What the adapter passes to a route function, or a parameter's default. *)
Inductive PyArg :=
| ArgStr (s : string)
| ArgRequest (r : Request.t)
| ArgNone.

(** A Python function: its declared parameters in order, each with its
    default if it has one, its other local variables, and its body as a
    function of the bound parameters. *)
Record PyFunction := {
  fn_name : string;
  fn_params : list (string * option PyArg);
  fn_locals : list string;
  fn_code : list (string * PyArg) → Result PyValue
}.

(** [f.__code__.co_varnames]: the parameters, then the other locals. *)
Definition co_varnames (f : PyFunction) : list string :=
  (fn_params f).*1 ++ fn_locals f.

Fixpoint kw_get (x : string) (kw : list (string * PyArg)) : option PyArg :=
  match kw with
  | [] => None
  | (k, a) :: kw' => if String.eqb x k then Some a else kw_get x kw'
  end.

(** The texts of CPython's TypeError for a call that does not fit the
    parameters ([too_many_positional] and [missing_arguments] of
    ceval.c); the functions here have positional-or-keyword parameters
    only. *)
Definition plural (n : nat) : string := if Nat.eqb n 1 then "" else "s".

Definition too_many_positional (name : string)
    (params : list (string * option PyArg)) (given : nat) : string :=
  let co_argcount := length params in
  let defcount := length (omap snd params) in
  let sig :=
    if Nat.eqb defcount 0 then PyStr.str_nat co_argcount
    else "from " +:+ PyStr.str_nat (co_argcount - defcount) +:+ " to "
         +:+ PyStr.str_nat co_argcount in
  let s := if Nat.eqb defcount 0 then plural co_argcount else "s" in
  name +:+ "() takes " +:+ sig +:+ " positional argument" +:+ s +:+ " but "
  +:+ PyStr.str_nat given +:+ " "
  +:+ (if Nat.eqb given 1 then "was" else "were") +:+ " given".

Definition quoted (x : string) : string := "'" +:+ x +:+ "'".

Fixpoint comma_list (names : list string) : string :=
  match names with
  | [] => ""
  | [z] => "and " +:+ quoted z
  | a :: rest => quoted a +:+ ", " +:+ comma_list rest
  end.

Definition format_missing (names : list string) : string :=
  match names with
  | [a] => quoted a
  | [a; b] => quoted a +:+ " and " +:+ quoted b
  | _ => comma_list names
  end.

Definition missing_arguments (name : string) (names : list string) : string :=
  name +:+ "() missing " +:+ PyStr.str_nat (length names)
  +:+ " required positional argument" +:+ plural (length names) +:+ ": "
  +:+ format_missing names.

(** The keyword arguments, in their order: a keyword that names no
    parameter, or a parameter that a positional argument has filled. *)
Fixpoint check_keywords (name : string) (names : list string) (given : nat)
    (kw : list (string * PyArg)) : Result unit :=
  match kw with
  | [] => Ok ()
  | (k, _) :: kw' =>
      if bool_decide (k ∈ names) then
        if bool_decide (k ∈ take given names) then
          Raise TypeError
            (name +:+ "() got multiple values for argument '" +:+ k +:+ "'")
        else check_keywords name names given kw'
      else
        Raise TypeError
          (name +:+ "() got an unexpected keyword argument '" +:+ k +:+ "'")
  end.

(** The value of every parameter: the positional arguments first, then
    the keyword of its name, then its default; [None] for a parameter
    left without value. *)
Fixpoint bind_args (params : list (string * option PyArg))
    (pos : list PyArg) (kw : list (string * PyArg))
  : list (string * option PyArg) :=
  match params with
  | [] => []
  | (x, d) :: ps =>
      match pos with
      | a :: pos' => (x, Some a) :: bind_args ps pos' kw
      | [] =>
          (x, match kw_get x kw with Some a => Some a | None => d end)
          :: bind_args ps [] kw
      end
  end.

(** A call of [f] with positional arguments [pos] and keyword arguments
    [kw], in the order in which CPython checks it. *)
Definition py_call (f : PyFunction) (pos : list PyArg)
    (kw : list (string * PyArg)) : Result PyValue :=
  let params := fn_params f in
  _ ← check_keywords (fn_name f) params.*1 (length pos) kw;
  if length params <? length pos then
    Raise TypeError (too_many_positional (fn_name f) params (length pos))
  else
    let slots := bind_args params pos kw in
    match omap (fun s => match s.2 with None => Some s.1 | Some _ => None end)
               slots with
    | [] => fn_code f (omap (fun s => pair s.1 <$> s.2) slots)
    | missing => Raise TypeError (missing_arguments (fn_name f) missing)
    end.

(** ** daemon/httpadapter.py *)

Module HttpAdapter.

Definition dquote : string := String "034" EmptyString.

Definition build_error_response (status_code : nat) (message : string)
  : string :=
  let body :=
    if Nat.eqb status_code 401 then
      "<html><body><h1>401 Unauthorized</h1><p>" +:+ message +:+
      "</p><a href=" +:+ dquote +:+ "/login.html" +:+ dquote +:+
      ">Login Here</a></body></html>"
    else
      "<html><body><h1>" +:+ PyStr.str_nat status_code +:+ " " +:+ message
      +:+ "</h1><p>" +:+ message +:+ "</p></body></html>" in
  let head :=
    "HTTP/1.1 " +:+ PyStr.str_nat status_code +:+ " " +:+ message
    +:+ PyStr.CRLF +:+
    "Content-Type: text/html" +:+ PyStr.CRLF +:+
    "Content-Length: " +:+ PyStr.str_nat (String.length body) +:+ PyStr.CRLF
    +:+ "Connection: close" +:+ PyStr.CRLF +:+ PyStr.CRLF in
  PyStr.encode (head +:+ body).

Section WithWorld.
Context (w : World) (funs : FunRef → PyFunction).

Definition arg_of_body (b : option string) : PyArg :=
  match b with Some s => ArgStr s | None => ArgNone end.

Definition _call_hook (req : Request.t) : Result PyValue :=
  match Request.hook req with
  | None => Raise TypeError "'NoneType' object is not callable"
  | Some h =>
      let hook := funs h in
      let names := co_varnames hook in
      if bool_decide ("body" ∈ names) then
        py_call hook [] [("body", arg_of_body (Request.body req))]
      else if bool_decide ("req" ∈ names) then
        py_call hook [ArgRequest req] []
      else py_call hook [] []
  end.

Definition handle_login (req : Request.t) (resp : Response.t)
  : Result string :=
  let form := Request.parse_form_data req in
  let user := default "" (form !! "username") in
  let pw := default "" (form !! "password") in
  if String.eqb user "admin" && String.eqb pw "password" then
    let resp := Response.set_cookie resp "auth" "true" "/" None in
    let resp := Response.set_status_code resp 200 in
    let req := Request.set_path req "/index.html" in
    snd <$> Response.build_response w resp req
  else Ok (build_error_response 401 "Unauthorized").

Definition handle_protected_route (req : Request.t) (resp : Response.t)
  : Result string :=
  match Request.cookies req with
  | None => Raise AttributeError (none_has_no "get")
  | Some cookies =>
      if bool_decide (cookies !! "auth" = Some "true") then
        let req :=
          if bool_decide (Request.path req = Some "/")
          then Request.set_path req "/index.html" else req in
        snd <$> Response.build_response w resp req
      else Ok (build_error_response 401 "Unauthorized - Please login first")
  end.

(** The packet of a hook's result that is not a [Response]. *)
Definition plain_packet (content_type body : string) : string :=
  let head := "HTTP/1.1 200 OK" +:+ PyStr.CRLF +:+
              "Content-Type: " +:+ content_type +:+ PyStr.CRLF in
  PyStr.encode
    (head +:+ "Content-Length: " +:+ PyStr.str_nat (String.length body)
     +:+ PyStr.CRLF +:+ PyStr.CRLF +:+ body).

(** The [try] block of [handle_client] once a buffer that is not empty
    was read: the packet passed to [sendall], or the exception.  The
    backend makes one adapter per connection, so [self.request] and
    [self.response] are the fresh objects of [__init__]. *)
Definition serve (raw : string) (routes : gmap (string * string) FunRef)
  : Result string :=
  let resp := Response.init in
  req ← Request.prepare Request.init raw routes;
  match Request.hook req with
  | Some _ =>
      result ← _call_hook req;
      match result with
      | VResponse r => snd <$> Response.build_response w r req
      | VDict shown => Ok (plain_packet "application/json" shown)
      | VOther shown => Ok (plain_packet "text/plain" shown)
      end
  | None =>
      if bool_decide (Request.method req = Some "POST")
         && bool_decide (Request.path req = Some "/login")
      then handle_login req resp
      else if bool_decide (Request.path req = Some "/")
              || bool_decide (Request.path req = Some "/index.html")
      then handle_protected_route req resp
      else snd <$> Response.build_response w resp req
  end.

(** [handle_client(conn, addr, routes)] on a connection that delivers
    [raw]: the packets written to the connection, in order. *)
Definition handle_client (raw : string)
    (routes : gmap (string * string) FunRef) : list string :=
  if String.eqb raw "" then []
  else
    match serve raw routes with
    | Ok packet => [packet]
    | Raise _ msg =>
        [build_error_response 500 ("Internal Server Error: " +:+ msg)]
    end.

End WithWorld.

End HttpAdapter.

(** ** Vocabulary of the statements *)

Fixpoint all_chars (P : ascii → bool) (s : string) : bool :=
  match s with
  | EmptyString => true
  | String c s' => P c && all_chars P s'
  end.

(** [c] does not occur in [s]. *)
Definition no_char (c : ascii) (s : string) : bool :=
  all_chars (fun d => negb (Ascii.eqb d c)) s.

(** No white space occurs in [s]. *)
Definition no_space (s : string) : bool :=
  all_chars (fun c => negb (PyStr.is_space c)) s.

(** One name of a request line: not empty, without white space. *)
Definition token (s : string) : bool :=
  negb (String.eqb s "") && no_space s.

(** The first line of the buffer does not split into exactly three names
    (a buffer without any line included). *)
Definition malformed_line (raw : string) : Prop :=
  match PyStr.splitlines raw with
  | first :: _ => length (PyStr.split_ws first) ≠ 3
  | [] => True
  end.

(** A request with the given header mapping and nothing else. *)
Definition request_with_headers (h : gmap string string) : Request.t :=
  {| Request.method := None; Request.url := None; Request.headers := Some h;
     Request.path := None; Request.cookies := None; Request.body := None;
     Request.routes := ∅; Request.hook := None; Request.version := None |}.

(** The cookie mapping that the request parser reads from a cookie header. *)
Definition cookies_of_header (value : string) : gmap string string :=
  Request.parse_cookies (request_with_headers {[ "cookie" := value ]}).

(** The status line of a header block, with its line end. *)
Definition ok_line : string := "HTTP/1.1 200 OK" +:+ PyStr.CRLF.

(** The three ways in which the adapter calls a route function. *)
Inductive Convention := BodyOnly | FullRequest | NoArguments.

(** The convention chosen from a tuple of names. *)
Definition convention_of (names : list string) : Convention :=
  if bool_decide ("body" ∈ names) then BodyOnly
  else if bool_decide ("req" ∈ names) then FullRequest
  else NoArguments.

Definition call_as (f : PyFunction) (c : Convention) (req : Request.t)
  : Result PyValue :=
  match c with
  | BodyOnly =>
      py_call f [] [("body", HttpAdapter.arg_of_body (Request.body req))]
  | FullRequest => py_call f [ArgRequest req] []
  | NoArguments => py_call f [] []
  end.

(** The base directory under which [build_response] looks for the file of
    a static path, if it looks for one. *)
Definition static_base (w : World) (path : string) : option string :=
  let mime := Response.get_mime_type w (Some path) in
  if PyStr.endswith path ".html" || String.eqb mime "text/html"
  then Some "www/"
  else if String.eqb mime "text/css" then Some "static/"
  else if PyStr.endswith path ".js"
          || String.eqb mime "application/javascript"
          || String.eqb mime "text/javascript"
  then Some "apps/"
  else if PyStr.startswith mime "image/" then Some "static/"
  else None.

(** What [build_response] does with the bytes read for a static path, once
    the base directory is chosen. *)
Definition serve_file (w : World) (self : Response.t) (req : Request.t)
    (path base : string) : Result (Response.t * string) :=
  let '(size, buf) := Response.build_content w path base in
  let self := Response.set__content self buf in
  if Nat.eqb size 0 && String.eqb buf "File not found"
  then Ok (self, Response.build_notfound)
  else
    header ← Response.build_response_header w self req;
    Ok (Response.set__header self header, header +:+ buf).

(** [s] begins, or ends, with a white space character. *)
Definition starts_with_space (s : string) : bool :=
  match s with
  | String c _ => PyStr.is_space c
  | EmptyString => false
  end.

Fixpoint ends_with_space (s : string) : bool :=
  match s with
  | EmptyString => false
  | String c EmptyString => PyStr.is_space c
  | String _ s' => ends_with_space s'
  end.

(** The truth value of [max_age] in [if max_age:]. *)
Definition max_age_given (max_age : option Z) : bool :=
  match max_age with
  | Some a => negb (bool_decide (a = 0%Z))
  | None => false
  end.

(** A buffer that opens with the request line of the three names. *)
Definition request_buffer (m p v rest : string) : string :=
  m +:+ " " +:+ p +:+ " " +:+ v +:+ PyStr.CRLF +:+ rest.

(** ** A small deployment, for concrete runs *)

Module Demo.

(** A fragment of the table of [mimetypes]. *)
Definition guess (p : string) : option string :=
  if PyStr.endswith p ".html" then Some "text/html"
  else if PyStr.endswith p ".css" then Some "text/css"
  else if PyStr.endswith p ".js" then Some "text/javascript"
  else if PyStr.endswith p ".png" then Some "image/png"
  else if PyStr.endswith p ".mp4" then Some "video/mp4"
  else None.

(** Two files that can be read, and one that cannot be opened. *)
Definition fs (f : string) : ReadResult :=
  if String.eqb f "www/index.html" then ReadOk "<h1>hi</h1>"
  else if String.eqb f "static/a.css" then ReadOk "body{}"
  else if String.eqb f "static/locked.css"
  then ReadError "[Errno 13] Permission denied: 'static/locked.css'"
  else FileNotFoundError.

Definition world : World :=
  {| open_rb := fs; guess_type := guess;
     utcnow := "Tue, 03 Nov 2026 10:00:00 GMT" |}.

(** [def hello(headers=None, body=None): return {"message": ...}] *)
Definition hello : PyFunction :=
  {| fn_name := "hello";
     fn_params := [("headers", Some ArgNone); ("body", Some ArgNone)];
     fn_locals := [];
     fn_code := fun _ => Ok (VDict "{'message': 'Hello from SampleApp!'}") |}.

(** [def page(): return Response()] *)
Definition page : PyFunction :=
  {| fn_name := "page"; fn_params := []; fn_locals := [];
     fn_code := fun _ => Ok (VResponse Response.init) |}.

(** [def uptime(): body = "up"; return body]: no parameter, and a local
    variable named [body]. *)
Definition uptime : PyFunction :=
  {| fn_name := "uptime"; fn_params := []; fn_locals := ["body"];
     fn_code := fun _ => Ok (VOther "up") |}.

(** [def echo(body): return body] *)
Definition echo : PyFunction :=
  {| fn_name := "echo"; fn_params := [("body", None)]; fn_locals := [];
     fn_code := fun bound =>
       match kw_get "body" bound with
       | Some (ArgStr s) => Ok (VOther s)
       | _ => Ok (VOther "None")
       end |}.

Definition funs (r : FunRef) : PyFunction :=
  if String.eqb r "page" then page
  else if String.eqb r "uptime" then uptime
  else if String.eqb r "echo" then echo
  else hello.

Definition routes : gmap (string * string) FunRef :=
  {[ ("GET", "/hello") := "hello"; ("GET", "/page") := "page";
     ("GET", "/uptime") := "uptime"; ("POST", "/echo") := "echo";
     ("GET", "/") := "hello" ]}.

Definition request (line : string) (headers : list string) (body : string)
  : string :=
  line +:+ PyStr.CRLF +:+
  foldr (fun h acc => h +:+ PyStr.CRLF +:+ acc) "" headers +:+
  PyStr.CRLF +:+ body.

(** A request line of one name. *)
Definition one_name_request : string := request "GARBAGE" [] "".

(** A style sheet requested with the four headers that are echoed. *)
Definition css_request : string :=
  request "GET /a.css HTTP/1.1"
    ["Accept: text/css"; "Accept-Language: vi";
     "Authorization: Bearer t0ken"; "User-Agent: curl/8.0"] "".

Definition page_request : string := request "GET /page HTTP/1.1" [] "".

Definition uptime_request : string := request "GET /uptime HTTP/1.1" [] "".

Definition query_root_request : string := request "GET /?x=1 HTTP/1.1" [] "".

End Demo.

(** The deployment of [Demo] on a file system that, like Linux, refuses
    to look up a path with a component of more than 255 bytes: [open]
    raises OSError 36 there, not FileNotFoundError. *)
Module LongName.

Definition NAME_MAX : nat := 255.

Fixpoint letters (n : nat) : string :=
  match n with
  | O => ""
  | S n' => String "a" (letters n')
  end.

Definition fs (f : string) : ReadResult :=
  if existsb (fun c => NAME_MAX <? String.length c) (PyStr.split "/" f)
  then ReadError ("[Errno 36] File name too long: '" +:+ f +:+ "'")
  else Demo.fs f.

Definition world : World :=
  {| open_rb := fs; guess_type := Demo.guess;
     utcnow := "Tue, 03 Nov 2026 10:00:00 GMT" |}.

(** A style sheet with a name of 300 letters; no file has that name. *)
Definition path : string := "/" +:+ letters 300 +:+ ".css".

Definition filepath : string := "static/" +:+ letters 300 +:+ ".css".

Definition message : string :=
  "[Errno 36] File name too long: '" +:+ filepath +:+ "'".

Definition request : string :=
  Demo.request ("GET " +:+ path +:+ " HTTP/1.1") [] "".

End LongName.

(** ** The other methods of daemon/dictionary.py *)

Module DictMethods.

Fixpoint store_del (k : string) (store : CaseInsensitiveDict.t)
  : option CaseInsensitiveDict.t :=
  match store with
  | [] => None
  | (k', v') :: rest =>
      if String.eqb k k' then Some rest
      else cons (k', v') <$> store_del k rest
  end.

(** [del self._store[key.lower()]]; [None] is the KeyError of a missing
    key. *)
Definition __delitem__ (key : string) (self : CaseInsensitiveDict.t)
  : option CaseInsensitiveDict.t :=
  store_del (PyStr.lower key) self.

Definition __iter__ (self : CaseInsensitiveDict.t) : list string := self.*1.

Definition __len__ (self : CaseInsensitiveDict.t) : nat := length self.

End DictMethods.

(** The state of a [_store]: every key once, every key lower-case. *)
Definition store_wf (store : CaseInsensitiveDict.t) : Prop :=
  NoDup store.*1 ∧ Forall (fun k => PyStr.lower k = k) store.*1.

(** ** The request-building methods of daemon/request.py *)

Module RequestBuild.

Definition set_headers (self : Request.t) (h : gmap string string)
  : Request.t :=
  {| Request.method := Request.method self; Request.url := Request.url self;
     Request.headers := Some h; Request.path := Request.path self;
     Request.cookies := Request.cookies self;
     Request.body := Request.body self;
     Request.routes := Request.routes self; Request.hook := Request.hook self;
     Request.version := Request.version self |}.

Definition set_body (self : Request.t) (b : string) : Request.t :=
  {| Request.method := Request.method self; Request.url := Request.url self;
     Request.headers := Request.headers self;
     Request.path := Request.path self;
     Request.cookies := Request.cookies self; Request.body := Some b;
     Request.routes := Request.routes self; Request.hook := Request.hook self;
     Request.version := Request.version self |}.

(** [prepare_content_length(body)]: [len(body) if body else 0]. *)
Definition prepare_content_length (self : Request.t) (body : option string)
  : Request.t :=
  let headers := default ∅ (Request.headers self) in
  let n := match body with
           | Some b => if String.eqb b "" then 0 else String.length b
           | None => 0
           end in
  set_headers self (<["Content-Length" := PyStr.str_nat n]> headers).

(** [prepare_body(data, files, json)]; [files] and [json] are not read. *)
Definition prepare_body (self : Request.t) (data : option string)
  : Request.t :=
  let self := match data with
              | Some d => if String.eqb d "" then self else set_body self d
              | None => self
              end in
  prepare_content_length self (Request.body self).

(** [prepare_auth(auth, url)] returns at once. *)
Definition prepare_auth (self : Request.t) (auth url : string) : Request.t :=
  self.

Definition prepare_cookies (self : Request.t) (cookies : string)
  : Request.t :=
  let headers := default ∅ (Request.headers self) in
  set_headers self (<["Cookie" := cookies]> headers).

End RequestBuild.

(** ** apps/sampleApp.py *)

Module SampleApp.

(** Python's message for an attribute that an object does not have. *)
Definition no_attribute (arg : PyArg) (attr : string) : string :=
  match arg with
  | ArgRequest _ => "'Request' object has no attribute '" +:+ attr +:+ "'"
  | ArgStr _ => "'str' object has no attribute '" +:+ attr +:+ "'"
  | ArgNone => none_has_no attr
  end.

(** [def login_post(req)]: its first statement reads [req.parameters],
    an attribute that no [Request] has. *)
Definition login_post : PyFunction :=
  {| fn_name := "login_post";
     fn_params := [("req", None)];
     fn_locals := ["username"; "password"];
     fn_code := fun bound =>
       Raise AttributeError
         (no_attribute (default ArgNone (kw_get "req" bound)) "parameters") |}.

(** [def hello(headers=None, body=None)]: the mapping, as [str] shows it. *)
Definition hello : PyFunction :=
  {| fn_name := "hello";
     fn_params := [("headers", Some ArgNone); ("body", Some ArgNone)];
     fn_locals := [];
     fn_code := fun _ => Ok (VDict "{'message': 'Hello from SampleApp!'}") |}.

End SampleApp.

(** ** Python's dict, in insertion order *)

Section PyDict.
Context {K V : Type} `{EqDecision K}.

Fixpoint dict_get (k : K) (d : list (K * V)) : option V :=
  match d with
  | [] => None
  | (k', v) :: rest => if decide (k = k') then Some v else dict_get k rest
  end.

(** [d[k] = v]: a present key keeps its place, a new key goes last. *)
Fixpoint dict_set (k : K) (v : V) (d : list (K * V)) : list (K * V) :=
  match d with
  | [] => [(k, v)]
  | (k', v') :: rest =>
      if decide (k = k') then (k, v) :: rest
      else (k', v') :: dict_set k v rest
  end.

(** [del d[k]]; [None] is the KeyError of a missing key. *)
Fixpoint dict_del (k : K) (d : list (K * V)) : option (list (K * V)) :=
  match d with
  | [] => None
  | (k', v') :: rest =>
      if decide (k = k') then Some rest
      else cons (k', v') <$> dict_del k rest
  end.

End PyDict.

(** ** start_chatApp.py: the peer and channel registries *)

Module ChatApp.

Section Registries.
(** Peer ids, addresses, channel names and message texts are values of
    the JSON bodies; time stamps are floats.  [older_than now seen ttl]
    is the comparison [now - seen > ttl]. *)
Context {PeerId Ip Port Chan Text Time Stamp : Type}.
Context `{EqDecision PeerId} `{EqDecision Chan}.
Context (older_than : Time → Time → Time → bool).

Record PeerInfo := { ip : Ip; port : Port; last_seen : Time }.

Record Entry := {
  from : PeerId; message : Text; timestamp : Stamp; channel : Chan
}.

Record Channel := { members : list PeerId; messages : list Entry }.

Definition _peer_exists (peer_id : PeerId)
    (active_peers : list (PeerId * PeerInfo)) : bool :=
  match dict_get peer_id active_peers with Some _ => true | None => false end.

Definition _touch_peer (peer_id : PeerId) (now : Time)
    (active_peers : list (PeerId * PeerInfo)) : list (PeerId * PeerInfo) :=
  match dict_get peer_id active_peers with
  | Some info =>
      dict_set peer_id
        {| ip := ip info; port := port info; last_seen := now |} active_peers
  | None => active_peers
  end.

Definition _register_peer (peer_id : PeerId) (i : Ip) (p : Port) (now : Time)
    (active_peers : list (PeerId * PeerInfo)) : list (PeerId * PeerInfo) :=
  dict_set peer_id {| ip := i; port := p; last_seen := now |} active_peers.

(** [None] is the empty dict returned for an unknown peer. *)
Definition _get_peer (peer_id : PeerId)
    (active_peers : list (PeerId * PeerInfo)) : option PeerInfo :=
  dict_get peer_id active_peers.

Definition _list_peers (active_peers : list (PeerId * PeerInfo))
  : list (PeerId * PeerInfo) := active_peers.

Fixpoint del_all (pids : list PeerId) (d : list (PeerId * PeerInfo))
  : option (list (PeerId * PeerInfo)) :=
  match pids with
  | [] => Some d
  | pid :: rest => d' ← dict_del pid d; del_all rest d'
  end.

(** [_cleanup_expired(ttl)] at the time [now]: the ids removed and the
    registry left; [None] is a KeyError of a [del]. *)
Definition _cleanup_expired (ttl now : Time)
    (active_peers : list (PeerId * PeerInfo))
  : option (list PeerId * list (PeerId * PeerInfo)) :=
  let expired :=
    (filter (fun kv => older_than now (last_seen kv.2) ttl = true)
       active_peers).*1 in
  d ← del_all expired active_peers; Some (expired, d).

Definition _ensure_channel (name : Chan) (channels : list (Chan * Channel))
  : list (Chan * Channel) :=
  match dict_get name channels with
  | Some _ => channels
  | None => dict_set name {| members := []; messages := [] |} channels
  end.

(** [_append_message(channel, frm, message)] with the time stamp taken;
    [None] is the KeyError of a channel that does not exist. *)
Definition _append_message (chan : Chan) (frm : PeerId) (text : Text)
    (stamp : Stamp) (channels : list (Chan * Channel))
  : option (Entry * list (Chan * Channel)) :=
  let entry := {| from := frm; message := text; timestamp := stamp;
                  channel := chan |} in
  c ← dict_get chan channels;
  let msgs := messages c ++ [entry] in
  let mems := if decide (frm ∈ members c) then members c
              else members c ++ [frm] in
  Some (entry, dict_set chan {| members := mems; messages := msgs |} channels).

End Registries.

End ChatApp.

(** ** daemon/p2p.py: one round of the command loop *)

Module PeerClient.

(** What one round of the loop of [start] does with the line read. *)
Inductive Round :=
| Continue
| Stop
| Usage
| Unknown
| Send (ip : string) (port : Z) (msg : string)
| Crash.

(** [int] is Python's conversion of a string, [None] when it raises
    ValueError; the loop catches KeyboardInterrupt only, so the error ends
    it. *)
Definition round (int : string → option Z) (line : string) : Round :=
  let raw := PyStr.strip line in
  if String.eqb raw "" then Continue
  else if String.eqb raw "exit" then Stop
  else
    let parts := PyStr.split " " raw in
    if length parts <? 3 then Usage
    else
      match parts with
      | cmd :: ip :: port :: rest =>
          if String.eqb cmd "send" then
            match int port with
            | Some n => Send ip n (PyStr.join " " rest)
            | None => Crash
            end
          else Unknown
      | _ => Usage
      end.

End PeerClient.

(** ** More vocabulary *)

(** The header lines of a buffer, each closed by CR LF. *)
Definition header_block (lines : list string) : string :=
  foldr (fun h acc => h +:+ PyStr.CRLF +:+ acc) "" lines.

(** The serialized pair of a cookie or of a form field. *)
Definition pair_string (kv : string * string) : string :=
  kv.1 +:+ "=" +:+ kv.2.

Definition cookie_pair_ok (kv : string * string) : bool :=
  no_char ";" kv.1 && no_char "=" kv.1 && negb (starts_with_space kv.1)
  && no_char ";" kv.2 && negb (ends_with_space kv.2).

Definition form_pair_ok (kv : string * string) : bool :=
  no_char "&" kv.1 && no_char "=" kv.1 && no_char "&" kv.2.

(** The number of characters of [s] from 128 on. *)
Fixpoint non_ascii (s : string) : nat :=
  match s with
  | EmptyString => 0
  | String c s' =>
      (if (N_of_ascii c <? 128)%N then 0 else 1) + non_ascii s'
  end.

(** [n] slashes. *)
Fixpoint slashes (n : nat) : string :=
  match n with
  | O => ""
  | S n' => String "/" (slashes n')
  end.

(** The packet opens with one of the four status lines of the daemon. *)
Definition known_status (packet : string) : Prop :=
  ∃ rest,
    packet = ok_line +:+ rest
    ∨ packet = "HTTP/1.1 404 Not Found" +:+ PyStr.CRLF +:+ rest
    ∨ packet = "HTTP/1.1 401 Unauthorized" +:+ rest
    ∨ packet = "HTTP/1.1 500 Internal Server Error: " +:+ rest.

(** ** Vocabulary of requests and of the chat registries *)

(** A header line of a buffer: not empty, without CR. *)
Definition header_line_ok (h : string) : bool :=
  negb (String.eqb h "") && no_char "013" h.

(** The query string of a request path, with its '?'. *)
Definition query_suffix (query : option string) : string :=
  match query with
  | Some q => "?" +:+ q
  | None => ""
  end.

(** What the adapter sends for a request that matched a route hook. *)
Definition hook_packets (w : World) (funs : FunRef → PyFunction)
    (req : Request.t) : list string :=
  match HttpAdapter._call_hook funs req with
  | Ok (VResponse r) =>
      match Response.build_response w r req with
      | Ok (_, packet) => [packet]
      | Raise _ msg =>
          [HttpAdapter.build_error_response 500
             ("Internal Server Error: " +:+ msg)]
      end
  | Ok (VDict shown) => [HttpAdapter.plain_packet "application/json" shown]
  | Ok (VOther shown) => [HttpAdapter.plain_packet "text/plain" shown]
  | Raise _ msg =>
      [HttpAdapter.build_error_response 500
         ("Internal Server Error: " +:+ msg)]
  end.


(** A registry of two peers, with times in seconds. *)
Module ChatDemo.

Definition older_than (now seen ttl : Z) : bool := (ttl <? now - seen)%Z.

Definition alice : @ChatApp.PeerInfo string Z Z :=
  {| ChatApp.ip := "10.0.0.1"; ChatApp.port := 9000%Z;
     ChatApp.last_seen := 100%Z |}.

Definition bob : @ChatApp.PeerInfo string Z Z :=
  {| ChatApp.ip := "10.0.0.2"; ChatApp.port := 9001%Z;
     ChatApp.last_seen := 900%Z |}.

Definition active_peers : list (string * @ChatApp.PeerInfo string Z Z) :=
  [("alice", alice); ("bob", bob)].

End ChatDemo.

(** The value of the cookie header that the parser reads from a buffer,
    and whether the cookies parsed from it hold auth=true. *)
Definition cookie_header (raw : string) : string :=
  default "" (Request.prepare_headers raw !! "cookie").

Definition has_auth_cookie (raw : string) : bool :=
  bool_decide (cookies_of_header (cookie_header raw) !! "auth" = Some "true").

(** The form that the parser reads from a body. *)
Definition request_with_body (b : string) : Request.t :=
  {| Request.method := None; Request.url := None; Request.headers := None;
     Request.path := None; Request.cookies := None; Request.body := Some b;
     Request.routes := ∅; Request.hook := None; Request.version := None |}.

Definition form_of_body (b : string) : gmap string string :=
  Request.parse_form_data (request_with_body b).

(** The body carries the credentials that the login accepts. *)
Definition credentials_ok (b : string) : Prop :=
  form_of_body b !! "username" = Some "admin"
  ∧ form_of_body b !! "password" = Some "password".

(** ** Facts about the string methods *)

Section PyStrFacts.
Import PyStr.

Lemma app_nil_l (s : string) : "" +:+ s = s.
Proof. reflexivity. Qed.

Lemma app_cons (c : ascii) (a b : string) :
  String c a +:+ b = String c (a +:+ b).
Proof. reflexivity. Qed.

Lemma app_empty_r (s : string) : s +:+ "" = s.
Proof. induction s as [|c s IH]; [done | by rewrite app_cons, IH]. Qed.

Lemma app_assoc_s (a b c : string) : (a +:+ b) +:+ c = a +:+ b +:+ c.
Proof. induction a as [|x a IH]; [done | by rewrite !app_cons, IH]. Qed.

Lemma length_app_s (a b : string) :
  String.length (a +:+ b) = String.length a + String.length b.
Proof. induction a as [|x a IH]; [done | by rewrite app_cons; simpl; rewrite IH]. Qed.

Lemma all_chars_app P a b :
  all_chars P (a +:+ b) = all_chars P a && all_chars P b.
Proof.
  induction a as [|x a IH]; [done |].
  rewrite app_cons. simpl. by rewrite IH, andb_assoc.
Qed.

Lemma all_chars_weaken (P Q : ascii → bool) s :
  (∀ c, P c = true → Q c = true) →
  all_chars P s = true → all_chars Q s = true.
Proof.
  intros HPQ. induction s as [|c s IH]; simpl; [done |].
  intros [Hc Hs]%andb_true_iff. rewrite (HPQ _ Hc). simpl. auto.
Qed.

Lemma strip_prefix_app p s : strip_prefix p (p +:+ s) = Some s.
Proof.
  induction p as [|c p IH]; [by destruct s |].
  rewrite app_cons. simpl. by rewrite Ascii.eqb_refl.
Qed.

Lemma strip_prefix_spec p s r : strip_prefix p s = Some r → s = p +:+ r.
Proof.
  revert s. induction p as [|c p IH]; intros s; simpl.
  - by intros [= ->].
  - destruct s as [|d s]; [done |].
    destruct (Ascii.eqb c d) eqn:E; [| done].
    apply Ascii.eqb_eq in E as ->. intros H.
    by rewrite app_cons, <- (IH _ H).
Qed.

Lemma partition_spec sep s a b :
  partition sep s = Some (a, b) → s = a +:+ sep +:+ b.
Proof.
  revert a. induction s as [|c s IH]; intros a; simpl.
  - destruct (strip_prefix sep "") eqn:E; [| done].
    intros [= <- <-]. by apply strip_prefix_spec in E.
  - destruct (strip_prefix sep (String c s)) eqn:E.
    + intros [= <- <-]. by apply strip_prefix_spec in E.
    + destruct (partition sep s) as [[a' b']|] eqn:E'; [| done].
      intros [= <- <-]. by rewrite app_cons, <- (IH a').
Qed.

Lemma partition_here sep s : partition sep (sep +:+ s) = Some ("", s).
Proof.
  destruct (sep +:+ s) eqn:E; simpl; rewrite <- E, strip_prefix_app; done.
Qed.

(** A prefix in which the first character of the separator does not occur
    is skipped by the search. *)
Lemma partition_skip c0 sep' l s :
  no_char c0 l = true →
  partition (String c0 sep') (l +:+ s) =
  match partition (String c0 sep') s with
  | Some (a, b) => Some (l +:+ a, b)
  | None => None
  end.
Proof.
  induction l as [|x l IH]; intros Hl.
  - rewrite app_nil_l. by destruct (partition (String c0 sep') s) as [[? ?]|].
  - simpl in Hl. apply andb_true_iff in Hl as [Hx Hl].
    rewrite app_cons. cbn [partition strip_prefix].
    apply negb_true_iff in Hx. rewrite Ascii.eqb_sym in Hx. rewrite Hx.
    rewrite (IH Hl).
    by destruct (partition (String c0 sep') s) as [[? ?]|].
Qed.

Lemma partition_none c0 sep' l :
  no_char c0 l = true → partition (String c0 sep') l = None.
Proof.
  intros Hl. rewrite <- (app_empty_r l), (partition_skip _ _ _ _ Hl).
  done.
Qed.

Lemma length_pos_s (sep : string) : sep ≠ "" → 0 < String.length sep.
Proof. destruct sep; [done | simpl; lia]. Qed.

Lemma split_fuel_irrel sep n m s :
  sep ≠ "" → String.length s ≤ n → String.length s ≤ m →
  split_fuel n sep s = split_fuel m sep s.
Proof.
  intros Hsep. revert m s.
  induction n as [|n IH]; intros m s Hn Hm.
  - destruct s; [| simpl in Hn; lia].
    destruct m; simpl; by destruct sep.
  - simpl. destruct (partition sep s) as [[a b]|] eqn:E.
    + pose proof (partition_spec _ _ _ _ E) as ->.
      rewrite !length_app_s in Hn, Hm.
      pose proof (length_pos_s _ Hsep).
      destruct m as [|m]; [lia |].
      cbn [split_fuel]. rewrite E. f_equal. apply IH; lia.
    + by destruct m; simpl; rewrite E.
Qed.

(** The equation of [split]. *)
Lemma split_unfold sep s :
  sep ≠ "" →
  split sep s =
  match partition sep s with
  | Some (a, b) => a :: split sep b
  | None => [s]
  end.
Proof.
  intros Hsep. unfold split.
  destruct s as [|c s].
  - simpl. by destruct sep.
  - cbn [String.length split_fuel].
    destruct (partition sep (String c s)) as [[a b]|] eqn:E; [| done].
    f_equal. apply split_fuel_irrel; [done | | done].
    apply partition_spec in E.
    apply (f_equal String.length) in E. rewrite !length_app_s in E.
    simpl in E. pose proof (length_pos_s _ Hsep). lia.
Qed.

Lemma space_is_boundary c :
  negb (is_space c) = true → negb (is_linebreak c) = true.
Proof. by destruct c as [[] [] [] [] [] [] [] []]. Qed.

Lemma no_space_no_CR s : no_space s = true → no_char "013" s = true.
Proof.
  apply all_chars_weaken.
  intros c. by destruct c as [[] [] [] [] [] [] [] []].
Qed.

Lemma splitlines_first l rest :
  all_chars (fun c => negb (is_linebreak c)) l = true →
  splitlines (l +:+ CRLF +:+ rest) = l :: splitlines rest.
Proof.
  induction l as [|c l IH]; intros Hl.
  - reflexivity.
  - simpl in Hl. apply andb_true_iff in Hl as [Hc Hl].
    rewrite app_cons. cbn [splitlines].
    apply negb_true_iff in Hc. rewrite Hc. by rewrite (IH Hl).
Qed.

Lemma split_ws_space c s : is_space c = true → split_ws (String c s) = split_ws s.
Proof. intros H. simpl. by rewrite H. Qed.

(** A name followed by white space is the first name of the split. *)
Lemma split_ws_token_then t c s :
  token t = true → is_space c = true →
  split_ws (t +:+ String c s) = t :: split_ws s.
Proof.
  unfold token, no_space. intros [Hne Ht]%andb_true_iff Hc.
  induction t as [|x t IH]; [done |].
  simpl in Ht. apply andb_true_iff in Ht as [Hx Ht].
  apply negb_true_iff in Hx.
  rewrite app_cons. destruct t as [|y t].
  - rewrite app_nil_l. cbn [split_ws]. by rewrite Hx, Hc.
  - specialize (IH eq_refl Ht). rewrite app_cons in IH |- *.
    cbn [split_ws] in IH |- *. rewrite Hx.
    simpl in Ht. apply andb_true_iff in Ht as [Hy Ht].
    apply negb_true_iff in Hy. rewrite Hy in IH |- *.
    by rewrite IH.
Qed.

Lemma split_ws_token t : token t = true → split_ws t = [t].
Proof.
  unfold token, no_space. intros [Hne Ht]%andb_true_iff.
  induction t as [|x t IH]; [done |].
  simpl in Ht. apply andb_true_iff in Ht as [Hx Ht].
  apply negb_true_iff in Hx.
  destruct t as [|y t].
  - simpl. by rewrite Hx.
  - specialize (IH eq_refl Ht). cbn [split_ws] in IH |- *. rewrite Hx.
    simpl in Ht. apply andb_true_iff in Ht as [Hy Ht].
    apply negb_true_iff in Hy. rewrite Hy in IH |- *.
    by rewrite IH.
Qed.

(** The three names of a well-formed request line. *)
Lemma split_ws_request_line m p v :
  token m = true → token p = true → token v = true →
  split_ws (m +:+ " " +:+ p +:+ " " +:+ v) = [m; p; v].
Proof.
  intros Hm Hp Hv.
  change (split_ws (m +:+ String " " (p +:+ String " " v)) = [m; p; v]).
  rewrite (split_ws_token_then m " " _ Hm eq_refl).
  rewrite (split_ws_token_then p " " _ Hp eq_refl).
  by rewrite (split_ws_token v Hv).
Qed.

Lemma request_line_no_space_break m p v :
  token m = true → token p = true → token v = true →
  all_chars (fun c => negb (is_linebreak c)) (m +:+ " " +:+ p +:+ " " +:+ v) = true
  ∧ no_char "013" (m +:+ " " +:+ p +:+ " " +:+ v) = true.
Proof.
  unfold token. intros [_ Hm]%andb_true_iff [_ Hp]%andb_true_iff [_ Hv]%andb_true_iff.
  unfold no_char. rewrite !all_chars_app. cbn [all_chars].
  pose proof (all_chars_weaken _ _ _ space_is_boundary Hm) as ->.
  pose proof (all_chars_weaken _ _ _ space_is_boundary Hp) as ->.
  pose proof (all_chars_weaken _ _ _ space_is_boundary Hv) as ->.
  pose proof (no_space_no_CR _ Hm) as Hm'.
  pose proof (no_space_no_CR _ Hp) as Hp'.
  pose proof (no_space_no_CR _ Hv) as Hv'.
  unfold no_char in Hm', Hp', Hv'. rewrite Hm', Hp', Hv'. done.
Qed.

Lemma rstrip_cons c s :
  is_space c = false → rstrip (String c s) = String c (rstrip s).
Proof. intros H. simpl. rewrite H. by destruct (rstrip s). Qed.

Lemma encode_app a b : encode (a +:+ b) = encode a +:+ encode b.
Proof.
  induction a as [|c a IH]; [done |].
  rewrite app_cons. cbn [encode]. rewrite IH.
  by destruct (N_of_ascii c <? 128)%N.
Qed.

Lemma lower_char_idem c : lower_char (lower_char c) = lower_char c.
Proof. by destruct c as [[] [] [] [] [] [] [] []]. Qed.

Lemma lower_idem s : lower (lower s) = lower s.
Proof.
  induction s as [|c s IH]; [done |].
  simpl. by rewrite lower_char_idem, IH.
Qed.

End PyStrFacts.

(** ** Concrete runs *)

Example split_cookie_header :
  PyStr.split ";" "a=b; c=d;" = ["a=b"; " c=d"; ""].
Proof. reflexivity. Qed.

Example splitlines_request :
  PyStr.splitlines (Demo.request "GET / HTTP/1.1" ["A: b"] "x=1")
  = ["GET / HTTP/1.1"; "A: b"; ""; "x=1"].
Proof. reflexivity. Qed.

Example split_ws_request_line_spaces :
  PyStr.split_ws "  GET  /   HTTP/1.1 " = ["GET"; "/"; "HTTP/1.1"].
Proof. reflexivity. Qed.

Example str_of_numbers :
  PyStr.str_nat 13 = "13" ∧ PyStr.str_nat 0 = "0"
  ∧ PyStr.str_int (-120) = "-120" ∧ PyStr.str_int 3600 = "3600".
Proof. vm_compute. auto. Qed.

Example lower_header_name : PyStr.lower "Accept-Language" = "accept-language".
Proof. reflexivity. Qed.

Example strip_inner_space : PyStr.strip "  a b  " = "a b".
Proof. reflexivity. Qed.

Example extract_root :
  Request.extract_request_line (Demo.request "GET / HTTP/1.1" [] "")
  = (Some "GET", Some "/index.html", Some "HTTP/1.1").
Proof. reflexivity. Qed.

(** GET /hello on the sample application: the mapping, as JSON content. *)
Example run_hello :
  HttpAdapter.handle_client Demo.world Demo.funs
    (Demo.request "GET /hello HTTP/1.1" [] "") Demo.routes
  = [PyStr.join PyStr.CRLF
       ["HTTP/1.1 200 OK"; "Content-Type: application/json";
        "Content-Length: 36"; ""; "{'message': 'Hello from SampleApp!'}"]].
Proof. vm_compute. reflexivity. Qed.

(** POST /login with a wrong password: the 401 envelope, no cookie. *)
Example run_login_wrong_password :
  HttpAdapter.handle_client Demo.world Demo.funs
    (Demo.request "POST /login HTTP/1.1" [] "username=admin&password=wrongpass") ∅
  = [HttpAdapter.build_error_response 401 "Unauthorized"].
Proof. vm_compute. reflexivity. Qed.

(** POST /login with the fixed credentials: the index page and the cookie. *)
Example run_login :
  HttpAdapter.handle_client Demo.world Demo.funs
    (Demo.request "POST /login HTTP/1.1" [] "username=admin&password=password") ∅
  = [PyStr.join PyStr.CRLF
       ["HTTP/1.1 200 OK";
        "Accept: application/json";
        "Accept-Language: en-US,en;q=0.9";
        "Authorization: Basic <credentials>";
        "Cache-Control: no-cache";
        "Content-Type: text/html";
        "Content-Length: 11";
        "Date: Tue, 03 Nov 2026 10:00:00 GMT";
        "Max-Forward: 10";
        "Pragma: no-cache";
        "Proxy-Authorization: Basic dXNlcjpwYXNz";
        "Warning: 199 Miscellaneous warning";
        "User-Agent: Chrome/123.0.0.0";
        "Set-Cookie: auth=true; Path=/";
        "";
        "<h1>hi</h1>"]].
Proof. vm_compute. reflexivity. Qed.

(** GET / without the cookie: the 401 envelope of the protected route. *)
Example run_root_without_cookie :
  HttpAdapter.handle_client Demo.world Demo.funs
    (Demo.request "GET / HTTP/1.1" [] "") ∅
  = [HttpAdapter.build_error_response 401 "Unauthorized - Please login first"].
Proof. vm_compute. reflexivity. Qed.

(** POST /echo: the function receives the body of the request. *)
Example run_echo :
  HttpAdapter.handle_client Demo.world Demo.funs
    (Demo.request "POST /echo HTTP/1.1" ["Content-Type: text/plain"] "ping")
    Demo.routes
  = [HttpAdapter.plain_packet "text/plain" "ping"].
Proof. vm_compute. reflexivity. Qed.

(** Calls that do not fit the parameters, with the texts of CPython. *)
Example run_call_errors :
  py_call Demo.page [ArgNone] []
    = Raise TypeError "page() takes 0 positional arguments but 1 was given"
  ∧ py_call Demo.echo [ArgNone; ArgNone] []
    = Raise TypeError "echo() takes 1 positional argument but 2 were given"
  ∧ py_call Demo.hello [ArgNone; ArgNone; ArgNone] []
    = Raise TypeError
        "hello() takes from 0 to 2 positional arguments but 3 were given"
  ∧ py_call Demo.echo [] []
    = Raise TypeError "echo() missing 1 required positional argument: 'body'"
  ∧ py_call Demo.echo [ArgNone] [("body", ArgNone)]
    = Raise TypeError "echo() got multiple values for argument 'body'"
  ∧ py_call Demo.hello [] [("x", ArgNone)]
    = Raise TypeError "hello() got an unexpected keyword argument 'x'"
  ∧ missing_arguments "pair" ["a"; "b"]
    = "pair() missing 2 required positional arguments: 'a' and 'b'"
  ∧ missing_arguments "triple" ["a"; "b"; "c"]
    = "triple() missing 3 required positional arguments: 'a', 'b', and 'c'".
Proof. vm_compute. repeat split. Qed.

(** ** The request line *)

Section RequestLine.
Context (w : World) (funs : FunRef → PyFunction).

Lemma extract_request_line_malformed raw :
  malformed_line raw →
  Request.extract_request_line raw = (None, None, None).
Proof.
  unfold malformed_line, Request.extract_request_line.
  destruct (PyStr.splitlines raw) as [|first rest]; [done |].
  destruct (PyStr.split_ws first) as [|a [|b [|c [|d l]]]]; simpl; try done.
Qed.

(** C1, the code at a buffer whose first line does not split into
    exactly three names.  The line is parsed to an absent method, path
    and version, as the claim says.  Nothing is sent for the empty
    buffer.  For any other such buffer the adapter goes on with the
    absent path and dereferences it, in the route lookup when routes are
    registered and in static serving otherwise: the packet sent is the
    500 envelope of the catch-all, carrying the AttributeError, where the
    claim has the 404 envelope. *)
Theorem malformed_request_line_gets_500 raw routes :
  malformed_line raw →
  Request.extract_request_line raw = (None, None, None)
  ∧ HttpAdapter.handle_client w funs raw routes =
    if String.eqb raw "" then []
    else [HttpAdapter.build_error_response 500
            ("Internal Server Error: " +:+
             none_has_no (if bool_decide (routes = ∅)
                          then "endswith" else "split"))].
Proof.
  intros H. pose proof (extract_request_line_malformed raw H) as E.
  split; [done |].
  unfold HttpAdapter.handle_client. destruct (String.eqb raw ""); [done |].
  unfold HttpAdapter.serve, Request.prepare. rewrite E.
  case_bool_decide; done.
Qed.

End RequestLine.

(** At a buffer of one name: the packet is the 500 envelope. *)
Lemma malformed_request_line_gets_500_witness :
  malformed_line "GARBAGE"
  ∧ Request.extract_request_line "GARBAGE" = (None, None, None)
  ∧ HttpAdapter.handle_client Demo.world Demo.funs "GARBAGE" Demo.routes =
    [HttpAdapter.build_error_response 500
       ("Internal Server Error: " +:+ none_has_no "split")].
Proof.
  assert (H : malformed_line "GARBAGE") by (vm_compute; lia).
  split; [exact H |].
  exact (malformed_request_line_gets_500 Demo.world Demo.funs
           "GARBAGE" Demo.routes H).
Defined.

(** A one-name request line is answered with status 500, not with the
    404 envelope, with or without registered routes. *)
Lemma malformed_request_line_not_404 :
  malformed_line Demo.one_name_request
  ∧ HttpAdapter.handle_client Demo.world Demo.funs Demo.one_name_request ∅ =
    [HttpAdapter.build_error_response 500
       "Internal Server Error: 'NoneType' object has no attribute 'endswith'"]
  ∧ HttpAdapter.handle_client Demo.world Demo.funs Demo.one_name_request ∅
    ≠ [Response.build_notfound]
  ∧ HttpAdapter.handle_client Demo.world Demo.funs Demo.one_name_request
      Demo.routes
    ≠ [Response.build_notfound].
Proof.
  repeat split.
  - vm_compute. lia.
  - vm_compute. intros [=].
  - vm_compute. intros [=].
Qed.

(** ** Echoed request headers *)

Section EchoedHeaders.
Context (w : World).

(** Every name stored by the header parser is lower-case. *)
Lemma add_header_lower (m : gmap string string) line :
  (∀ k v, m !! k = Some v → PyStr.lower k = k) →
  ∀ k v, Request.add_header m line !! k = Some v → PyStr.lower k = k.
Proof.
  intros Hm k v. unfold Request.add_header.
  destruct (PyStr.partition ": " line) as [[k0 v0]|]; [| apply Hm].
  destruct (decide (PyStr.lower k0 = k)) as [<- | Hne].
  - intros _. apply lower_idem.
  - rewrite lookup_insert_ne by done. apply Hm.
Qed.

Lemma prepare_headers_lower raw k v :
  Request.prepare_headers raw !! k = Some v → PyStr.lower k = k.
Proof.
  unfold Request.prepare_headers.
  generalize (tail (PyStr.split PyStr.CRLF raw)). intros lines.
  assert (H0 : ∀ k v, (∅ : gmap string string) !! k = Some v → PyStr.lower k = k)
    by (intros ? ?; by rewrite lookup_empty).
  revert H0 k v. generalize (∅ : gmap string string).
  induction lines as [|line lines IH]; intros m Hm k v; simpl.
  - apply Hm.
  - apply IH. by apply add_header_lower.
Qed.

(** A name with a capital letter is never found in parsed headers. *)
Lemma prepare_headers_capitalized raw k :
  PyStr.lower k ≠ k → Request.prepare_headers raw !! k = None.
Proof.
  intros Hk. destruct (Request.prepare_headers raw !! k) eqn:E; [| done].
  by apply prepare_headers_lower in E.
Qed.

Lemma prepare_ok self raw routes req :
  Request.prepare self raw routes = Ok req →
  Request.headers req = Some (Request.prepare_headers raw)
  ∧ is_Some (Request.cookies req) ∧ is_Some (Request.body req)
  ∧ (Request.method req, Request.path req, Request.version req)
    = Request.extract_request_line raw.
Proof.
  unfold Request.prepare.
  destruct (Request.extract_request_line raw) as [[m p] v].
  case_bool_decide.
  - intros [= <-]. simpl. eauto.
  - simpl. destruct p; [| done]. intros [= <-]. simpl. eauto.
Qed.

(** For every parsed request the header block is the one built for a
    request without any header: the four echoed values are the literal
    defaults, whatever the client sent. *)
Lemma parsed_request_header_block self raw routes req resp :
  Request.prepare self raw routes = Ok req →
  Response.build_response_header w resp req =
  Response.build_response_header w resp (request_with_headers ∅).
Proof.
  intros [Hh _]%prepare_ok.
  unfold Response.build_response_header. rewrite Hh. simpl.
  rewrite !prepare_headers_capitalized by done.
  by rewrite !lookup_empty.
Qed.

End EchoedHeaders.

(** C2, the code at a request that carries the four headers.  The parser
    stores them under lower-case names; the header block looks them up
    under capitalized names, finds none, and writes the four defaults. *)
Theorem sent_headers_not_echoed :
  Request.prepare_headers Demo.css_request =
    {[ "accept" := "text/css"; "accept-language" := "vi";
       "authorization" := "Bearer t0ken"; "user-agent" := "curl/8.0" ]}
  ∧ HttpAdapter.handle_client Demo.world Demo.funs Demo.css_request ∅ =
    [PyStr.join PyStr.CRLF
       ["HTTP/1.1 200 OK";
        "Accept: application/json";
        "Accept-Language: en-US,en;q=0.9";
        "Authorization: Basic <credentials>";
        "Cache-Control: no-cache";
        "Content-Type: text/css";
        "Content-Length: 6";
        "Date: Tue, 03 Nov 2026 10:00:00 GMT";
        "Max-Forward: 10";
        "Pragma: no-cache";
        "Proxy-Authorization: Basic dXNlcjpwYXNz";
        "Warning: 199 Miscellaneous warning";
        "User-Agent: Chrome/123.0.0.0";
        "";
        "body{}"]].
Proof.
  split.
  - apply map_eq. intros k. vm_compute. reflexivity.
  - vm_compute. reflexivity.
Qed.

(** ** Results of route hooks *)

Section HookResults.
Context (w : World) (funs : FunRef → PyFunction).

Lemma header_block_starts_200 self req h :
  Response.build_response_header w self req = Ok h →
  ∃ rest, h = ok_line +:+ rest.
Proof.
  unfold Response.build_response_header.
  destruct (Request.headers req) as [reqhdr|]; [| done].
  destruct (Response._content self) as [c|]; [| done].
  intros [= <-]. cbn [app map PyStr.join].
  rewrite !encode_app. eexists. unfold ok_line.
  rewrite !app_assoc_s. reflexivity.
Qed.

Lemma plain_packet_starts_200 ct body :
  ∃ rest, HttpAdapter.plain_packet ct body = ok_line +:+ rest.
Proof.
  unfold HttpAdapter.plain_packet. rewrite !encode_app.
  eexists. unfold ok_line. rewrite !app_assoc_s. reflexivity.
Qed.

(** The dynamic branch of [build_response]: header block, then payload. *)
Lemma build_response_dynamic self req :
  Response.has_content self = true →
  is_Some (Request.headers req) →
  ∃ self' rest,
    Response.build_response w self req = Ok (self', ok_line +:+ rest).
Proof.
  intros Hc [reqhdr Hh]. unfold Response.build_response. rewrite Hc.
  destruct (Response.build_response_header w _ req) as [h|t msg] eqn:E.
  - destruct (header_block_starts_200 _ _ _ E) as [rest ->].
    simpl. eexists _, _. by rewrite app_assoc_s.
  - unfold Response.build_response_header in E. rewrite Hh in E.
    simpl in E. done.
Qed.

(** C3, amended.  When the matched hook returns a mapping or any other
    value that is not a Response, or a Response that carries dynamic
    content, the packet sent starts with the status line
    "HTTP/1.1 200 OK".  (A Response without dynamic content is
    serialized by static serving of the request path.) *)
Theorem hook_result_status_200 raw routes req v :
  raw ≠ "" →
  Request.prepare Request.init raw routes = Ok req →
  is_Some (Request.hook req) →
  HttpAdapter._call_hook funs req = Ok v →
  match v with
  | VResponse r => Response.has_content r = true
  | VDict _ | VOther _ => True
  end →
  ∃ rest, HttpAdapter.handle_client w funs raw routes = [ok_line +:+ rest].
Proof.
  intros Hraw Hprep [h Hh] Hcall Hv.
  unfold HttpAdapter.handle_client.
  destruct (String.eqb raw "") eqn:E; [by apply String.eqb_eq in E |].
  unfold HttpAdapter.serve. rewrite Hprep. simpl. rewrite Hh, Hcall. simpl.
  destruct v as [r | shown | shown].
  - destruct (prepare_ok _ _ _ _ Hprep) as [Hhd _].
    destruct (build_response_dynamic r req Hv) as (self' & rest & ->);
      [by rewrite Hhd |].
    simpl. eauto.
  - destruct (plain_packet_starts_200 "application/json" shown) as [rest ->].
    eauto.
  - destruct (plain_packet_starts_200 "text/plain" shown) as [rest ->].
    eauto.
Qed.

End HookResults.

(** At the hello route of the sample application. *)
Lemma hook_result_status_200_witness :
  ∃ rest,
    HttpAdapter.handle_client Demo.world Demo.funs
      (Demo.request "GET /hello HTTP/1.1" [] "") Demo.routes
    = [ok_line +:+ rest].
Proof.
  eapply (hook_result_status_200 Demo.world Demo.funs
            (Demo.request "GET /hello HTTP/1.1" [] "") Demo.routes _
            (VDict "{'message': 'Hello from SampleApp!'}")).
  - vm_compute. intros [=].
  - vm_compute. reflexivity.
  - vm_compute. eauto.
  - vm_compute. reflexivity.
  - exact I.
Defined.

(** C3 as stated fails: a hook that returns a Response without dynamic
    content, on a path that static serving does not know, is answered
    with the 404 envelope. *)
Lemma hook_response_without_content_404 :
  (Request.hook <$> Request.prepare Request.init Demo.page_request Demo.routes)
    = Ok (Some "page")
  ∧ fn_code (Demo.funs "page") [] = Ok (VResponse Response.init)
  ∧ HttpAdapter.handle_client Demo.world Demo.funs Demo.page_request Demo.routes
    = [Response.build_notfound]
  ∧ PyStr.startswith Response.build_notfound "HTTP/1.1 404 Not Found" = true
  ∧ PyStr.startswith Response.build_notfound "HTTP/1.1 200 OK" = false.
Proof. vm_compute. auto. Qed.

(** ** Calling a route hook *)

Section CallHook.
Context (funs : FunRef → PyFunction).

(** The adapter chooses from [co_varnames] alone. *)
Lemma call_hook_convention req h :
  Request.hook req = Some h →
  HttpAdapter._call_hook funs req =
  call_as (funs h) (convention_of (co_varnames (funs h))) req.
Proof.
  intros Hh. unfold HttpAdapter._call_hook, convention_of. rewrite Hh.
  repeat case_bool_decide; done.
Qed.

(** When no other local variable is named [body] or [req], the choice is
    the one made from the declared parameters. *)
Lemma convention_of_parameters f :
  "body" ∉ fn_locals f → "req" ∉ fn_locals f →
  convention_of (co_varnames f) = convention_of (fn_params f).*1.
Proof.
  intros Hb Hr. unfold convention_of, co_varnames.
  assert (∀ x, x ∉ fn_locals f →
            x ∈ (fn_params f).*1 ++ fn_locals f ↔ x ∈ (fn_params f).*1)
    as Hin by (intros x Hx; rewrite elem_of_app; tauto).
  by rewrite (bool_decide_ext _ _ (Hin _ Hb)), (bool_decide_ext _ _ (Hin _ Hr)).
Qed.

Lemma bind_args_body params a :
  "body" ∈ params.*1 →
  kw_get "body"
    (omap (fun s : string * option PyArg => pair s.1 <$> s.2)
       (bind_args params [] [("body", a)]))
  = Some a.
Proof.
  induction params as [|[x d] ps IH]; intros Hin.
  - by apply elem_of_nil in Hin.
  - cbn [bind_args kw_get omap list_omap].
    destruct (String.eqb x "body") eqn:E.
    + apply String.eqb_eq in E as ->. done.
    + assert (x ≠ "body") as Hx by (by apply String.eqb_neq).
      assert ("body" ∈ ps.*1) as Hps.
      { rewrite fmap_cons in Hin. apply elem_of_cons in Hin as [Heq | Hin];
          [by symmetry in Heq | done]. }
      destruct d as [d|];
        cbn [fmap option_fmap option_map fst snd kw_get]; [| by apply IH].
      rewrite String.eqb_sym, E. by apply IH.
Qed.

(** A function that declares [body] receives the parsed body, unchanged,
    as the value of that parameter. *)
Lemma body_only_call req h v :
  Request.hook req = Some h →
  "body" ∈ (fn_params (funs h)).*1 →
  HttpAdapter._call_hook funs req = Ok v →
  ∃ bound,
    kw_get "body" bound = Some (HttpAdapter.arg_of_body (Request.body req))
    ∧ fn_code (funs h) bound = Ok v.
Proof.
  intros Hh Hin. unfold HttpAdapter._call_hook. rewrite Hh.
  rewrite bool_decide_eq_true_2
    by (unfold co_varnames; apply elem_of_app; by left).
  unfold py_call. cbn [check_keywords length take].
  rewrite (bool_decide_eq_true_2 _ Hin).
  rewrite bool_decide_eq_false_2 by (by intros ?%elem_of_nil).
  cbn [mbind Result_bind].
  assert ((length (fn_params (funs h)) <? 0) = false) as ->
    by (by destruct (length _)).
  destruct (omap _ (bind_args _ _ _)) as [|m ms]; [| done].
  intros Hv. eexists. split; [| exact Hv].
  by apply bind_args_body.
Qed.

End CallHook.

(** C4, the code at a route function without parameters that has a local
    variable named [body].  The claim's choice, a call without arguments,
    returns the function's value; the adapter finds [body] among
    [co_varnames], calls with the keyword [body], and the call fails. *)
Theorem local_variable_selects_body_call :
  (fn_params Demo.uptime).*1 = []
  ∧ convention_of (fn_params Demo.uptime).*1 = NoArguments
  ∧ py_call Demo.uptime [] [] = Ok (VOther "up")
  ∧ convention_of (co_varnames Demo.uptime) = BodyOnly
  ∧ (Request.prepare Request.init Demo.uptime_request Demo.routes ≫=
       HttpAdapter._call_hook Demo.funs)
    = Raise TypeError "uptime() got an unexpected keyword argument 'body'"
  ∧ HttpAdapter.handle_client Demo.world Demo.funs Demo.uptime_request
      Demo.routes
    = [HttpAdapter.build_error_response 500
         "Internal Server Error: uptime() got an unexpected keyword argument 'body'"].
Proof. vm_compute. auto 10. Qed.

(** ** Static serving *)

Section StaticServing.
Context (w : World).

Lemma prepare_content_type_text self sub :
  Response.prepare_content_type self ("text/" +:+ sub) =
  Ok (Response.set_header self "Content-Type" ("text/" +:+ sub),
      if String.eqb sub "html" then "www/" else "static/").
Proof.
  unfold Response.prepare_content_type, PyStr.split1.
  change ("text/" +:+ sub) with ("text" +:+ "/" +:+ sub).
  rewrite (partition_skip "/" "" "text" _ eq_refl).
  by rewrite (partition_here "/" sub).
Qed.

Lemma prepare_content_type_image self sub :
  Response.prepare_content_type self ("image/" +:+ sub) =
  Ok (Response.set_header self "Content-Type" ("image/" +:+ sub), "static/").
Proof.
  unfold Response.prepare_content_type, PyStr.split1.
  change ("image/" +:+ sub) with ("image" +:+ "/" +:+ sub).
  rewrite (partition_skip "/" "" "image" _ eq_refl).
  by rewrite (partition_here "/" sub).
Qed.

Lemma prepare_content_type_application self sub :
  Response.prepare_content_type self ("application/" +:+ sub) =
  Ok (Response.set_header self "Content-Type" ("application/" +:+ sub),
      if String.eqb sub "octet-stream" then "static/" else "apps/").
Proof.
  unfold Response.prepare_content_type, PyStr.split1.
  change ("application/" +:+ sub) with ("application" +:+ "/" +:+ sub).
  rewrite (partition_skip "/" "" "application" _ eq_refl).
  rewrite (partition_here "/" sub). simpl.
  by destruct (String.eqb sub "octet-stream").
Qed.

Lemma prepare_content_type_other self main sub :
  no_char "/" main = true →
  main ∉ ["text"; "image"; "application"] →
  Response.prepare_content_type self (main +:+ "/" +:+ sub) =
  Raise ValueError ("Invalid MIME type: " +:+ main +:+ "/" +:+ sub).
Proof.
  intros Hmain Hnot.
  unfold Response.prepare_content_type, PyStr.split1.
  rewrite (partition_skip "/" "" main _ Hmain).
  rewrite (partition_here "/" sub), app_empty_r.
  destruct (String.eqb main "text") eqn:E1;
    [apply String.eqb_eq in E1; subst; exfalso; apply Hnot; repeat constructor |].
  destruct (String.eqb main "image") eqn:E2;
    [apply String.eqb_eq in E2; subst; exfalso; apply Hnot; repeat constructor |].
  destruct (String.eqb main "application") eqn:E3;
    [apply String.eqb_eq in E3; subst; exfalso; apply Hnot; repeat constructor |].
  done.
Qed.

Lemma startswith_spec s p :
  PyStr.startswith s p = true → ∃ r, s = p +:+ r.
Proof.
  unfold PyStr.startswith.
  destruct (PyStr.strip_prefix p s) as [r|] eqn:E; [| done].
  intros _. exists r. by apply strip_prefix_spec.
Qed.

(** The static branch of [build_response]: the base directory is
    [static_base], and the file is served from it. *)
Lemma build_response_static self req p :
  Response.has_content self = false →
  Request.path req = Some p →
  ∃ ct,
    Response.build_response w self req =
    match static_base w p with
    | Some base =>
        serve_file w (Response.set_header self "Content-Type" ct) req p base
    | None => Ok (self, Response.build_notfound)
    end.
Proof.
  intros Hc Hp. unfold Response.build_response, static_base, serve_file.
  rewrite Hc, Hp.
  set (mime := Response.get_mime_type w (Some p)).
  destruct (PyStr.endswith p ".html" || String.eqb mime "text/html").
  { exists "text/html".
    rewrite (prepare_content_type_text self "html"
             : Response.prepare_content_type self "text/html" = _). simpl.
    by destruct (Response.build_content w p "www/"). }
  destruct (String.eqb mime "text/css").
  { exists "text/css".
    rewrite (prepare_content_type_text self "css"
             : Response.prepare_content_type self "text/css" = _). simpl.
    by destruct (Response.build_content w p "static/"). }
  destruct (PyStr.endswith p ".js" || String.eqb mime "application/javascript"
            || String.eqb mime "text/javascript").
  { exists "application/javascript".
    rewrite (prepare_content_type_application self "javascript"
             : Response.prepare_content_type self "application/javascript" = _).
    simpl.
    by destruct (Response.build_content w p "apps/"). }
  destruct (PyStr.startswith mime "image/") eqn:E.
  { destruct (startswith_spec _ _ E) as [sub ->].
    exists ("image/" +:+ sub).
    rewrite (prepare_content_type_image self sub). simpl.
    by destruct (Response.build_content w p "static/"). }
  by exists "".
Qed.

(** C5, amended.  The classifier maps text/html to "www/", any other
    text type (css included) to "static/", image types to "static/",
    application/octet-stream to "static/" and any other application type
    to "apps/": javascript, which [build_response] passes as
    application/javascript, is served from "apps/".  A family outside
    text, image and application is a ValueError of the classifier;
    [build_response] itself answers a path whose type is none of html,
    css, javascript or image with the 404 envelope. *)
Theorem base_directory_classification self main sub req p :
  snd <$> Response.prepare_content_type self "text/html" = Ok "www/"
  ∧ (sub ≠ "html" →
     snd <$> Response.prepare_content_type self ("text/" +:+ sub)
     = Ok "static/")
  ∧ snd <$> Response.prepare_content_type self "text/css" = Ok "static/"
  ∧ snd <$> Response.prepare_content_type self ("image/" +:+ sub)
    = Ok "static/"
  ∧ snd <$> Response.prepare_content_type self "application/octet-stream"
    = Ok "static/"
  ∧ (sub ≠ "octet-stream" →
     snd <$> Response.prepare_content_type self ("application/" +:+ sub)
     = Ok "apps/")
  ∧ snd <$> Response.prepare_content_type self "application/javascript"
    = Ok "apps/"
  ∧ (no_char "/" main = true →
     main ∉ ["text"; "image"; "application"] →
     Response.prepare_content_type self (main +:+ "/" +:+ sub)
     = Raise ValueError ("Invalid MIME type: " +:+ main +:+ "/" +:+ sub))
  ∧ (Response.has_content self = false →
     Request.path req = Some p →
     static_base w p = None →
     Response.build_response w self req = Ok (self, Response.build_notfound)).
Proof.
  split_and!.
  - by rewrite (prepare_content_type_text self "html"
                : Response.prepare_content_type self "text/html" = _).
  - intros Hsub. rewrite prepare_content_type_text. simpl.
    by apply String.eqb_neq in Hsub as ->.
  - by rewrite (prepare_content_type_text self "css"
                : Response.prepare_content_type self "text/css" = _).
  - by rewrite prepare_content_type_image.
  - by rewrite (prepare_content_type_application self "octet-stream"
                : Response.prepare_content_type self "application/octet-stream" = _).
  - intros Hsub. rewrite prepare_content_type_application. simpl.
    by apply String.eqb_neq in Hsub as ->.
  - by rewrite (prepare_content_type_application self "javascript"
                : Response.prepare_content_type self "application/javascript" = _).
  - apply prepare_content_type_other.
  - intros Hc Hp Hb.
    destruct (build_response_static self req p Hc Hp) as [ct ->].
    by rewrite Hb.
Qed.

Lemma build_content_missing p base :
  open_rb w (Response.filepath_of p base) = FileNotFoundError →
  Response.build_content w p base = (0, "File not found").
Proof. intros H. unfold Response.build_content. by rewrite H. Qed.

(** A missing file ends in the 404 envelope. *)
Lemma serve_file_missing self req p base :
  open_rb w (Response.filepath_of p base) = FileNotFoundError →
  serve_file w self req p base =
  Ok (Response.set__content self "File not found", Response.build_notfound).
Proof.
  intros H. unfold serve_file. by rewrite (build_content_missing p base H).
Qed.

(** A file that cannot be read ends in the header block and the message. *)
Lemma serve_file_unreadable self req p base msg :
  is_Some (Request.headers req) →
  open_rb w (Response.filepath_of p base) = ReadError msg →
  ∃ self1 header rest,
    Response.build_response_header w self1 req = Ok header
    ∧ header = ok_line +:+ rest
    ∧ serve_file w self req p base =
      Ok (Response.set__header self1 header,
          header +:+ PyStr.encode ("Error reading file: " +:+ msg)).
Proof.
  intros [reqhdr Hh] Hopen.
  unfold serve_file, Response.build_content. rewrite Hopen.
  rewrite encode_app. cbn [Nat.eqb andb].
  change (PyStr.encode "Error reading file: ") with "Error reading file: ".
  cbn [String.eqb String.append Ascii.eqb Bool.eqb].
  set (self1 := Response.set__content _ _).
  destruct (Response.build_response_header w self1 req) as [h|t m] eqn:E.
  - destruct (header_block_starts_200 _ _ _ _ E) as [rest ->].
    exists self1, (ok_line +:+ rest), rest. by rewrite E.
  - unfold Response.build_response_header in E. rewrite Hh in E. done.
Qed.

(** C6, amended.  A static request whose file [open] reports missing
    (FileNotFoundError) under the base directory chosen for it is
    answered with the fixed 404 envelope: status 404, Content-Length 13
    and the 13 characters "404 Not Found".  [build_content] reports the
    missing file as size 0 with the body "File not found", and the check
    that follows turns it into the envelope. *)
Theorem missing_file_gets_404 self req p :
  Response.has_content self = false →
  Request.path req = Some p →
  (∀ base, static_base w p = Some base →
           open_rb w (Response.filepath_of p base) = FileNotFoundError) →
  (∀ base, static_base w p = Some base →
           Response.build_content w p base = (0, "File not found"))
  ∧ snd <$> Response.build_response w self req = Ok Response.build_notfound
  ∧ Response.build_notfound =
      "HTTP/1.1 404 Not Found" +:+ PyStr.CRLF +:+
      "Accept-Ranges: bytes" +:+ PyStr.CRLF +:+
      "Content-Type: text/html" +:+ PyStr.CRLF +:+
      "Content-Length: 13" +:+ PyStr.CRLF +:+
      "Cache-Control: max-age=86000" +:+ PyStr.CRLF +:+
      "Connection: close" +:+ PyStr.CRLF +:+ PyStr.CRLF +:+
      "404 Not Found"
  ∧ String.length "404 Not Found" = 13.
Proof.
  intros Hc Hp Hmiss. split; [| split; [| done]].
  - intros base Hb. apply build_content_missing. by apply Hmiss.
  - destruct (build_response_static self req p Hc Hp) as [ct ->].
    destruct (static_base w p) as [base|] eqn:Hb; [| done].
    by rewrite (serve_file_missing _ req p base (Hmiss base eq_refl)).
Qed.


End StaticServing.

(** ** Static serving on the connection *)

Section StaticOnConnection.
Context (w : World) (funs : FunRef → PyFunction).

(** A request that matches no route, is not the login and is not the
    protected page is answered by [build_response] on the fresh response. *)
Lemma serve_static raw routes req p :
  Request.prepare Request.init raw routes = Ok req →
  Request.hook req = None →
  Request.path req = Some p →
  p ≠ "/login" → p ≠ "/" → p ≠ "/index.html" →
  HttpAdapter.serve w funs raw routes =
  snd <$> Response.build_response w Response.init req.
Proof.
  intros Hprep Hh Hp H1 H2 H3. unfold HttpAdapter.serve.
  rewrite Hprep. simpl. rewrite Hh, Hp.
  rewrite (bool_decide_eq_false_2 (Some p = Some "/login")) by congruence.
  rewrite (bool_decide_eq_false_2 (Some p = Some "/")) by congruence.
  rewrite (bool_decide_eq_false_2 (Some p = Some "/index.html")) by congruence.
  by rewrite andb_false_r.
Qed.

(** The packet written to the connection for a static request whose file
    does not exist is the 404 envelope. *)
Lemma missing_file_sent_404 raw routes req p :
  raw ≠ "" →
  Request.prepare Request.init raw routes = Ok req →
  Request.hook req = None →
  Request.path req = Some p →
  p ≠ "/login" → p ≠ "/" → p ≠ "/index.html" →
  (∀ base, static_base w p = Some base →
           open_rb w (Response.filepath_of p base) = FileNotFoundError) →
  HttpAdapter.handle_client w funs raw routes = [Response.build_notfound].
Proof.
  intros Hraw Hprep Hh Hp H1 H2 H3 Hmiss. unfold HttpAdapter.handle_client.
  destruct (String.eqb raw "") eqn:E; [by apply String.eqb_eq in E |].
  rewrite (serve_static raw routes req p) by done.
  destruct (build_response_static w Response.init req p eq_refl Hp) as [ct ->].
  destruct (static_base w p) as [base|] eqn:Hb; [| done].
  by rewrite (serve_file_missing w _ req p base (Hmiss base eq_refl)).
Qed.

(** The packet written for a static request whose file cannot be read
    starts with the status line 200 and ends with the error message. *)
Lemma unreadable_file_sent_200 raw routes req p base msg :
  raw ≠ "" →
  Request.prepare Request.init raw routes = Ok req →
  Request.hook req = None →
  Request.path req = Some p →
  p ≠ "/login" → p ≠ "/" → p ≠ "/index.html" →
  static_base w p = Some base →
  open_rb w (Response.filepath_of p base) = ReadError msg →
  ∃ rest,
    HttpAdapter.handle_client w funs raw routes =
    [(ok_line +:+ rest) +:+ PyStr.encode ("Error reading file: " +:+ msg)].
Proof.
  intros Hraw Hprep Hh Hp H1 H2 H3 Hb Hopen. unfold HttpAdapter.handle_client.
  destruct (String.eqb raw "") eqn:E; [by apply String.eqb_eq in E |].
  rewrite (serve_static raw routes req p) by done.
  destruct (prepare_ok _ _ _ _ Hprep) as [Hhd _].
  destruct (build_response_static w Response.init req p eq_refl Hp) as [ct ->].
  rewrite Hb.
  destruct (serve_file_unreadable w
              (Response.set_header Response.init "Content-Type" ct)
              req p base msg) as (self1 & header & rest & _ & -> & ->);
    [by rewrite Hhd | done |].
  simpl. eauto.
Qed.

End StaticOnConnection.

(** At types that are not text/html, and at a video. *)
Lemma base_directory_classification_witness :
  snd <$> Response.prepare_content_type Response.init ("text/" +:+ "plain")
    = Ok "static/"
  ∧ snd <$> Response.prepare_content_type Response.init ("application/" +:+ "json")
    = Ok "apps/"
  ∧ Response.prepare_content_type Response.init ("video" +:+ "/" +:+ "mp4")
    = Raise ValueError "Invalid MIME type: video/mp4"
  ∧ Response.build_response Demo.world Response.init
      (Request.set_path Request.init "/movie.mp4")
    = Ok (Response.init, Response.build_notfound).
Proof.
  pose proof (base_directory_classification Demo.world Response.init
                "video" "plain" (Request.set_path Request.init "/movie.mp4")
                "/movie.mp4") as (_ & Htext & _).
  pose proof (base_directory_classification Demo.world Response.init
                "video" "json" (Request.set_path Request.init "/movie.mp4")
                "/movie.mp4") as (_ & _ & _ & _ & _ & Happ & _).
  pose proof (base_directory_classification Demo.world Response.init
                "video" "mp4" (Request.set_path Request.init "/movie.mp4")
                "/movie.mp4") as (_ & _ & _ & _ & _ & _ & _ & Hother & H404).
  split_and!.
  - apply Htext. intros [=].
  - apply Happ. intros [=].
  - apply Hother; [reflexivity |].
    intros Hin. repeat (apply elem_of_cons in Hin as [[=] | Hin]).
    by apply elem_of_nil in Hin.
  - apply H404; reflexivity.
Defined.

(** C5 as stated fails: javascript is classified under "apps/", not
    "static/", and a path of a type outside the served ones is answered
    with the 404 envelope, not with a failure. *)
Lemma javascript_served_from_apps :
  snd <$> Response.prepare_content_type Response.init "application/javascript"
    = Ok "apps/"
  ∧ static_base Demo.world "/app.js" = Some "apps/"
  ∧ Response.filepath_of "/app.js" "apps/" = "apps/app.js"
  ∧ Response.get_mime_type Demo.world (Some "/movie.mp4") = "video/mp4"
  ∧ Response.build_response Demo.world Response.init
      (Request.set_path Request.init "/movie.mp4")
    = Ok (Response.init, Response.build_notfound).
Proof. vm_compute. auto 10. Qed.

(** At a style sheet that is not on disk. *)
Lemma missing_file_gets_404_witness :
  static_base Demo.world "/nothere.css" = Some "static/"
  ∧ open_rb Demo.world "static/nothere.css" = FileNotFoundError
  ∧ snd <$> Response.build_response Demo.world Response.init
              (Request.set_path Request.init "/nothere.css")
    = Ok Response.build_notfound.
Proof.
  split; [reflexivity |]. split; [reflexivity |].
  refine (proj1 (proj2 (missing_file_gets_404 Demo.world Response.init
            (Request.set_path Request.init "/nothere.css") "/nothere.css"
            eq_refl eq_refl _))).
  intros base. vm_compute. intros [= <-]. reflexivity.
Defined.

(** C6 as stated fails: a style sheet whose name has 300 letters does
    not exist, but [open] fails on it with OSError 36 (file name too
    long), which is not FileNotFoundError; the request is answered with
    the header block of status 200 before the error text, not with the
    404 envelope. *)
Lemma missing_file_name_too_long_200 :
  Demo.fs LongName.filepath = FileNotFoundError
  ∧ static_base LongName.world LongName.path = Some "static/"
  ∧ Response.filepath_of LongName.path "static/" = LongName.filepath
  ∧ open_rb LongName.world LongName.filepath = ReadError LongName.message
  ∧ Response.build_content LongName.world LongName.path "static/"
    = (0, "Error reading file: " +:+ LongName.message)
  ∧ (fun p => PyStr.startswith p "HTTP/1.1 200 OK")
      <$> HttpAdapter.handle_client LongName.world Demo.funs
            LongName.request ∅
    = [true]
  ∧ (fun p => PyStr.endswith p ("Error reading file: " +:+ LongName.message))
      <$> HttpAdapter.handle_client LongName.world Demo.funs
            LongName.request ∅
    = [true]
  ∧ HttpAdapter.handle_client LongName.world Demo.funs LongName.request ∅
    ≠ [Response.build_notfound]
  ∧ snd <$> Response.build_response LongName.world Response.init
              (Request.set_path (request_with_headers ∅) LongName.path)
    ≠ Ok Response.build_notfound.
Proof.
  split_and!; try (vm_compute; reflexivity); vm_compute; intros [=].
Qed.


(** ** Cookies *)

Section Cookies.
Import PyStr.

Lemma split_char_cons c l rest :
  no_char c l = true →
  split (String c "") (l +:+ String c rest) = l :: split (String c "") rest.
Proof.
  intros Hl. rewrite split_unfold by done.
  rewrite (partition_skip c "" l _ Hl).
  change (String c rest) with (String c "" +:+ rest).
  by rewrite partition_here, app_empty_r.
Qed.

Lemma split_char_last c l :
  no_char c l = true → split (String c "") l = [l].
Proof.
  intros Hl. rewrite split_unfold by done.
  by rewrite (partition_none c "" l Hl).
Qed.

Lemma digits_no_semicolon d : no_char ";" (NilEmpty.string_of_uint d) = true.
Proof. induction d; simpl; done. Qed.

Lemma str_int_no_semicolon a : no_char ";" (str_int a) = true.
Proof.
  unfold str_int, NilZero.string_of_int.
  assert (∀ d, no_char ";" (NilZero.string_of_uint d) = true) as H.
  { intros d. unfold NilZero.string_of_uint.
    destruct d; try done; apply (digits_no_semicolon (_ d)). }
  destruct (Z.to_int a); [apply H |].
  unfold no_char. simpl. apply H.
Qed.

Lemma rstrip_keep s : ends_with_space s = false → rstrip s = s.
Proof.
  induction s as [|c s IH]; [done |].
  destruct s as [|d s].
  - simpl. by intros ->.
  - intros H. specialize (IH H). cbn [rstrip] in IH |- *.
    by rewrite IH.
Qed.

Lemma rstrip_app_keep a b : b ≠ "" → rstrip b = b → rstrip (a +:+ b) = a +:+ b.
Proof.
  intros Hb Hr. induction a as [|c a IH]; [done |].
  rewrite app_cons. cbn [rstrip]. rewrite IH.
  destruct (a +:+ b) eqn:E; [| done].
  destruct a; [| done]. by rewrite app_nil_l in E.
Qed.

Lemma lstrip_keep s : starts_with_space s = false → lstrip s = s.
Proof. destruct s as [|c s]; [done |]. simpl. by intros ->. Qed.

(** The stripped pair of a name and a value. *)
Lemma strip_pair name value :
  starts_with_space name = false → ends_with_space value = false →
  strip (name +:+ "=" +:+ value) = name +:+ "=" +:+ value.
Proof.
  intros Hn Hv. unfold strip.
  rewrite lstrip_keep.
  - apply rstrip_app_keep; [done |].
    change ("=" +:+ value) with (String "=" value).
    by rewrite rstrip_cons, (rstrip_keep _ Hv).
  - destruct name; [done | by rewrite app_cons].
Qed.

Lemma add_cookie_pair m name value :
  no_char "=" name = true →
  starts_with_space name = false → ends_with_space value = false →
  Request.add_cookie m (name +:+ "=" +:+ value) = <[name := value]> m.
Proof.
  intros Heq Hn Hv. unfold Request.add_cookie, contains.
  rewrite (strip_pair _ _ Hn Hv).
  rewrite (partition_skip "=" "" name _ Heq).
  by rewrite (partition_here "=" value), app_empty_r.
Qed.

(** A pair of the form [" Key=rest"] binds [Key] and nothing else. *)
Lemma add_cookie_attribute (m : gmap string string) key rest name :
  token key = true → no_char "=" key = true → name ≠ key →
  Request.add_cookie m (String " " (key +:+ "=" +:+ rest)) !! name = m !! name.
Proof.
  intros Hkey Heq Hne. unfold Request.add_cookie.
  destruct (contains "=" _); [| done].
  unfold strip. cbn [lstrip is_space].
  apply andb_true_iff in Hkey as [Hk1 Hk2].
  assert (lstrip (key +:+ "=" +:+ rest) = key +:+ "=" +:+ rest) as ->.
  { apply lstrip_keep. destruct key as [|c key]; [done |].
    rewrite app_cons. simpl. unfold no_space in Hk2. simpl in Hk2.
    apply andb_true_iff in Hk2 as [Hc _]. by apply negb_true_iff in Hc. }
  assert (∃ r, rstrip (key +:+ "=" +:+ rest) = key +:+ "=" +:+ r) as [r ->].
  { clear Hk1 Heq Hne. induction key as [|c key IH].
    - rewrite !app_nil_l. change ("=" +:+ rest) with (String "=" rest).
      rewrite rstrip_cons by done. by exists (rstrip rest).
    - unfold no_space in Hk2. simpl in Hk2.
      apply andb_true_iff in Hk2 as [Hc Hk2]. apply negb_true_iff in Hc.
      destruct (IH Hk2) as [r Hr]. exists r.
      by rewrite app_cons, rstrip_cons, Hr. }
  rewrite (partition_skip "=" "" key _ Heq).
  rewrite (partition_here "=" r), app_empty_r.
  by rewrite lookup_insert_ne.
Qed.

Lemma partition_char_some c s :
  no_char c s = false → is_Some (partition (String c "") s).
Proof.
  induction s as [|x s IH]; [done |].
  cbn [no_char all_chars partition strip_prefix].
  destruct (Ascii.eqb c x) eqn:E; [by eauto |].
  rewrite Ascii.eqb_sym, E. cbn [negb andb]. intros [[a b] ->]%IH. eauto.
Qed.

Lemma no_char_lstrip c s :
  is_space c = false → no_char c (lstrip s) = no_char c s.
Proof.
  intros Hc. induction s as [|x s IH]; [done |].
  cbn [lstrip]. destruct (is_space x) eqn:Hx; [| done].
  rewrite IH. cbn [no_char all_chars].
  destruct (Ascii.eqb_spec x c) as [-> | _]; [congruence | done].
Qed.

Lemma no_char_rstrip c s :
  is_space c = false → no_char c (rstrip s) = no_char c s.
Proof.
  intros Hc. induction s as [|x s IH]; [done |].
  cbn [rstrip]. unfold no_char in *. cbn [all_chars]. rewrite <- IH.
  destruct (rstrip s) as [|y r]; [| done].
  destruct (is_space x) eqn:Hx; [| done].
  cbn [all_chars].
  destruct (Ascii.eqb_spec x c) as [-> | _]; [congruence | done].
Qed.

(** The unpacking in [parse_cookies] cannot fail: a pair that contains
    ["="] contains it when stripped. *)
Lemma add_cookie_unpack pair :
  contains "=" pair = true → is_Some (partition "=" (strip pair)).
Proof.
  unfold contains. intros H. apply partition_char_some.
  unfold strip. rewrite no_char_rstrip, no_char_lstrip by done.
  destruct (no_char "=" pair) eqn:E; [| done].
  by rewrite (partition_none "=" "" pair E) in H.
Qed.

Lemma cookies_of_header_unfold value :
  cookies_of_header value = foldl Request.add_cookie ∅ (split ";" value).
Proof.
  unfold cookies_of_header, Request.parse_cookies, request_with_headers.
  simpl. by rewrite lookup_singleton_eq.
Qed.

(** C8, amended.  For a name without ';' and '=' that does not begin
    with white space and is not an attribute name written by
    [set_cookie] (Path, and Max-Age when a max age is given), a value
    without ';' that does not end with white space, and a path without
    ';': parsing the string serialized by [set_cookie] binds the name
    to the value. *)
Theorem cookie_roundtrip name value path max_age :
  no_char ";" name = true → no_char "=" name = true →
  starts_with_space name = false →
  name ≠ "Path" → (max_age_given max_age = true → name ≠ "Max-Age") →
  no_char ";" value = true → ends_with_space value = false →
  no_char ";" path = true →
  cookies_of_header (Response.cookie_string name value path max_age) !! name
  = Some value.
Proof.
  intros Hn1 Hn2 Hn3 Hn4 Hn5 Hv1 Hv2 Hp.
  rewrite cookies_of_header_unfold.
  assert (no_char ";" (name +:+ "=" +:+ value) = true) as Hpair.
  { unfold no_char in *. rewrite !all_chars_app, Hn1, Hv1. done. }
  assert (Response.cookie_string name value path max_age =
          (name +:+ "=" +:+ value) +:+
          String ";" (String " " ("Path" +:+ "=" +:+ path) +:+
                      if max_age_given max_age
                      then String ";" (String " " ("Max-Age" +:+ "=" +:+
                             str_int (default 0%Z max_age)))
                      else "")) as ->.
  { unfold Response.cookie_string, max_age_given.
    destruct max_age as [a|]; [case_bool_decide |]; simpl;
      rewrite ?app_assoc_s, ?app_empty_r; reflexivity. }
  rewrite (split_char_cons ";" _ _ Hpair).
  cbn [foldl]. rewrite (add_cookie_pair _ _ _ Hn2 Hn3 Hv2).
  assert (no_char ";" (String " " ("Path" +:+ "=" +:+ path)) = true) as Hattr.
  { unfold no_char in *. cbn [all_chars]. rewrite !all_chars_app, Hp. done. }
  destruct (max_age_given max_age).
  - rewrite (split_char_cons ";" _ _ Hattr).
    rewrite split_char_last.
    + cbn [foldl]. rewrite !add_cookie_attribute by auto.
      apply lookup_insert_eq.
    + pose proof (str_int_no_semicolon (default 0%Z max_age)) as Hd.
      unfold no_char in *. cbn [all_chars]. by rewrite !all_chars_app, Hd.
  - rewrite app_empty_r, split_char_last by done.
    cbn [foldl]. rewrite add_cookie_attribute by auto.
    apply lookup_insert_eq.
Qed.

End Cookies.

(** At the session cookie of the login flow, and with a max age. *)
Lemma cookie_roundtrip_witness :
  cookies_of_header (Response.cookie_string "auth" "true" "/" None) !! "auth"
    = Some "true"
  ∧ cookies_of_header (Response.cookie_string "sid" "a b=c" "/app" (Some 3600%Z))
      !! "sid" = Some "a b=c".
Proof.
  split.
  - apply (cookie_roundtrip "auth" "true" "/" None); try reflexivity.
    + intros [=].
    + intros [=].
  - apply (cookie_roundtrip "sid" "a b=c" "/app" (Some 3600%Z));
      try reflexivity.
    + intros [=].
    + intros _ [=].
Defined.

(** C8 as stated fails: a value with ';' comes back cut, a value that ends
    with white space comes back stripped, a name with '=' is not bound,
    and the name Path is bound to the path. *)
Lemma cookie_roundtrip_fails :
  cookies_of_header (Response.cookie_string "k" "a;b" "/" None) !! "k" = Some "a"
  ∧ cookies_of_header (Response.cookie_string "k" "v " "/" None) !! "k" = Some "v"
  ∧ cookies_of_header (Response.cookie_string "a=b" "c" "/" None) !! "a=b" = None
  ∧ cookies_of_header (Response.cookie_string "Path" "x" "/" None) !! "Path"
    = Some "/".
Proof. vm_compute. auto. Qed.

(** ** The root path *)

Section RootPath.
Context (w : World) (funs : FunRef → PyFunction).
Import PyStr.

(** The parsed request is a function of the request line, the header
    lines and the body of the buffer. *)
Lemma prepare_congr self raw1 raw2 routes :
  Request.extract_request_line raw1 = Request.extract_request_line raw2 →
  Request.prepare_headers raw1 = Request.prepare_headers raw2 →
  Request.extract_body raw1 = Request.extract_body raw2 →
  Request.prepare self raw1 routes = Request.prepare self raw2 routes.
Proof.
  intros H1 H2 H3. unfold Request.prepare. by rewrite H1, H2, H3.
Qed.

Lemma request_buffer_line m p v rest :
  request_buffer m p v rest =
  (m +:+ " " +:+ p +:+ " " +:+ v) +:+ CRLF +:+ rest.
Proof. unfold request_buffer. by rewrite !app_assoc_s. Qed.

Lemma partition_skip_CRLF l s :
  no_char "013" l = true →
  partition CRLF (l +:+ s) =
  match partition CRLF s with
  | Some (a, b) => Some (l +:+ a, b)
  | None => None
  end.
Proof. exact (partition_skip "013" (String "010" "") l s). Qed.

Lemma partition_skip_blank l s :
  no_char "013" l = true →
  partition (CRLF +:+ CRLF) (l +:+ s) =
  match partition (CRLF +:+ CRLF) s with
  | Some (a, b) => Some (l +:+ a, b)
  | None => None
  end.
Proof. exact (partition_skip "013" (String "010" CRLF) l s). Qed.

Lemma extract_request_line_buffer m p v rest :
  token m = true → token p = true → token v = true →
  Request.extract_request_line (request_buffer m p v rest) =
  (Some m, Some (if String.eqb p "/" then "/index.html" else p), Some v).
Proof.
  intros Hm Hp Hv. unfold Request.extract_request_line.
  destruct (request_line_no_space_break m p v Hm Hp Hv) as [Hbr _].
  rewrite request_buffer_line, (splitlines_first _ _ Hbr).
  by rewrite (split_ws_request_line m p v Hm Hp Hv).
Qed.

Lemma prepare_headers_buffer m p v rest :
  token m = true → token p = true → token v = true →
  Request.prepare_headers (request_buffer m p v rest) =
  foldl Request.add_header ∅ (split CRLF rest).
Proof.
  intros Hm Hp Hv. unfold Request.prepare_headers.
  destruct (request_line_no_space_break m p v Hm Hp Hv) as [_ Hcr].
  rewrite request_buffer_line, split_unfold by done.
  rewrite (partition_skip_CRLF _ _ Hcr).
  by rewrite (partition_here CRLF rest), app_empty_r.
Qed.

Lemma extract_body_buffer m p v rest :
  token m = true → token p = true → token v = true →
  Request.extract_body (request_buffer m p v rest) =
  Request.extract_body (CRLF +:+ rest).
Proof.
  intros Hm Hp Hv. unfold Request.extract_body, split1.
  destruct (request_line_no_space_break m p v Hm Hp Hv) as [_ Hcr].
  rewrite request_buffer_line.
  rewrite (partition_skip_blank _ _ Hcr).
  by destruct (partition _ (CRLF +:+ rest)) as [[a b]|].
Qed.

Lemma request_buffer_not_empty m p v rest :
  token m = true → String.eqb (request_buffer m p v rest) "" = false.
Proof.
  unfold token, request_buffer. intros [Hm _]%andb_true_iff.
  by destruct m.
Qed.

(** C9.  A request whose path is exactly "/" is parsed to the same
    Request as the request that differs from it only in having the path
    "/index.html": the rewrite is part of the extraction of the
    request line, before the route lookup.  Route lookup, the login and
    protected flows and static serving therefore send the same packets
    for both.  The parsed path is "/index.html", and it is the path of
    the route-lookup key. *)
Theorem root_same_as_index routes m v rest :
  token m = true → token v = true →
  Request.prepare Request.init (request_buffer m "/" v rest) routes
  = Request.prepare Request.init (request_buffer m "/index.html" v rest) routes
  ∧ HttpAdapter.handle_client w funs (request_buffer m "/" v rest) routes
    = HttpAdapter.handle_client w funs
        (request_buffer m "/index.html" v rest) routes
  ∧ ∃ req,
      Request.prepare Request.init (request_buffer m "/" v rest) routes = Ok req
      ∧ Request.path req = Some "/index.html"
      ∧ (routes ≠ ∅ → Request.hook req = routes !! (m, "/index.html")).
Proof.
  intros Hm Hv.
  assert (∀ self,
    Request.prepare self (request_buffer m "/" v rest) routes
    = Request.prepare self (request_buffer m "/index.html" v rest) routes)
    as Hprep.
  { intros self. apply prepare_congr.
    - by rewrite !extract_request_line_buffer.
    - by rewrite !prepare_headers_buffer.
    - by rewrite !extract_body_buffer. }
  split; [apply Hprep |]. split.
  - unfold HttpAdapter.handle_client, HttpAdapter.serve.
    by rewrite !request_buffer_not_empty, Hprep.
  - unfold Request.prepare.
    rewrite (extract_request_line_buffer m "/" v rest Hm eq_refl Hv).
    case_bool_decide; simpl; eexists; (split; [reflexivity |]); done.
Qed.

(** The route-lookup key is "/" only for a path that opens with "/?". *)
Lemma route_path_of_root p :
  Request.route_path_of p = "/" ↔ p = "/" ∨ startswith p "/?" = true.
Proof.
  unfold Request.route_path_of, split1. split.
  - destruct (partition "?" p) as [[a b]|] eqn:E; simpl.
    + intros ->. right. apply partition_spec in E as ->.
      unfold startswith.
      by rewrite (strip_prefix_app "/?" b : strip_prefix "/?" ("/" +:+ "?" +:+ b) = _).
    + auto.
  - intros [-> | [r ->]%startswith_spec]; [done |].
    change ("/?" +:+ r) with ("/" +:+ "?" +:+ r).
    rewrite (partition_skip "?" "" "/" _ eq_refl).
    by rewrite (partition_here "?" r).
Qed.

Lemma extract_request_line_path raw m p v :
  Request.extract_request_line raw = (m, Some p, v) →
  is_Some m ∧ p ≠ "/".
Proof.
  unfold Request.extract_request_line.
  destruct (splitlines raw) as [|first rest]; [done |].
  destruct (split_ws first) as [|a [|b [|c [|d l]]]]; try done.
  intros [= <- <- <-]. split; [eauto |].
  destruct (String.eqb_spec b "/"); [done | done].
Qed.

(** C10, amended.  When routes are registered, the route-lookup key of
    a parsed request is the method with the path cut at its first '?'.
    The path is never "/", because the request line extraction rewrote
    it, so the key path is "/" exactly when the path opens with "/?":
    a route registered under "/" is dispatched for such requests and
    for no others. *)
Theorem root_route_lookup raw routes req :
  routes ≠ ∅ →
  Request.prepare Request.init raw routes = Ok req →
  ∃ m p,
    Request.method req = Some m ∧ Request.path req = Some p ∧ p ≠ "/"
    ∧ Request.hook req = routes !! (m, Request.route_path_of p)
    ∧ (Request.route_path_of p = "/" ↔ startswith p "/?" = true).
Proof.
  intros Hr. unfold Request.prepare.
  destruct (Request.extract_request_line raw) as [[m p] v] eqn:E.
  rewrite bool_decide_eq_false_2 by done. simpl.
  destruct p as [p|]; [| done].
  destruct (extract_request_line_path _ _ _ _ E) as [[m0 ->] Hp].
  intros [= <-]. exists m0, p. simpl. split_and!; try done.
  rewrite route_path_of_root. split; [by intros [|] | auto].
Qed.

End RootPath.

(** At a GET of the root by a client that is logged in. *)
Lemma root_same_as_index_witness :
  Request.prepare Request.init
    (request_buffer "GET" "/" "HTTP/1.1" ("Cookie: auth=true" +:+ PyStr.CRLF +:+ PyStr.CRLF))
    Demo.routes
  = Request.prepare Request.init
      (request_buffer "GET" "/index.html" "HTTP/1.1" ("Cookie: auth=true" +:+ PyStr.CRLF +:+ PyStr.CRLF))
      Demo.routes
  ∧ HttpAdapter.handle_client Demo.world Demo.funs
      (request_buffer "GET" "/" "HTTP/1.1" ("Cookie: auth=true" +:+ PyStr.CRLF +:+ PyStr.CRLF))
      Demo.routes
    = HttpAdapter.handle_client Demo.world Demo.funs
        (request_buffer "GET" "/index.html" "HTTP/1.1" ("Cookie: auth=true" +:+ PyStr.CRLF +:+ PyStr.CRLF))
        Demo.routes.
Proof.
  destruct (root_same_as_index Demo.world Demo.funs Demo.routes "GET" "HTTP/1.1"
              ("Cookie: auth=true" +:+ PyStr.CRLF +:+ PyStr.CRLF)
              eq_refl eq_refl) as (H1 & H2 & _).
  exact (conj H1 H2).
Defined.

(** At a request of the root with a query string. *)
Lemma root_route_lookup_witness :
  ∃ req m p,
    Request.prepare Request.init Demo.query_root_request Demo.routes = Ok req
    ∧ Request.method req = Some m ∧ Request.path req = Some p ∧ p ≠ "/"
    ∧ Request.hook req = Demo.routes !! (m, Request.route_path_of p)
    ∧ (Request.route_path_of p = "/" ↔ PyStr.startswith p "/?" = true).
Proof.
  assert (Demo.routes ≠ ∅) as Hr.
  { intros H. apply (f_equal (fun r => r !! ("GET", "/"))) in H.
    vm_compute in H. discriminate. }
  eassert (Request.prepare Request.init Demo.query_root_request Demo.routes
           = Ok _) as Hprep by (vm_compute; reflexivity).
  destruct (root_route_lookup _ _ _ Hr Hprep) as (m & p & H).
  eexists _, m, p. split; [exact Hprep | exact H].
Defined.

(** C10 as stated fails: a request of "/?x=1" is looked up under "/" and
    dispatched to the route registered there. *)
Lemma root_route_dispatched_with_query :
  Demo.routes !! ("GET", "/") = Some "hello"
  ∧ Request.route_path_of "/?x=1" = "/"
  ∧ (Request.hook <$>
       Request.prepare Request.init Demo.query_root_request Demo.routes)
    = Ok (Some "hello")
  ∧ HttpAdapter.handle_client Demo.world Demo.funs Demo.query_root_request
      Demo.routes
    = [HttpAdapter.plain_packet "application/json"
         "{'message': 'Hello from SampleApp!'}"].
Proof. vm_compute. auto. Qed.

(** ** The case-insensitive dictionary *)

Section DictFacts.
Import CaseInsensitiveDict DictMethods.

Lemma store_get_set k k' v d :
  store_get k' (store_set k v d) =
  if decide (k = k') then Some v else store_get k' d.
Proof.
  induction d as [|[k0 v0] d IH]; cbn [store_get store_set].
  - case_decide as Hk; [subst; by rewrite String.eqb_refl |].
    apply String.eqb_neq in Hk. by rewrite String.eqb_sym, Hk.
  - destruct (String.eqb_spec k k0) as [-> | Hk]; cbn [store_get].
    + case_decide as Hk; [subst; by rewrite String.eqb_refl |].
      apply String.eqb_neq in Hk. by rewrite String.eqb_sym, Hk.
    + rewrite IH.
      destruct (String.eqb_spec k' k0) as [-> | Hk']; [| done].
      by case_decide.
Qed.

Lemma store_set_keys k v d :
  (store_set k v d).*1 =
  if decide (k ∈ d.*1) then d.*1 else d.*1 ++ [k].
Proof.
  induction d as [|[k0 v0] d IH].
  - destruct (decide (k ∈ ([] : list (string * string)).*1)) as [Hin|_];
      [by inversion Hin | done].
  - cbn [store_set]. destruct (String.eqb_spec k k0) as [-> | Hk].
    + destruct (decide (k0 ∈ ((k0, v0) :: d).*1)) as [_|Hn]; [reflexivity |].
      exfalso. apply Hn. rewrite fmap_cons. apply list_elem_of_here.
    + rewrite fmap_cons, IH.
      destruct (decide (k ∈ d.*1)) as [Hin | Hin];
        destruct (decide (k ∈ ((k0, v0) :: d).*1)) as [Hin' | Hin'];
        try reflexivity.
      * exfalso. apply Hin'. rewrite fmap_cons. by apply list_elem_of_further.
      * rewrite fmap_cons in Hin'.
        apply elem_of_cons in Hin' as [?|?]; done.
Qed.

Lemma store_get_in k d : is_Some (store_get k d) ↔ k ∈ d.*1.
Proof.
  induction d as [|[k0 v0] d IH]; simpl.
  - split; [by intros [? ?] | by intros ?%elem_of_nil].
  - destruct (String.eqb_spec k k0) as [-> | Hk].
    + split; [intros _; apply list_elem_of_here | eauto].
    + rewrite IH. split; [apply list_elem_of_further |].
      intros [?|?]%elem_of_cons; done.
Qed.

Lemma store_get_elem k v d :
  NoDup d.*1 → (k, v) ∈ d → store_get k d = Some v.
Proof.
  induction d as [|[k0 v0] d IH]; simpl; intros Hnd Hin.
  - by apply elem_of_nil in Hin.
  - apply NoDup_cons in Hnd as [Hk0 Hnd].
    apply elem_of_cons in Hin as [[= -> ->] | Hin].
    + by rewrite String.eqb_refl.
    + destruct (String.eqb_spec k k0) as [-> | _]; [| by apply IH].
      exfalso. apply Hk0. apply list_elem_of_fmap. by exists (k0, v).
Qed.

Lemma store_set_wf k v d :
  PyStr.lower k = k → store_wf d → store_wf (store_set k v d).
Proof.
  intros Hk [Hnd Hlow]. unfold store_wf. rewrite store_set_keys.
  destruct (decide (k ∈ d.*1)); [done |]. split.
  - apply NoDup_app. split_and!; [done | | apply NoDup_singleton].
    intros x Hx ->%list_elem_of_singleton. done.
  - apply Forall_app. split; [done | by apply Forall_singleton].
Qed.

Lemma omap_fixed {A} (f : A → option A) (l : list A) :
  (∀ x, x ∈ l → f x = Some x) → omap f l = l.
Proof.
  induction l as [|x l IH]; intros Hf; [done |].
  cbn [omap list_omap]. rewrite (Hf x) by apply list_elem_of_here.
  f_equal. apply IH. intros y Hy. apply Hf. by apply list_elem_of_further.
Qed.

Lemma items_of_wf d : store_wf d → items d = d.
Proof.
  unfold items, __getitem__. intros [Hnd Hlow].
  apply omap_fixed. intros [k v] Hin. simpl.
  rewrite Forall_forall in Hlow. rewrite Hlow.
  - by rewrite (store_get_elem k v d Hnd Hin).
  - apply list_elem_of_fmap. by exists (k, v).
Qed.

(** X1.  Reading a key after writing one: the value written when the two
    keys agree up to case, the value held before otherwise. *)
Theorem getitem_after_setitem k k' v d :
  __getitem__ k' (__setitem__ k v d) =
  if decide (PyStr.lower k = PyStr.lower k') then Some v else __getitem__ k' d.
Proof. unfold __getitem__, __setitem__. apply store_get_set. Qed.

(** X2.  Writing a key keeps the store well formed: every key once and
    lower-case.  The number of entries grows by one for a new key and stays
    for a key that is present, whatever its case; [items()] then yields the
    entries of the store, in its order. *)
Theorem setitem_keeps_store k v d :
  store_wf d →
  store_wf (__setitem__ k v d)
  ∧ items (__setitem__ k v d) = __setitem__ k v d
  ∧ __len__ (__setitem__ k v d) =
    (if decide (is_Some (__getitem__ k d)) then __len__ d else S (__len__ d)).
Proof.
  intros Hwf.
  assert (store_wf (__setitem__ k v d)) as Hwf'
    by (apply store_set_wf; [apply lower_idem | done]).
  split; [done |]. split; [by apply items_of_wf |].
  unfold __len__, __setitem__, __getitem__.
  rewrite <- !(length_fmap fst), store_set_keys.
  destruct (decide (PyStr.lower k ∈ d.*1)) as [Hin | Hin].
  - rewrite decide_True by (by apply store_get_in). done.
  - rewrite decide_False by (by rewrite store_get_in).
    rewrite length_app. simpl. lia.
Qed.

Lemma store_del_spec k d :
  NoDup d.*1 →
  match store_del k d with
  | Some d' =>
      k ∈ d.*1 ∧ ¬ (k ∈ d'.*1) ∧ NoDup (d'.*1)
      ∧ ∀ k', k' ≠ k → store_get k' d' = store_get k' d
  | None => k ∉ d.*1
  end.
Proof.
  induction d as [|[k0 v0] d IH]; simpl; intros Hnd.
  - apply not_elem_of_nil.
  - apply NoDup_cons in Hnd as [Hk0 Hnd].
    destruct (String.eqb_spec k k0) as [-> | Hk].
    + split_and!; [apply list_elem_of_here | done | done |].
      intros k' Hk'. by apply String.eqb_neq in Hk' as ->.
    + specialize (IH Hnd). destruct (store_del k d) as [d'|]; simpl.
      * destruct IH as (Hin & Hnin & Hnd' & Hget). split_and!.
        -- by apply list_elem_of_further.
        -- intros [?|?]%elem_of_cons; done.
        -- apply NoDup_cons. split; [| done].
           intros Hin'. apply Hk0.
           apply store_get_in. apply store_get_in in Hin' as [x Hx].
           rewrite Hget in Hx by done. eauto.
        -- intros k' Hk'. destruct (String.eqb k' k0); [done | by apply Hget].
      * intros [?|?]%elem_of_cons; done.
Qed.

(** X3.  Deleting a key fails exactly when no entry agrees with it up to
    case.  When it succeeds, that key is gone and every other key reads as
    before. *)
Theorem delitem_removes_key k d :
  store_wf d →
  match __delitem__ k d with
  | Some d' =>
      is_Some (__getitem__ k d) ∧ __getitem__ k d' = None
      ∧ ∀ k', PyStr.lower k' ≠ PyStr.lower k →
              __getitem__ k' d' = __getitem__ k' d
  | None => __getitem__ k d = None
  end.
Proof.
  intros [Hnd _]. unfold __delitem__, __getitem__.
  pose proof (store_del_spec (PyStr.lower k) d Hnd) as H.
  destruct (store_del (PyStr.lower k) d) as [d'|].
  - destruct H as (Hin & Hnin & _ & Hget). split_and!.
    + by apply store_get_in.
    + apply eq_None_not_Some. by rewrite store_get_in.
    + intros k' Hk'. by apply Hget.
  - apply eq_None_not_Some. by rewrite store_get_in.
Qed.

End DictFacts.

(** At a store of one cookie, written again under another case. *)
Lemma setitem_keeps_store_witness :
  store_wf [("auth", "auth=true; Path=/")]
  ∧ store_wf (CaseInsensitiveDict.__setitem__ "Auth" "x" [("auth", "auth=true; Path=/")])
  ∧ DictMethods.__len__
      (CaseInsensitiveDict.__setitem__ "Auth" "x" [("auth", "auth=true; Path=/")]) = 1.
Proof.
  assert (store_wf [("auth", "auth=true; Path=/")]) as Hwf.
  { split; [apply NoDup_singleton | by apply Forall_singleton]. }
  split; [exact Hwf |].
  destruct (setitem_keeps_store "Auth" "x" _ Hwf) as (H1 & _ & H3).
  split; [exact H1 | exact H3].
Defined.

(** At a store of one cookie, deleted under another case. *)
Lemma delitem_removes_key_witness :
  ∃ d', DictMethods.__delitem__ "AUTH" [("auth", "auth=true; Path=/")] = Some d'
        ∧ CaseInsensitiveDict.__getitem__ "AUTH" d' = None.
Proof.
  assert (store_wf [("auth", "auth=true; Path=/")]) as Hwf.
  { split; [apply NoDup_singleton | by apply Forall_singleton]. }
  pose proof (delitem_removes_key "AUTH" _ Hwf) as H.
  destruct (DictMethods.__delitem__ "AUTH" [("auth", "auth=true; Path=/")])
    as [d'|] eqn:E.
  - destruct H as (_ & H2 & _). eauto.
  - vm_compute in E. discriminate.
Defined.

(** ** Cookies of a response, headers of a built request *)

Lemma store_set_twice k v1 v2 d :
  CaseInsensitiveDict.store_set k v2 (CaseInsensitiveDict.store_set k v1 d)
  = CaseInsensitiveDict.store_set k v2 d.
Proof.
  induction d as [|[k0 v0] d IH]; cbn [CaseInsensitiveDict.store_set].
  - by rewrite String.eqb_refl.
  - destruct (String.eqb k k0) eqn:E; cbn [CaseInsensitiveDict.store_set].
    + by rewrite String.eqb_refl.
    + by rewrite E, IH.
Qed.

(** X4.  A cookie set again under a name that agrees up to case replaces
    the earlier one: the response is the one obtained by the second
    [set_cookie] alone, so one Set-Cookie line is written for the name. *)
Theorem set_cookie_same_name_replaces r n1 v1 p1 a1 n2 v2 p2 a2 :
  PyStr.lower n1 = PyStr.lower n2 →
  Response.set_cookie (Response.set_cookie r n1 v1 p1 a1) n2 v2 p2 a2
  = Response.set_cookie r n2 v2 p2 a2.
Proof.
  intros Hn. unfold Response.set_cookie, CaseInsensitiveDict.__setitem__.
  simpl. by rewrite Hn, store_set_twice.
Qed.

Lemma set_cookie_same_name_replaces_witness :
  Response.set_cookie
    (Response.set_cookie Response.init "Auth" "false" "/" None)
    "auth" "true" "/" None
  = Response.set_cookie Response.init "auth" "true" "/" None.
Proof.
  exact (set_cookie_same_name_replaces Response.init
           "Auth" "false" "/" None "auth" "true" "/" None eq_refl).
Defined.

(** X5.  A cookie string stored by [prepare_cookies] goes under the key
    "Cookie"; [parse_cookies] reads the key "cookie", so it finds what
    it found before. *)
Theorem prepare_cookies_not_parsed self cookies :
  Request.parse_cookies (RequestBuild.prepare_cookies self cookies)
  = Request.parse_cookies self.
Proof.
  unfold Request.parse_cookies, RequestBuild.prepare_cookies. simpl.
  by rewrite lookup_insert_ne.
Qed.

(** X6.  After [prepare_body] the header Content-Length holds the number
    of characters of the body that the request then has: the data given,
    or the body it had when no data is given. *)
Theorem prepare_body_content_length self data :
  Request.body (RequestBuild.prepare_body self data) =
    match data with
    | Some d => if String.eqb d "" then Request.body self else Some d
    | None => Request.body self
    end
  ∧ default ∅ (Request.headers (RequestBuild.prepare_body self data))
      !! "Content-Length"
    = Some (PyStr.str_nat
              (String.length
                 (default "" (Request.body (RequestBuild.prepare_body self data))))).
Proof.
  unfold RequestBuild.prepare_body, RequestBuild.prepare_content_length.
  destruct data as [d|]; [destruct (String.eqb_spec d "") as [-> | Hd] |];
    simpl; (split; [done |]); rewrite lookup_insert_eq;
    try (destruct (Request.body self) as [b|]; simpl;
         [destruct (String.eqb_spec b "") as [-> | _] |]; done).
  by apply String.eqb_neq in Hd as ->.
Qed.

(** ** Header lines *)

Section HeaderLines.
Import PyStr.

Lemma join_cons sep x y l :
  join sep (x :: y :: l) = x +:+ sep +:+ join sep (y :: l).
Proof. reflexivity. Qed.

(** Lines without CR, joined by CR LF, are the lines that [split] cuts. *)
Lemma split_join_CRLF x l :
  Forall (fun s => no_char "013" s = true) (x :: l) →
  split CRLF (join CRLF (x :: l)) = x :: l.
Proof.
  revert x. induction l as [|y l IH]; intros x Hall.
  - apply Forall_cons in Hall as [Hx _]. cbn [join].
    rewrite split_unfold by done.
    by rewrite (partition_none "013" (String "010" "") x Hx : partition CRLF x = None).
  - apply Forall_cons in Hall as [Hx Hl]. rewrite join_cons.
    rewrite split_unfold by done.
    rewrite (partition_skip_CRLF _ _ Hx), partition_here, app_empty_r.
    by rewrite (IH y Hl).
Qed.

Lemma add_header_line m k v :
  no_char ":" k = true →
  Request.add_header m (k +:+ ": " +:+ v) = <[lower k := v]> m.
Proof.
  intros Hk. unfold Request.add_header.
  rewrite (partition_skip ":" " " k _ Hk).
  by rewrite (partition_here ": " v), app_empty_r.
Qed.

(** X7.  The last line of the form "Name: value" decides the header
    stored under the lower-cased name, wherever the line stands in the
    buffer: the parser reads every line after the first, those after the
    blank line included. *)
Theorem last_header_line_wins first lines k v :
  Forall (fun s => no_char "013" s = true) (first :: lines) →
  no_char "013" k = true → no_char "013" v = true →
  no_char ":" k = true →
  Request.prepare_headers
    (join CRLF (first :: lines ++ [k +:+ ": " +:+ v])) !! lower k = Some v.
Proof.
  intros Hall Hk Hv Hcolon. unfold Request.prepare_headers.
  rewrite split_join_CRLF.
  - cbn [tail]. rewrite foldl_app. cbn [foldl].
    rewrite add_header_line by done. apply lookup_insert_eq.
  - apply Forall_cons in Hall as [Hf Hl]. apply Forall_cons. split; [done |].
    apply Forall_app. split; [done |]. apply Forall_singleton.
    unfold no_char in *. by rewrite !all_chars_app, Hk, Hv.
Qed.

Lemma foldl_add_header_from_line lines m k v :
  foldl Request.add_header m lines !! k = Some v →
  m !! k = Some v
  ∨ ∃ line k0, line ∈ lines ∧ line = k0 +:+ ": " +:+ v ∧ k = lower k0.
Proof.
  revert m. induction lines as [|line lines IH]; intros m; cbn [foldl].
  - auto.
  - intros [H | (l & k0 & Hin & Hl & Hk)]%IH.
    + unfold Request.add_header in H.
      destruct (partition ": " line) as [[k0 v0]|] eqn:E; [| auto].
      destruct (decide (lower k0 = k)) as [<- | Hne].
      * rewrite lookup_insert_eq in H. injection H as ->.
        right. exists line, k0. split_and!; [apply list_elem_of_here | | done].
        by apply partition_spec in E.
      * rewrite lookup_insert_ne in H by done. auto.
    + right. exists l, k0. split_and!; [by apply list_elem_of_further | done..].
Qed.

(** X8.  Every header that the parser stores comes from a line of the
    buffer after the first: the line is a name, ": " and the value, and
    the key is the lower-cased name. *)
Theorem parsed_header_from_line raw k v :
  Request.prepare_headers raw !! k = Some v →
  ∃ line k0,
    line ∈ tail (split CRLF raw)
    ∧ line = k0 +:+ ": " +:+ v ∧ k = lower k0.
Proof.
  unfold Request.prepare_headers.
  intros [H | H]%foldl_add_header_from_line; [| done].
  by rewrite lookup_empty in H.
Qed.

End HeaderLines.

(** At a POST whose body has the form of a header line. *)
Lemma last_header_line_wins_witness :
  Request.prepare_headers
    (PyStr.join PyStr.CRLF
       (["POST /x HTTP/1.1"; "Cookie: auth=false"; ""]
        ++ ["Cookie" +:+ ": " +:+ "auth=true"])) !! "cookie" = Some "auth=true".
Proof.
  apply (last_header_line_wins "POST /x HTTP/1.1"
           ["Cookie: auth=false"; ""] "Cookie" "auth=true"); try reflexivity.
  repeat constructor.
Defined.

Lemma parsed_header_from_line_witness :
  ∃ line k0,
    line ∈ tail (PyStr.split PyStr.CRLF Demo.css_request)
    ∧ line = k0 +:+ ": " +:+ "curl/8.0" ∧ "user-agent" = PyStr.lower k0.
Proof.
  apply (parsed_header_from_line Demo.css_request "user-agent" "curl/8.0").
  vm_compute. reflexivity.
Defined.

(** ** Several cookies, several form fields *)

Section PairLists.
Import PyStr.

(** Parts without the separating character, joined by it, are the parts
    that [split] cuts. *)
Lemma split_join_char c x l :
  Forall (fun s => no_char c s = true) (x :: l) →
  split (String c "") (join (String c "") (x :: l)) = x :: l.
Proof.
  revert x. induction l as [|y l IH]; intros x Hall.
  - apply Forall_cons in Hall as [Hx _]. by apply split_char_last.
  - apply Forall_cons in Hall as [Hx Hl]. rewrite join_cons.
    change (String c "" +:+ join (String c "") (y :: l))
      with (String c (join (String c "") (y :: l))).
    by rewrite (split_char_cons c x _ Hx), (IH y Hl).
Qed.

Lemma split_join_cookies pre x l :
  no_char ";" pre = true →
  Forall (fun s => no_char ";" s = true) (x :: l) →
  split ";" (pre +:+ join "; " (x :: l)) = (pre +:+ x) :: (String " " <$> l).
Proof.
  revert pre x. induction l as [|y l IH]; intros pre x Hpre Hall.
  - apply Forall_cons in Hall as [Hx _]. cbn [join].
    apply split_char_last. unfold no_char in *.
    by rewrite all_chars_app, Hpre, Hx.
  - apply Forall_cons in Hall as [Hx Hl]. rewrite join_cons.
    change (pre +:+ x +:+ "; " +:+ join "; " (y :: l))
      with (pre +:+ x +:+ String ";" (" " +:+ join "; " (y :: l))).
    rewrite <- app_assoc_s.
    rewrite split_char_cons
      by (unfold no_char in *; by rewrite all_chars_app, Hpre, Hx).
    rewrite (IH " " y eq_refl Hl). done.
Qed.

Lemma add_cookie_spaced m k v :
  no_char "=" k = true →
  starts_with_space k = false → ends_with_space v = false →
  Request.add_cookie m (String " " (k +:+ "=" +:+ v)) = <[k := v]> m.
Proof.
  intros Heq Hk Hv. unfold Request.add_cookie, contains.
  change (String " " (k +:+ "=" +:+ v)) with ((String " " k) +:+ "=" +:+ v) at 1.
  rewrite (partition_skip "=" "" (String " " k) _)
    by (unfold no_char in *; cbn [all_chars]; by rewrite Heq).
  rewrite (partition_here "=" v).
  change (strip (String " " (k +:+ "=" +:+ v))) with (strip (k +:+ "=" +:+ v)).
  rewrite (strip_pair _ _ Hk Hv).
  rewrite (partition_skip "=" "" k _ Heq).
  by rewrite (partition_here "=" v), app_empty_r.
Qed.

Lemma cookie_pair_ok_spec kv :
  cookie_pair_ok kv = true →
  no_char ";" kv.1 = true ∧ no_char "=" kv.1 = true
  ∧ starts_with_space kv.1 = false
  ∧ no_char ";" kv.2 = true ∧ ends_with_space kv.2 = false.
Proof.
  unfold cookie_pair_ok.
  rewrite !andb_true_iff, !negb_true_iff. tauto.
Qed.

Lemma pair_no_semicolon kv :
  cookie_pair_ok kv = true → no_char ";" (pair_string kv) = true.
Proof.
  intros (H1 & _ & _ & H2 & _)%cookie_pair_ok_spec.
  unfold pair_string, no_char in *. by rewrite !all_chars_app, H1, H2.
Qed.

Lemma foldl_add_cookie_spaced kvs m :
  forallb cookie_pair_ok kvs = true →
  foldl Request.add_cookie m (String " " <$> (pair_string <$> kvs))
  = foldl (fun m kv => <[kv.1 := kv.2]> m) m kvs.
Proof.
  revert m. induction kvs as [|kv kvs IH]; intros m; [done |].
  cbn [forallb]. intros [Hkv Hall]%andb_true_iff.
  rewrite !fmap_cons. cbn [foldl].
  destruct (cookie_pair_ok_spec kv Hkv) as (_ & H2 & H3 & _ & H5).
  unfold pair_string at 1. rewrite add_cookie_spaced by done.
  by apply IH.
Qed.

(** X9.  A cookie header of several pairs "name=value" separated by
    "; " binds every name to its value, a later pair replacing an
    earlier one of the same name; names are without ';' and '=' and do
    not begin with white space, values are without ';' and do not end
    with white space. *)
Theorem cookie_header_parsed kvs :
  forallb cookie_pair_ok kvs = true →
  cookies_of_header (join "; " (pair_string <$> kvs))
  = foldl (fun m kv => <[kv.1 := kv.2]> m) ∅ kvs.
Proof.
  intros Hall. rewrite cookies_of_header_unfold.
  destruct kvs as [|kv kvs]; [done |].
  cbn [forallb] in Hall. apply andb_true_iff in Hall as [Hkv Hall].
  rewrite fmap_cons.
  rewrite <- (app_nil_l (join "; " _)).
  rewrite split_join_cookies; [| done |].
  - rewrite app_nil_l. cbn [foldl].
    destruct (cookie_pair_ok_spec kv Hkv) as (_ & H2 & H3 & _ & H5).
    unfold pair_string at 1. rewrite add_cookie_pair by done.
    by apply foldl_add_cookie_spaced.
  - apply Forall_cons. split; [by apply pair_no_semicolon |].
    apply Forall_fmap, Forall_forall. intros x Hx. apply pair_no_semicolon.
    rewrite forallb_forall in Hall. apply Hall. by apply list_elem_of_In.
Qed.

Lemma add_field_pair m k v :
  no_char "=" k = true →
  Request.add_field m (k +:+ "=" +:+ v) = <[k := replace "+" " " v]> m.
Proof.
  intros Hk. unfold Request.add_field.
  rewrite (partition_skip "=" "" k _ Hk).
  by rewrite (partition_here "=" v), app_empty_r.
Qed.

Lemma form_pair_ok_spec kv :
  form_pair_ok kv = true →
  no_char "&" kv.1 = true ∧ no_char "=" kv.1 = true ∧ no_char "&" kv.2 = true.
Proof. unfold form_pair_ok. rewrite !andb_true_iff. tauto. Qed.

Lemma foldl_add_field kvs m :
  forallb form_pair_ok kvs = true →
  foldl Request.add_field m (pair_string <$> kvs)
  = foldl (fun m kv => <[kv.1 := replace "+" " " kv.2]> m) m kvs.
Proof.
  revert m. induction kvs as [|kv kvs IH]; intros m; [done |].
  cbn [forallb]. intros [Hkv Hall]%andb_true_iff.
  rewrite fmap_cons. cbn [foldl].
  destruct (form_pair_ok_spec kv Hkv) as (_ & H2 & _).
  unfold pair_string at 1. rewrite add_field_pair by done.
  by apply IH.
Qed.

(** X10.  A body of fields "name=value" separated by '&' is decoded to
    the mapping of every name to its value with each '+' turned into a
    space and nothing else changed, a later field replacing an earlier
    one of the same name; names are without '&' and '=', values without
    '&'. *)
Theorem form_fields_parsed self kvs :
  forallb form_pair_ok kvs = true →
  Request.parse_form_data
    (RequestBuild.set_body self (join "&" (pair_string <$> kvs)))
  = foldl (fun m kv => <[kv.1 := replace "+" " " kv.2]> m) ∅ kvs.
Proof.
  intros Hall. unfold Request.parse_form_data. simpl.
  destruct kvs as [|kv kvs]; [done |].
  rewrite fmap_cons, split_join_char.
  - rewrite <- fmap_cons. by apply foldl_add_field.
  - rewrite <- fmap_cons. apply Forall_fmap, Forall_forall. intros x Hx.
    rewrite forallb_forall in Hall.
    apply list_elem_of_In, Hall, form_pair_ok_spec in Hx as (H1 & _ & H3).
    unfold pair_string, no_char in *. simpl.
    by rewrite !all_chars_app, H1, H3.
Qed.

Lemma replace_removes old new s :
  old ≠ new → no_char old (replace old new s) = true.
Proof.
  intros Hne. induction s as [|c s IH]; [done |].
  cbn [replace no_char all_chars]. unfold no_char in IH. rewrite IH.
  destruct (Ascii.eqb_spec c old) as [-> | Hc].
  - apply Ascii.eqb_neq in Hne. by rewrite Ascii.eqb_sym, Hne.
  - by apply Ascii.eqb_neq in Hc as ->.
Qed.

(** X11.  No value of a decoded form contains '+'. *)
Theorem form_values_have_no_plus self k v :
  Request.parse_form_data self !! k = Some v → no_char "+" v = true.
Proof.
  unfold Request.parse_form_data.
  generalize (split "&" (default "" (Request.body self))). intros pairs.
  assert (∀ k v, (∅ : gmap string string) !! k = Some v → no_char "+" v = true)
    as H0 by (intros ? ?; by rewrite lookup_empty).
  revert H0 k v. generalize (∅ : gmap string string).
  induction pairs as [|pair pairs IH]; intros m Hm k v; cbn [foldl].
  - apply Hm.
  - apply IH. intros k' v'. unfold Request.add_field.
    destruct (partition "=" pair) as [[k0 v0]|]; [| apply Hm].
    destruct (decide (k0 = k')) as [<- | Hne].
    + rewrite lookup_insert_eq. intros [= <-]. by apply replace_removes.
    + rewrite lookup_insert_ne by done. apply Hm.
Qed.

End PairLists.

(** At two cookies, the second with spaces inside its value. *)
Lemma cookie_header_parsed_witness :
  cookies_of_header "auth=true; theme=dark mode"
  = <["theme" := "dark mode"]> (<["auth" := "true"]> ∅).
Proof.
  exact (cookie_header_parsed [("auth", "true"); ("theme", "dark mode")] eq_refl).
Defined.

(** At the form of the login page, with a '+' in a value. *)
Lemma form_fields_parsed_witness :
  Request.parse_form_data
    (RequestBuild.set_body Request.init "username=admin&password=pass+word")
  = <["password" := "pass word"]> (<["username" := "admin"]> ∅).
Proof.
  exact (form_fields_parsed Request.init
           [("username", "admin"); ("password", "pass+word")] eq_refl).
Defined.

Lemma form_values_have_no_plus_witness :
  no_char "+" "a b" = true.
Proof.
  apply (form_values_have_no_plus
           (RequestBuild.set_body Request.init "q=a+b") "q" "a b").
  vm_compute. reflexivity.
Defined.

(** ** Parsed buffers *)

Section ParsedBuffers.
Context (w : World) (funs : FunRef → PyFunction).
Import PyStr.

(** The request parsed from a buffer that opens with a request line of
    three names. *)
Lemma prepare_buffer m p v rest routes :
  token m = true → token p = true → token v = true →
  ∃ req,
    Request.prepare Request.init (request_buffer m p v rest) routes = Ok req
    ∧ Request.method req = Some m
    ∧ Request.path req = Some (if String.eqb p "/" then "/index.html" else p)
    ∧ Request.hook req =
        (if bool_decide (routes = ∅) then None
         else routes !! (m, Request.route_path_of
                              (if String.eqb p "/" then "/index.html" else p)))
    ∧ Request.headers req = Some (foldl Request.add_header ∅ (split CRLF rest))
    ∧ Request.body req =
        Some (if String.eqb m "POST"
              then Request.extract_body (CRLF +:+ rest) else "").
Proof.
  intros Hm Hp Hv. unfold Request.prepare.
  rewrite (extract_request_line_buffer m p v rest Hm Hp Hv).
  rewrite (prepare_headers_buffer m p v rest Hm Hp Hv).
  rewrite (extract_body_buffer m p v rest Hm Hp Hv).
  assert (bool_decide (Some m = Some "POST") = String.eqb m "POST") as Hpost.
  { destruct (String.eqb_spec m "POST") as [-> | Hne];
      [by apply bool_decide_eq_true_2 |].
    apply bool_decide_eq_false_2. by intros [= ->]. }
  destruct (bool_decide (routes = ∅)); simpl; eexists;
    (split; [reflexivity |]); simpl; rewrite Hpost; split_and!; reflexivity.
Qed.

Lemma partition_blank_after_line h s :
  header_line_ok h = true →
  partition (CRLF +:+ CRLF) (CRLF +:+ h +:+ s) =
  match partition (CRLF +:+ CRLF) s with
  | Some (a, b) => Some (CRLF +:+ h +:+ a, b)
  | None => None
  end.
Proof.
  unfold header_line_ok. intros [Hne Hcr]%andb_true_iff.
  destruct h as [|c h]; [done |].
  pose proof Hcr as Hcr'. unfold no_char in Hcr'. cbn [all_chars] in Hcr'.
  apply andb_true_iff in Hcr' as [Hc _]. apply negb_true_iff in Hc.
  unfold no_char in Hcr. cbn [all_chars] in Hcr.
  apply andb_true_iff in Hcr as [_ Hh].
  pose proof (partition_skip_blank h s Hh) as Hskip.
  change (CRLF +:+ CRLF)
    with (String "013" (String "010" (String "013" (String "010" ""))))
    in Hskip |- *.
  change (CRLF +:+ String c h +:+ s)
    with (String "013" (String "010" (String c (h +:+ s)))).
  cbn [partition strip_prefix].
  rewrite !Ascii.eqb_refl, (Ascii.eqb_sym "013" c), Hc.
  change (Ascii.eqb "013" "010") with false. cbn match.
  rewrite Hskip.
  destruct (partition _ s) as [[a b]|]; reflexivity.
Qed.

Lemma extract_body_after_headers hs b :
  forallb header_line_ok hs = true →
  Request.extract_body (CRLF +:+ header_block hs +:+ CRLF +:+ b) = b.
Proof.
  intros Hall. unfold Request.extract_body, split1.
  assert (∃ a, partition (CRLF +:+ CRLF)
                 (CRLF +:+ header_block hs +:+ CRLF +:+ b) = Some (a, b))
    as [a ->]; [| done].
  induction hs as [|h hs IH].
  - exists "". cbn [header_block foldr]. rewrite app_nil_l.
    rewrite <- app_assoc_s. apply partition_here.
  - cbn [forallb] in Hall. apply andb_true_iff in Hall as [Hh Hall].
    destruct (IH Hall) as [a Ha].
    cbn [header_block foldr]. fold (header_block hs).
    rewrite !app_assoc_s.
    rewrite (partition_blank_after_line h _ Hh), Ha. eauto.
Qed.

(** X12.  The body of a parsed POST is everything after the first blank
    line of the buffer, unchanged; for every other method the body is
    the empty string, whatever the buffer carries. *)
Theorem post_body_roundtrip m p v hs b routes :
  token m = true → token p = true → token v = true →
  forallb header_line_ok hs = true →
  ∃ req,
    Request.prepare Request.init
      (request_buffer m p v (header_block hs +:+ CRLF +:+ b)) routes = Ok req
    ∧ Request.method req = Some m
    ∧ Request.body req = Some (if String.eqb m "POST" then b else "").
Proof.
  intros Hm Hp Hv Hhs.
  destruct (prepare_buffer m p v (header_block hs +:+ CRLF +:+ b) routes
              Hm Hp Hv) as (req & Hprep & Hmeth & _ & _ & _ & Hbody).
  exists req. split_and!; [done | done |].
  by rewrite Hbody, (extract_body_after_headers hs b Hhs).
Qed.

Lemma route_path_of_query q query :
  no_char "?" q = true →
  Request.route_path_of (q +:+ query_suffix query) = q.
Proof.
  intros Hq. unfold Request.route_path_of, split1, query_suffix.
  destruct query as [s|].
  - rewrite (partition_skip "?" "" q _ Hq).
    by rewrite (partition_here "?" s), app_empty_r.
  - by rewrite app_empty_r, (partition_none "?" "" q Hq).
Qed.

Lemma serve_hook raw routes req h :
  raw ≠ "" →
  Request.prepare Request.init raw routes = Ok req →
  Request.hook req = Some h →
  HttpAdapter.handle_client w funs raw routes = hook_packets w funs req.
Proof.
  intros Hraw Hprep Hh. unfold HttpAdapter.handle_client, hook_packets.
  destruct (String.eqb raw "") eqn:E; [by apply String.eqb_eq in E |].
  unfold HttpAdapter.serve. rewrite Hprep. simpl. rewrite Hh.
  destruct (HttpAdapter._call_hook funs req) as [[r | s | s] | t msg];
    simpl; try done.
  by destruct (Response.build_response w r req) as [[self' pkt] | t msg].
Qed.


End ParsedBuffers.

(** At a POST with one header line and a body of two lines. *)
Lemma post_body_roundtrip_witness :
  ∃ req,
    Request.prepare Request.init
      (request_buffer "POST" "/echo" "HTTP/1.1"
         (header_block ["Content-Type: text/plain"] +:+ PyStr.CRLF +:+
          ("ping" +:+ PyStr.CRLF +:+ PyStr.CRLF +:+ "pong")))
      Demo.routes = Ok req
    ∧ Request.method req = Some "POST"
    ∧ Request.body req = Some ("ping" +:+ PyStr.CRLF +:+ PyStr.CRLF +:+ "pong").
Proof.
  exact (post_body_roundtrip "POST" "/echo" "HTTP/1.1"
           ["Content-Type: text/plain"]
           ("ping" +:+ PyStr.CRLF +:+ PyStr.CRLF +:+ "pong") Demo.routes
           eq_refl eq_refl eq_refl eq_refl).
Defined.


(** ** Files that exist, and where they are looked for *)

Section StaticFiles.
Context (w : World) (funs : FunRef → PyFunction).
Import PyStr.

Lemma serve_file_read self req p base buf :
  is_Some (Request.headers req) →
  open_rb w (Response.filepath_of p base) = ReadOk buf →
  ∃ header rest,
    Response.build_response_header w (Response.set__content self buf) req
      = Ok header
    ∧ header = ok_line +:+ rest
    ∧ serve_file w self req p base =
      Ok (Response.set__header (Response.set__content self buf) header,
          header +:+ buf).
Proof.
  intros [reqhdr Hh] Hopen.
  unfold serve_file, Response.build_content. rewrite Hopen.
  cbv beta iota zeta.
  assert (Nat.eqb (String.length buf) 0 && String.eqb buf "File not found"
          = false) as -> by (by destruct buf).
  destruct (Response.build_response_header w
              (Response.set__content self buf) req) as [h|t m] eqn:E.
  - destruct (header_block_starts_200 _ _ _ _ E) as [rest ->].
    by exists (ok_line +:+ rest), rest.
  - unfold Response.build_response_header in E. rewrite Hh in E. done.
Qed.

(** X14.  A static request whose file can be read is answered with the
    header block of status 200 followed by the bytes read, whatever they
    are: an empty file and a file that holds the text "File not found"
    are served like any other. *)
Theorem existing_file_served_verbatim self req p base buf :
  Response.has_content self = false →
  Request.path req = Some p →
  is_Some (Request.headers req) →
  static_base w p = Some base →
  open_rb w (Response.filepath_of p base) = ReadOk buf →
  ∃ self1 header rest,
    Response._content self1 = Some buf
    ∧ Response.build_response_header w self1 req = Ok header
    ∧ header = ok_line +:+ rest
    ∧ Response.build_response w self req =
      Ok (Response.set__header self1 header, header +:+ buf).
Proof.
  intros Hc Hp Hh Hb Hopen.
  destruct (build_response_static w self req p Hc Hp) as [ct ->].
  rewrite Hb.
  destruct (serve_file_read (Response.set_header self "Content-Type" ct)
              req p base buf Hh Hopen) as (header & rest & H1 & H2 & H3).
  eexists _, header, rest. split_and!; [| exact H1 | exact H2 | exact H3].
  reflexivity.
Qed.

Lemma lstrip_slash_no_slash s :
  startswith (lstrip_chars "/" s) "/" = false.
Proof.
  induction s as [|c s IH]; [done |].
  cbn [lstrip_chars mem_char]. destruct (Ascii.eqb_spec c "/") as [-> | Hc].
  - done.
  - cbn [orb]. unfold startswith. cbn [strip_prefix].
    apply Ascii.eqb_neq in Hc. by rewrite Ascii.eqb_sym, Hc.
Qed.

Lemma static_base_cases p base :
  static_base w p = Some base → base ∈ ["www/"; "static/"; "apps/"].
Proof.
  unfold static_base.
  repeat (match goal with |- context [if ?b then _ else _] => destruct b end);
    intros [= <-]; repeat constructor.
Qed.

Lemma lstrip_slashes_spec p : ∃ n, p = slashes n +:+ lstrip_chars "/" p.
Proof.
  induction p as [|c p [n IH]]; [by exists 0 |].
  cbn [lstrip_chars mem_char]. destruct (Ascii.eqb_spec c "/") as [-> | Hc].
  - exists (S n). cbn [orb slashes]. by rewrite app_cons, <- IH.
  - by exists 0.
Qed.

(** X15.  The file opened for a static request is named by the request
    path without its leading slashes, put behind the base directory
    chosen, which is "www/", "static/" or "apps/"; a request path that
    opens with "/static/" is used alone, and then opens with "static/".
    So the name is never absolute, and the rest of the request path is
    used as it was sent. *)
Theorem static_file_under_base_directory p base :
  static_base w p = Some base →
  ∃ n r,
    p = slashes n +:+ r
    ∧ startswith r "/" = false
    ∧ base ∈ ["www/"; "static/"; "apps/"]
    ∧ Response.filepath_of p base =
        (if startswith p "/static/" then r else base +:+ r)
    ∧ (startswith p "/static/" = true → startswith r "static/" = true).
Proof.
  intros Hb%static_base_cases.
  destruct (lstrip_slashes_spec p) as [n Hn].
  exists n, (lstrip_chars "/" p).
  split; [done |]. split; [apply lstrip_slash_no_slash |]. split; [done |].
  split.
  - unfold Response.filepath_of.
    destruct (startswith p "/static/"); [done |].
    unfold os_path_join. rewrite lstrip_slash_no_slash.
    repeat (apply elem_of_cons in Hb as [-> | Hb]; [reflexivity |]).
    by apply elem_of_nil in Hb.
  - intros [r ->]%startswith_spec.
    change (lstrip_chars "/" ("/static/" +:+ r)) with ("static/" +:+ r).
    unfold startswith. by rewrite strip_prefix_app.
Qed.

Lemma endswith_app a b : endswith (a +:+ b) b = true.
Proof.
  induction a as [|c a IH].
  - rewrite app_nil_l. destruct b; cbn [endswith]; by rewrite String.eqb_refl.
  - rewrite app_cons. cbn [endswith]. rewrite IH. apply orb_true_r.
Qed.

Lemma lstrip_slashes n s :
  startswith s "/" = false → lstrip_chars "/" (slashes n +:+ s) = s.
Proof.
  intros Hs. induction n as [|n IH].
  - rewrite app_nil_l. destruct s as [|c s]; [done |].
    cbn [lstrip_chars mem_char]. unfold startswith in Hs. cbn [strip_prefix] in Hs.
    rewrite Ascii.eqb_sym. by destruct (Ascii.eqb "/" c).
  - cbn [slashes]. rewrite app_cons. cbn [lstrip_chars mem_char Ascii.eqb].
    exact IH.
Qed.

Lemma token_slashes n s : token s = true → token (slashes n +:+ s) = true.
Proof.
  unfold token, no_space. intros [Hne Hs]%andb_true_iff.
  rewrite all_chars_app, Hs, andb_true_r.
  apply andb_true_iff. split.
  - destruct n; [by rewrite app_nil_l | done].
  - induction n; [done | done].
Qed.

Lemma filepath_of_slashes n :
  Response.filepath_of (slashes (S (S n)) +:+ "index.html") "www/"
  = "www/index.html".
Proof.
  unfold Response.filepath_of.
  change (startswith (slashes (S (S n)) +:+ "index.html") "/static/")
    with false.
  cbv beta iota.
  by rewrite (lstrip_slashes (S (S n)) "index.html" eq_refl).
Qed.

(** X16.  The cookie guard compares the path with "/" and "/index.html"
    only, and static serving drops every leading slash: the index page
    requested with two or more leading slashes, when no route is
    registered for that method and path, is served from "www/index.html"
    with status 200, whatever method and cookies the request has. *)
Theorem extra_slashes_skip_guard n m v rest routes buf :
  token m = true → token v = true →
  routes !! (m, slashes (S (S n)) +:+ "index.html") = None →
  open_rb w "www/index.html" = ReadOk buf →
  ∃ tail,
    HttpAdapter.handle_client w funs
      (request_buffer m (slashes (S (S n)) +:+ "index.html") v rest) routes
    = [(ok_line +:+ tail) +:+ buf].
Proof.
  intros Hm Hv Hr Hopen.
  set (p := slashes (S (S n)) +:+ "index.html") in *.
  assert (token p = true) as Hp by (by apply token_slashes).
  destruct (prepare_buffer m p v rest routes Hm Hp Hv)
    as (req & Hprep & _ & Hpath & Hhook & Hhd & _).
  assert (String.eqb p "/" = false) as Hroot by done.
  rewrite Hroot in Hpath, Hhook.
  assert (Request.route_path_of p = p) as Hq.
  { pose proof (route_path_of_query p None) as Hq.
    cbn [query_suffix] in Hq. rewrite app_empty_r in Hq. apply Hq.
    unfold p, no_char. rewrite all_chars_app.
    apply andb_true_iff. split; [| done].
    clear. induction n as [|n IH]; [done | exact IH]. }
  rewrite Hq, Hr in Hhook.
  assert (Request.hook req = None) as Hh
    by (by destruct (bool_decide (routes = ∅))).
  unfold HttpAdapter.handle_client.
  rewrite (request_buffer_not_empty m p v rest Hm).
  rewrite (serve_static w funs _ routes req p Hprep Hh Hpath); [| done..].
  assert (endswith p ".html" = true) as He.
  { unfold p.
    rewrite <- (app_assoc_s (slashes (S (S n))) "index" ".html"
                : _ = slashes (S (S n)) +:+ "index.html").
    apply endswith_app. }
  assert (static_base w p = Some "www/") as Hb
    by (unfold static_base; by rewrite He).
  pose proof (filepath_of_slashes n) as Hf. fold p in Hf.
  destruct (build_response_static w Response.init req p eq_refl Hpath) as [ct ->].
  rewrite Hb.
  destruct (serve_file_read (Response.set_header Response.init "Content-Type" ct)
              req p "www/" buf) as (header & tail & _ & -> & ->).
  - by rewrite Hhd.
  - by rewrite Hf.
  - simpl. eauto.
Qed.

End StaticFiles.

(** At a style sheet that is on disk. *)
Lemma existing_file_served_verbatim_witness :
  ∃ self1 header rest,
    Response._content self1 = Some "body{}"
    ∧ Response.build_response_header Demo.world self1
        (Request.set_path (request_with_headers ∅) "/a.css") = Ok header
    ∧ header = ok_line +:+ rest
    ∧ Response.build_response Demo.world Response.init
        (Request.set_path (request_with_headers ∅) "/a.css") =
      Ok (Response.set__header self1 header, header +:+ "body{}").
Proof.
  exact (existing_file_served_verbatim Demo.world Response.init
           (Request.set_path (request_with_headers ∅) "/a.css")
           "/a.css" "static/" "body{}"
           eq_refl eq_refl (ex_intro _ ∅ eq_refl) eq_refl eq_refl).
Defined.

(** At a path that climbs out of the base directory. *)
Lemma static_file_under_base_directory_witness :
  ∃ n r,
    "/../secret.html" = slashes n +:+ r
    ∧ PyStr.startswith r "/" = false
    ∧ "www/" ∈ ["www/"; "static/"; "apps/"]
    ∧ Response.filepath_of "/../secret.html" "www/" =
        (if PyStr.startswith "/../secret.html" "/static/" then r
         else "www/" +:+ r)
    ∧ (PyStr.startswith "/../secret.html" "/static/" = true →
       PyStr.startswith r "static/" = true).
Proof.
  exact (static_file_under_base_directory Demo.world "/../secret.html" "www/"
           eq_refl).
Defined.

(** At the index page asked for as "//index.html", without any cookie. *)
Lemma extra_slashes_skip_guard_witness :
  ∃ tail,
    HttpAdapter.handle_client Demo.world Demo.funs
      (request_buffer "GET" (slashes 2 +:+ "index.html") "HTTP/1.1" PyStr.CRLF)
      Demo.routes
    = [(ok_line +:+ tail) +:+ "<h1>hi</h1>"].
Proof.
  exact (extra_slashes_skip_guard Demo.world Demo.funs 0 "GET" "HTTP/1.1"
           PyStr.CRLF Demo.routes "<h1>hi</h1>" eq_refl eq_refl eq_refl
           eq_refl).
Defined.

(** ** What the adapter sends *)

Section Sent.
Context (w : World) (funs : FunRef → PyFunction).
Import PyStr.

Lemma known_200 rest : known_status (ok_line +:+ rest).
Proof. exists rest. auto. Qed.

Lemma known_notfound : known_status Response.build_notfound.
Proof. eexists. right. left. reflexivity. Qed.

Lemma known_401 msg :
  known_status (HttpAdapter.build_error_response 401 ("Unauthorized" +:+ msg)).
Proof.
  unfold HttpAdapter.build_error_response. cbn [Nat.eqb].
  change (str_nat 401) with "401".
  rewrite !encode_app. eexists. right. right. left.
  rewrite !app_assoc_s. reflexivity.
Qed.

Lemma known_500 msg :
  known_status
    (HttpAdapter.build_error_response 500 ("Internal Server Error: " +:+ msg)).
Proof.
  unfold HttpAdapter.build_error_response. cbn [Nat.eqb].
  change (str_nat 500) with "500".
  rewrite !encode_app. eexists. right. right. right.
  rewrite !app_assoc_s. reflexivity.
Qed.

Lemma build_response_known self req self' packet :
  Response.build_response w self req = Ok (self', packet) →
  known_status packet.
Proof.
  destruct (Response.has_content self) eqn:Hc.
  - unfold Response.build_response. rewrite Hc.
    destruct (Response.build_response_header w _ req) as [h|t m] eqn:E;
      [| done].
    destruct (header_block_starts_200 _ _ _ _ E) as [rest ->].
    simpl. intros [= _ <-]. rewrite app_assoc_s. apply known_200.
  - destruct (Request.path req) as [p|] eqn:Hp.
    + destruct (build_response_static w self req p Hc Hp) as [ct ->].
      destruct (static_base w p) as [base|].
      * unfold serve_file.
        destruct (Response.build_content w p base) as [size buf].
        destruct (Nat.eqb size 0 && String.eqb buf "File not found").
        -- intros [= _ <-]. apply known_notfound.
        -- destruct (Response.build_response_header w _ req) as [h|t m] eqn:E;
             [| done].
           destruct (header_block_starts_200 _ _ _ _ E) as [rest ->].
           simpl. intros [= _ <-]. rewrite app_assoc_s. apply known_200.
      * intros [= _ <-]. apply known_notfound.
    + unfold Response.build_response. by rewrite Hc, Hp.
Qed.

Lemma snd_build_response_known self req packet :
  snd <$> Response.build_response w self req = Ok packet →
  known_status packet.
Proof.
  destruct (Response.build_response w self req) as [[self' pkt]|t m] eqn:E;
    [| done].
  intros [= <-]. by eapply build_response_known.
Qed.

Lemma serve_known raw routes packet :
  HttpAdapter.serve w funs raw routes = Ok packet → known_status packet.
Proof.
  unfold HttpAdapter.serve.
  destruct (Request.prepare Request.init raw routes) as [req|t m]; [| done].
  simpl. destruct (Request.hook req) as [h|].
  - destruct (HttpAdapter._call_hook funs req) as [[r | s | s]|t m];
      simpl; [| | | done].
    + apply snd_build_response_known.
    + intros [= <-].
      destruct (plain_packet_starts_200 "application/json" s) as [rest ->].
      apply known_200.
    + intros [= <-].
      destruct (plain_packet_starts_200 "text/plain" s) as [rest ->].
      apply known_200.
  - destruct (_ && _).
    { unfold HttpAdapter.handle_login.
      destruct (_ && _); [apply snd_build_response_known |].
      intros [= <-]. apply (known_401 ""). }
    destruct (_ || _); [| apply snd_build_response_known].
    unfold HttpAdapter.handle_protected_route.
    destruct (Request.cookies req) as [c|]; [| done].
    destruct (bool_decide _); [apply snd_build_response_known |].
    intros [= <-]. apply (known_401 " - Please login first").
Qed.

(** X17.  Whatever the buffer, the routes, the route functions and the
    files, every packet that the adapter writes opens with one of four
    status lines: 200 OK, 404 Not Found, 401 Unauthorized, or 500 with
    the text of the exception. *)
Theorem status_line_always_known raw routes :
  Forall known_status (HttpAdapter.handle_client w funs raw routes).
Proof.
  unfold HttpAdapter.handle_client.
  destruct (String.eqb raw ""); [constructor |].
  destruct (HttpAdapter.serve w funs raw routes) as [packet|t msg] eqn:E.
  - apply Forall_singleton. by eapply serve_known.
  - apply Forall_singleton. apply known_500.
Qed.

Lemma digits_ascii d : non_ascii (NilEmpty.string_of_uint d) = 0.
Proof. induction d; simpl; done. Qed.

Lemma str_nat_ascii n : non_ascii (str_nat n) = 0.
Proof.
  unfold str_nat, NilZero.string_of_uint.
  destruct (Nat.to_uint n); try done; apply (digits_ascii (_ u)).
Qed.

Lemma encode_ascii s : non_ascii s = 0 → encode s = s.
Proof.
  induction s as [|c s IH]; [done |].
  cbn [non_ascii encode]. destruct (N_of_ascii c <? 128)%N; [| done].
  simpl. intros H. by rewrite IH.
Qed.

Lemma length_encode s :
  String.length (encode s) = String.length s + non_ascii s.
Proof.
  induction s as [|c s IH]; [done |].
  cbn [non_ascii encode]. destruct (N_of_ascii c <? 128)%N;
    cbn [String.length]; rewrite IH; lia.
Qed.

(** X18.  The packet made from a hook's mapping or other value declares
    as Content-Length the number of characters of the body, and carries
    the body encoded: the bytes that follow the header are more than
    declared by the number of characters from 128 on. *)
Theorem plain_packet_length_in_characters content_type body :
  HttpAdapter.plain_packet content_type body =
    (ok_line +:+ "Content-Type: " +:+ encode content_type +:+ CRLF +:+
     "Content-Length: " +:+ str_nat (String.length body) +:+ CRLF +:+ CRLF)
    +:+ encode body
  ∧ String.length (encode body) = String.length body + non_ascii body.
Proof.
  split; [| apply length_encode].
  unfold HttpAdapter.plain_packet, ok_line. rewrite !encode_app.
  rewrite (encode_ascii (str_nat _)) by apply str_nat_ascii.
  rewrite !app_assoc_s. reflexivity.
Qed.

(** X19.  Every POST to a route that runs [login_post] of the sample
    application is answered with status 500: the function reads
    [req.parameters], and a Request has no such attribute. *)
Theorem sample_login_post_fails v rest routes h :
  token v = true →
  routes !! ("POST", "/login_post") = Some h →
  funs h = SampleApp.login_post →
  HttpAdapter.handle_client w funs
    (request_buffer "POST" "/login_post" v rest) routes
  = [HttpAdapter.build_error_response 500
       "Internal Server Error: 'Request' object has no attribute 'parameters'"].
Proof.
  intros Hv Hr Hf.
  destruct (prepare_buffer "POST" "/login_post" v rest routes eq_refl eq_refl Hv)
    as (req & Hprep & _ & _ & Hhook & _).
  rewrite bool_decide_eq_false_2 in Hhook
    by (intros ->; by rewrite lookup_empty in Hr).
  change (Request.route_path_of _) with "/login_post" in Hhook.
  rewrite Hr in Hhook.
  rewrite (serve_hook w funs _ routes req h); [| done | done | done].
  unfold hook_packets, HttpAdapter._call_hook. rewrite Hhook, Hf.
  reflexivity.
Qed.

(** X20.  Every GET to a route that runs [hello] of the sample
    application is answered with status 200, the content type
    application/json and, as body, the mapping as Python prints it. *)
Theorem sample_hello_answer v rest routes h :
  token v = true →
  routes !! ("GET", "/hello") = Some h →
  funs h = SampleApp.hello →
  HttpAdapter.handle_client w funs (request_buffer "GET" "/hello" v rest) routes
  = [HttpAdapter.plain_packet "application/json"
       "{'message': 'Hello from SampleApp!'}"].
Proof.
  intros Hv Hr Hf.
  destruct (prepare_buffer "GET" "/hello" v rest routes eq_refl eq_refl Hv)
    as (req & Hprep & _ & _ & Hhook & _ & Hbody).
  rewrite bool_decide_eq_false_2 in Hhook
    by (intros ->; by rewrite lookup_empty in Hr).
  change (Request.route_path_of _) with "/hello" in Hhook.
  rewrite Hr in Hhook.
  rewrite (serve_hook w funs _ routes req h); [| done | done | done].
  unfold hook_packets, HttpAdapter._call_hook. rewrite Hhook, Hf.
  reflexivity.
Qed.

End Sent.

(** At a route table that holds the two routes of the sample application. *)
Lemma sample_login_post_fails_witness :
  HttpAdapter.handle_client Demo.world (fun _ => SampleApp.login_post)
    (request_buffer "POST" "/login_post" "HTTP/1.1"
       (PyStr.CRLF +:+ "username=admin&password=123"))
    {[ ("POST", "/login_post") := "login_post" ]}
  = [HttpAdapter.build_error_response 500
       "Internal Server Error: 'Request' object has no attribute 'parameters'"].
Proof.
  apply (sample_login_post_fails Demo.world (fun _ => SampleApp.login_post)
           "HTTP/1.1" (PyStr.CRLF +:+ "username=admin&password=123")
           {[ ("POST", "/login_post") := "login_post" ]} "login_post");
    reflexivity.
Defined.

Lemma sample_hello_answer_witness :
  HttpAdapter.handle_client Demo.world (fun _ => SampleApp.hello)
    (request_buffer "GET" "/hello" "HTTP/1.1" PyStr.CRLF)
    {[ ("GET", "/hello") := "hello" ]}
  = [HttpAdapter.plain_packet "application/json"
       "{'message': 'Hello from SampleApp!'}"].
Proof.
  apply (sample_hello_answer Demo.world (fun _ => SampleApp.hello)
           "HTTP/1.1" PyStr.CRLF {[ ("GET", "/hello") := "hello" ]} "hello");
    reflexivity.
Defined.

(** ** Dicts in insertion order *)

Section PyDictFacts.
Context {K V : Type} `{EqDecision K}.
Implicit Types (d : list (K * V)).

Lemma dict_get_set k k' v d :
  dict_get k' (dict_set k v d) =
  if decide (k = k') then Some v else dict_get k' d.
Proof.
  induction d as [|[k0 v0] d IH]; cbn [dict_get dict_set].
  - repeat case_decide; congruence.
  - destruct (decide (k = k0)) as [E | Hk]; cbn [dict_get].
    + repeat case_decide; congruence.
    + rewrite IH. repeat case_decide; congruence.
Qed.

Lemma dict_get_in k d : is_Some (dict_get k d) ↔ k ∈ d.*1.
Proof.
  induction d as [|[k0 v0] d IH]; cbn [dict_get].
  - split; [by intros [? ?] | by intros ?%elem_of_nil].
  - rewrite fmap_cons. destruct (decide (k = k0)) as [-> | Hk].
    + split; [intros _; apply list_elem_of_here | eauto].
    + rewrite IH. split; [apply list_elem_of_further |].
      intros [?|?]%elem_of_cons; done.
Qed.

Lemma dict_set_keys_present k v d :
  k ∈ d.*1 → (dict_set k v d).*1 = d.*1.
Proof.
  induction d as [|[k0 v0] d IH]; intros Hin.
  - by apply elem_of_nil in Hin.
  - cbn [dict_set]. destruct (decide (k = k0)) as [-> | Hk]; [done |].
    rewrite !fmap_cons. f_equal. apply IH.
    rewrite fmap_cons in Hin. apply elem_of_cons in Hin as [?|?]; done.
Qed.

End PyDictFacts.

(** ** The registries of the chat application *)

Section ChatRegistries.
Context {PeerId Ip Port Chan Text Time Stamp : Type}.
Context `{EqDecision PeerId} `{EqDecision Chan}.
Context (older_than : Time → Time → Time → bool).
Import ChatApp.

Implicit Types (active_peers d : list (PeerId * @PeerInfo Ip Port Time)).
Implicit Types (v : @PeerInfo Ip Port Time).
Implicit Types (channels : list (Chan * @Channel PeerId Chan Text Stamp)).

Lemma del_all_skip (k : PeerId) v ks d :
  k ∉ ks → del_all ks ((k, v) :: d) = cons (k, v) <$> del_all ks d.
Proof.
  revert d. induction ks as [|k1 ks IH]; intros d Hk; [done |].
  apply not_elem_of_cons in Hk as [Hne Hk].
  cbn [del_all dict_del]. rewrite decide_False by done.
  destruct (dict_del k1 d) as [d'|]; simpl; [by apply IH | done].
Qed.

Lemma del_all_filter ttl now d :
  NoDup d.*1 →
  del_all
    (filter (fun kv => older_than now (last_seen kv.2) ttl = true) d).*1 d
  = Some (filter (fun kv => older_than now (last_seen kv.2) ttl = false) d).
Proof.
  induction d as [|[k v] d IH]; intros Hnd; [done |].
  rewrite fmap_cons in Hnd. apply NoDup_cons in Hnd as [Hk Hnd].
  destruct (older_than now (last_seen v) ttl) eqn:E.
  - rewrite filter_cons_True by done.
    rewrite (filter_cons_False (fun kv => older_than now (last_seen kv.2) ttl = false))
      by (simpl; by rewrite E).
    rewrite fmap_cons. cbn [del_all dict_del fst]. rewrite decide_True by done.
    simpl. by apply IH.
  - rewrite filter_cons_False by (simpl; by rewrite E).
    rewrite (filter_cons_True (fun kv => older_than now (last_seen kv.2) ttl = false))
      by done.
    rewrite del_all_skip, (IH Hnd); [done |].
    intros (kv & -> & Hin)%list_elem_of_fmap. apply Hk.
    apply list_elem_of_fmap. exists kv. split; [done |].
    by apply list_elem_of_filter in Hin as [_ ?].
Qed.

(** X21.  On a registry, where every peer id occurs once, the sweep never
    fails: it returns the ids of the peers for which the comparison
    [now - last_seen > ttl] holds, in the order of the registry, and
    leaves the other peers, unchanged and in their order. *)
Theorem cleanup_removes_exactly_expired ttl now active_peers :
  NoDup active_peers.*1 →
  _cleanup_expired older_than ttl now active_peers =
  Some ((filter (fun kv => older_than now (last_seen kv.2) ttl = true)
           active_peers).*1,
        filter (fun kv => older_than now (last_seen kv.2) ttl = false)
          active_peers).
Proof.
  intros Hnd. unfold _cleanup_expired.
  by rewrite (del_all_filter ttl now active_peers Hnd).
Qed.

(** X22.  [_touch_peer] never adds a peer and moves none: the ids of the
    registry and their order stay.  The peer touched, if it is known,
    keeps its address and takes the new time; every other peer reads as
    before. *)
Theorem touch_peer_keeps_registry (pid pid' : PeerId) now
    active_peers :
  (_touch_peer pid now active_peers).*1 = active_peers.*1
  ∧ _get_peer pid' (_touch_peer pid now active_peers) =
    if decide (pid = pid')
    then (fun info => {| ip := ip info; port := port info; last_seen := now |})
           <$> _get_peer pid' active_peers
    else _get_peer pid' active_peers.
Proof.
  unfold _touch_peer, _get_peer.
  destruct (dict_get pid active_peers) as [info|] eqn:E.
  - split.
    + apply dict_set_keys_present. apply dict_get_in. eauto.
    + rewrite dict_get_set. destruct (decide (pid = pid')) as [<- | Hne];
        [by rewrite E | done].
  - split; [done |].
    destruct (decide (pid = pid')) as [<- | Hne]; [by rewrite E | done].
Qed.


(** X23.  After [_ensure_channel] the message is always appended: the
    channel keeps the messages it had and gets the new entry as its last
    one, the sender is a member, the members stay without repetition if
    they were, and every other channel reads as before.  A channel that
    existed is not reset by [_ensure_channel]. *)
Theorem append_message_after_ensure (chan : Chan) (frm : PeerId)
    (text : Text) (stamp : Stamp) channels :
  ∃ c1 c2 entry channels2,
    dict_get chan (_ensure_channel chan channels) = Some c1
    ∧ (∀ c, dict_get chan channels = Some c → c1 = c)
    ∧ _append_message chan frm text stamp (_ensure_channel chan channels)
      = Some (entry, channels2)
    ∧ dict_get chan channels2 = Some c2
    ∧ messages c2 = messages c1 ++ [entry]
    ∧ from entry = frm ∧ message entry = text
    ∧ frm ∈ members c2
    ∧ (NoDup (members c1) → NoDup (members c2))
    ∧ (∀ other, other ≠ chan →
                dict_get other channels2 = dict_get other channels).
Proof.
  assert (∃ c1, dict_get chan (_ensure_channel chan channels) = Some c1
                ∧ (∀ c, dict_get chan channels = Some c → c1 = c)
                ∧ ∀ other, other ≠ chan →
                    dict_get other (_ensure_channel chan channels)
                    = dict_get other channels) as (c1 & Hc1 & Hsame & Hother).
  { unfold _ensure_channel.
    destruct (dict_get chan channels) as [c|] eqn:E.
    - exists c. split_and!; [done | congruence | done].
    - eexists. split_and!.
      + rewrite dict_get_set. by rewrite decide_True.
      + done.
      + intros other Hne. rewrite dict_get_set. by rewrite decide_False. }
  unfold _append_message. rewrite Hc1. simpl.
  eexists c1, _, _, _.
  split; [done |]. split; [done |]. split; [reflexivity |].
  split; [by rewrite dict_get_set, decide_True |].
  split; [done |]. split; [done |]. split; [done |]. simpl.
  split; [| split].
  - destruct (decide (frm ∈ members c1)); [done |].
    apply elem_of_app. right. apply list_elem_of_here.
  - intros Hnd. destruct (decide (frm ∈ members c1)); [done |].
    apply NoDup_app. split_and!; [done | | apply NoDup_singleton].
    intros x Hx ->%list_elem_of_singleton. done.
  - intros other Hne. rewrite dict_get_set, decide_False by done.
    by apply Hother.
Qed.

End ChatRegistries.

(** At a registry of two peers, 1000 seconds after the start, with a
    time to live of 300 seconds. *)
Lemma cleanup_removes_exactly_expired_witness :
  NoDup ChatDemo.active_peers.*1
  ∧ ChatApp._cleanup_expired ChatDemo.older_than 300%Z 1000%Z
      ChatDemo.active_peers
    = Some (["alice"], [("bob", ChatDemo.bob)]).
Proof.
  assert (NoDup ChatDemo.active_peers.*1) as Hnd.
  { simpl. repeat constructor; intros Hin;
      repeat (apply elem_of_cons in Hin as [[=] | Hin]);
      by apply elem_of_nil in Hin. }
  split; [exact Hnd |].
  exact (cleanup_removes_exactly_expired ChatDemo.older_than 300%Z 1000%Z
           ChatDemo.active_peers Hnd).
Defined.

(** ** The command loop of a peer *)

Section PeerCommands.
Import PyStr.

Lemma split_fuel_not_nil n sep s : split_fuel n sep s ≠ [].
Proof.
  destruct n; cbn [split_fuel]; by destruct (partition sep s) as [[a b]|].
Qed.

(** Joining the pieces of [split] with the separator gives the string
    back. *)
Lemma join_split_fuel n sep s : join sep (split_fuel n sep s) = s.
Proof.
  revert s. induction n as [|n IH]; intros s; cbn [split_fuel].
  - by destruct (partition sep s) as [[a b]|].
  - destruct (partition sep s) as [[a b]|] eqn:E; [| done].
    apply partition_spec in E as ->.
    specialize (IH b). pose proof (split_fuel_not_nil n sep b) as Hnil.
    destruct (split_fuel n sep b) as [|x l]; [done |].
    by rewrite join_cons, IH.
Qed.

Lemma join_split sep s : join sep (split sep s) = s.
Proof. apply join_split_fuel. Qed.

Lemma send_line_strip ip port msg :
  msg ≠ "" → ends_with_space msg = false →
  strip ("send " +:+ ip +:+ " " +:+ port +:+ " " +:+ msg)
  = "send " +:+ ip +:+ " " +:+ port +:+ " " +:+ msg.
Proof.
  intros Hne Hend. unfold strip.
  rewrite lstrip_keep by reflexivity.
  rewrite <- !app_assoc_s.
  apply rstrip_app_keep; [done | by apply rstrip_keep].
Qed.

(** X24.  A line [send <ip> <port> <message>], ip and port without
    spaces, the message not empty and not ending in white space, sends
    the message as typed (its own spaces kept) to the ip and the port
    converted by [int]; a port that [int] rejects ends the loop with the
    error. *)
Theorem send_command_parsed (int : string → option Z) ip port msg :
  no_char " " ip = true → no_char " " port = true →
  msg ≠ "" → ends_with_space msg = false →
  PeerClient.round int ("send " +:+ ip +:+ " " +:+ port +:+ " " +:+ msg)
  = match int port with
    | Some n => PeerClient.Send ip n msg
    | None => PeerClient.Crash
    end.
Proof.
  intros Hip Hport Hne Hend. unfold PeerClient.round.
  rewrite (send_line_strip ip port msg Hne Hend).
  change (String.eqb ("send " +:+ ip +:+ " " +:+ port +:+ " " +:+ msg) "")
    with false.
  change (String.eqb ("send " +:+ ip +:+ " " +:+ port +:+ " " +:+ msg) "exit")
    with false.
  cbv beta iota zeta.
  change ("send " +:+ ip +:+ " " +:+ port +:+ " " +:+ msg)
    with ("send" +:+ String " " (ip +:+ String " " (port +:+ String " " msg))).
  rewrite (split_char_cons " " "send") by done.
  rewrite (split_char_cons " " ip) by done.
  rewrite (split_char_cons " " port) by done.
  change (length ("send" :: ip :: port :: split " " msg) <? 3) with false.
  cbv beta iota. change (String.eqb "send" "send") with true. cbv iota.
  by rewrite join_split.
Qed.

(** X25.  A [send] line that stops after the port is not refused as a
    usage error: the empty message is sent. *)
Theorem send_without_message (int : string → option Z) ip port :
  no_char " " ip = true → no_char " " port = true →
  port ≠ "" → ends_with_space port = false →
  PeerClient.round int ("send " +:+ ip +:+ " " +:+ port)
  = match int port with
    | Some n => PeerClient.Send ip n ""
    | None => PeerClient.Crash
    end.
Proof.
  intros Hip Hport Hne Hend. unfold PeerClient.round.
  assert (strip ("send " +:+ ip +:+ " " +:+ port)
          = "send " +:+ ip +:+ " " +:+ port) as ->.
  { unfold strip. rewrite lstrip_keep by reflexivity.
    rewrite <- !app_assoc_s.
    apply rstrip_app_keep; [done | by apply rstrip_keep]. }
  change (String.eqb ("send " +:+ ip +:+ " " +:+ port) "") with false.
  change (String.eqb ("send " +:+ ip +:+ " " +:+ port) "exit") with false.
  cbv beta iota zeta.
  change ("send " +:+ ip +:+ " " +:+ port)
    with ("send" +:+ String " " (ip +:+ String " " port)).
  rewrite (split_char_cons " " "send") by done.
  rewrite (split_char_cons " " ip) by done.
  rewrite (split_char_last " " port) by done.
  change (length ["send"; ip; port] <? 3) with false.
  cbv beta iota. change (String.eqb "send" "send") with true. cbv iota.
  done.
Qed.

End PeerCommands.

Lemma send_command_parsed_witness :
  PeerClient.round (fun _ => Some 9001%Z) "send 10.0.0.2 9001 hello  there"
  = PeerClient.Send "10.0.0.2" 9001%Z "hello  there".
Proof.
  exact (send_command_parsed (fun _ => Some 9001%Z) "10.0.0.2" "9001"
           "hello  there" eq_refl eq_refl ltac:(discriminate) eq_refl).
Defined.

Lemma send_without_message_witness :
  PeerClient.round (fun _ => Some 9001%Z) "send 10.0.0.2 9001"
  = PeerClient.Send "10.0.0.2" 9001%Z "".
Proof.
  exact (send_without_message (fun _ => Some 9001%Z) "10.0.0.2" "9001"
           eq_refl eq_refl ltac:(discriminate) eq_refl).
Defined.

(** ** Login and the cookie guard *)

Section LoginAndGuard.
Context (w : World) (funs : FunRef → PyFunction).
Import PyStr.

Lemma prepare_cookies_parsed raw routes req :
  Request.prepare Request.init raw routes = Ok req →
  Request.cookies req = Some (cookies_of_header (cookie_header raw)).
Proof.
  unfold Request.prepare.
  destruct (Request.extract_request_line raw) as [[m p] v].
  assert (∀ h, Request.parse_cookies (request_with_headers {[ "cookie" := h ]})
               = foldl Request.add_cookie ∅ (split ";" h)) as Hc.
  { intros h. unfold Request.parse_cookies. simpl.
    by rewrite lookup_singleton_eq. }
  destruct (bool_decide (routes = ∅)); [| destruct p as [p|]]; simpl;
    intros [= <-]; simpl; unfold cookies_of_header, cookie_header;
    by rewrite Hc.
Qed.

Lemma join_snoc2 sep x l y z :
  join sep ((x :: l) ++ [y; z]) = join sep (x :: l) +:+ sep +:+ y +:+ sep +:+ z.
Proof.
  revert x. induction l as [|x' l IH]; intros x.
  - reflexivity.
  - change ((x :: x' :: l) ++ [y; z]) with (x :: ((x' :: l) ++ [y; z])).
    change ((x' :: l) ++ [y; z]) with (x' :: (l ++ [y; z])) at 1.
    rewrite join_cons.
    change (x' :: (l ++ [y; z])) with ((x' :: l) ++ [y; z]).
    by rewrite IH, join_cons, !app_assoc_s.
Qed.

(** The header block of a response that holds one cookie. *)
Lemma header_ends_with_cookie self req h n c :
  Response.build_response_header w self req = Ok h →
  CaseInsensitiveDict.items (Response.cookies self) = [(n, c)] →
  ∃ pre, h = ok_line +:+ pre +:+ encode ("Set-Cookie: " +:+ c)
             +:+ CRLF +:+ CRLF.
Proof.
  unfold Response.build_response_header.
  destruct (Request.headers req) as [reqhdr|]; [| done].
  destruct (Response._content self) as [b|]; [| done].
  intros Hh Hit. rewrite Hit in Hh.
  assert (∀ x y : string, Ok x = Ok y → y = x) as Hinj by congruence.
  apply Hinj in Hh as ->. clear Hinj Hit.
  set (hdrs := map (fun kv : string * string => kv.1 +:+ ": " +:+ kv.2) _).
  assert (hdrs ≠ []) as Hne by done. clearbody hdrs.
  destruct hdrs as [|x l]; [done |].
  change (["HTTP/1.1 200 OK"] ++ (x :: l) ++
          map (fun kv : string * string => "Set-Cookie: " +:+ kv.2) [(n, c)] ++ [""])
    with ("HTTP/1.1 200 OK" :: ((x :: l) ++ ["Set-Cookie: " +:+ c; ""])).
  change ((x :: l) ++ ["Set-Cookie: " +:+ c; ""])
    with (x :: (l ++ ["Set-Cookie: " +:+ c; ""])) at 1.
  rewrite join_cons.
  change (x :: (l ++ ["Set-Cookie: " +:+ c; ""]))
    with ((x :: l) ++ ["Set-Cookie: " +:+ c; ""]).
  rewrite join_snoc2.
  exists (encode (join CRLF (x :: l)) +:+ CRLF).
  rewrite !encode_app, !app_assoc_s. reflexivity.
Qed.

(** A request for the index page that matched no route goes to the
    guard. *)
Lemma guard_request m p v rest routes :
  token m = true → token v = true →
  p = "/" ∨ p = "/index.html" →
  routes !! (m, "/index.html") = None →
  ∃ req,
    Request.path req = Some "/index.html"
    ∧ is_Some (Request.headers req)
    ∧ Request.cookies req
      = Some (cookies_of_header (cookie_header (request_buffer m p v rest)))
    ∧ HttpAdapter.serve w funs (request_buffer m p v rest) routes
      = HttpAdapter.handle_protected_route w req Response.init.
Proof.
  intros Hm Hv Hp Hr.
  assert (token p = true ∧
          (if String.eqb p "/" then "/index.html" else p) = "/index.html")
    as [Htp Hidx] by (by destruct Hp as [-> | ->]).
  destruct (prepare_buffer m p v rest routes Hm Htp Hv)
    as (req & Hprep & _ & Hpath & Hhook & Hhd & _).
  rewrite Hidx in Hpath, Hhook.
  change (Request.route_path_of "/index.html") with "/index.html" in Hhook.
  rewrite Hr in Hhook.
  assert (Request.hook req = None) as Hh
    by (by destruct (bool_decide (routes = ∅))).
  exists req. split_and!; [done | by rewrite Hhd | |].
  - by apply (prepare_cookies_parsed _ routes).
  - unfold HttpAdapter.serve. rewrite Hprep. simpl. rewrite Hh, Hpath.
    rewrite (bool_decide_eq_false_2 (Some "/index.html" = Some "/login"))
      by done.
    rewrite andb_false_r.
    rewrite (bool_decide_eq_true_2 (Some "/index.html" = Some "/index.html"))
      by done.
    by rewrite orb_true_r.
Qed.

(** X26.  A request for "/" or "/index.html" that matched no route and
    whose cookies do not hold auth=true is answered by the 401 page that
    asks to log in first, whether the page exists or not. *)
Theorem index_refused_without_auth_cookie m p v rest routes :
  token m = true → token v = true →
  p = "/" ∨ p = "/index.html" →
  routes !! (m, "/index.html") = None →
  has_auth_cookie (request_buffer m p v rest) = false →
  HttpAdapter.handle_client w funs (request_buffer m p v rest) routes
  = [HttpAdapter.build_error_response 401 "Unauthorized - Please login first"].
Proof.
  intros Hm Hv Hp Hr Hauth.
  destruct (guard_request m p v rest routes Hm Hv Hp Hr)
    as (req & Hpath & _ & Hck & Hserve).
  unfold HttpAdapter.handle_client.
  rewrite (request_buffer_not_empty m p v rest Hm), Hserve.
  unfold HttpAdapter.handle_protected_route. rewrite Hck.
  unfold has_auth_cookie in Hauth. by rewrite Hauth.
Qed.

(** X27.  With auth=true among the cookies of the request, the guard
    lets "/" and "/index.html" through: the bytes of "www/index.html"
    are sent behind a header block with status 200. *)
Theorem index_served_with_auth_cookie m p v rest routes buf :
  token m = true → token v = true →
  p = "/" ∨ p = "/index.html" →
  routes !! (m, "/index.html") = None →
  has_auth_cookie (request_buffer m p v rest) = true →
  open_rb w "www/index.html" = ReadOk buf →
  ∃ tail,
    HttpAdapter.handle_client w funs (request_buffer m p v rest) routes
    = [(ok_line +:+ tail) +:+ buf].
Proof.
  intros Hm Hv Hp Hr Hauth Hopen.
  destruct (guard_request m p v rest routes Hm Hv Hp Hr)
    as (req & Hpath & Hhd & Hck & Hserve).
  unfold HttpAdapter.handle_client.
  rewrite (request_buffer_not_empty m p v rest Hm), Hserve.
  unfold HttpAdapter.handle_protected_route. rewrite Hck.
  unfold has_auth_cookie in Hauth. rewrite Hauth, Hpath.
  rewrite (bool_decide_eq_false_2 (Some "/index.html" = Some "/")) by done.
  destruct (build_response_static w Response.init req "/index.html"
              eq_refl Hpath) as [ct ->].
  change (static_base w "/index.html") with (Some "www/").
  destruct (serve_file_read w
              (Response.set_header Response.init "Content-Type" ct)
              req "/index.html" "www/" buf Hhd Hopen)
    as (header & tail & _ & -> & ->).
  simpl. eauto.
Qed.

(** A POST to "/login" that matched no route goes to the login. *)
Lemma login_request v hs b routes :
  token v = true → forallb header_line_ok hs = true →
  routes !! ("POST", "/login") = None →
  ∃ req,
    Request.body req = Some b
    ∧ is_Some (Request.headers req)
    ∧ HttpAdapter.serve w funs
        (request_buffer "POST" "/login" v (header_block hs +:+ CRLF +:+ b))
        routes
      = HttpAdapter.handle_login w req Response.init.
Proof.
  intros Hv Hhs Hr.
  destruct (prepare_buffer "POST" "/login" v (header_block hs +:+ CRLF +:+ b)
              routes eq_refl eq_refl Hv)
    as (req & Hprep & Hmeth & Hpath & Hhook & Hhd & Hbody).
  change (Request.route_path_of (if String.eqb "/login" "/" then "/index.html"
                                 else "/login")) with "/login" in Hhook.
  rewrite Hr in Hhook.
  assert (Request.hook req = None) as Hh
    by (by destruct (bool_decide (routes = ∅))).
  exists req. split_and!.
  - rewrite Hbody. change (String.eqb "POST" "POST") with true. cbv iota.
    by rewrite (extract_body_after_headers hs b Hhs).
  - by rewrite Hhd.
  - unfold HttpAdapter.serve. rewrite Hprep. simpl. rewrite Hh, Hmeth, Hpath.
    change (String.eqb "/login" "/") with false. cbv iota.
    by rewrite !bool_decide_eq_true_2 by done.
Qed.

(** X28.  A POST to "/login" whose form does not give the user admin
    with the password password gets the 401 page, and nothing else. *)
Theorem login_refuses_other_credentials v hs b routes :
  token v = true → forallb header_line_ok hs = true →
  routes !! ("POST", "/login") = None →
  ¬ credentials_ok b →
  HttpAdapter.handle_client w funs
    (request_buffer "POST" "/login" v (header_block hs +:+ CRLF +:+ b)) routes
  = [HttpAdapter.build_error_response 401 "Unauthorized"].
Proof.
  intros Hv Hhs Hr Hbad.
  destruct (login_request v hs b routes Hv Hhs Hr) as (req & Hbody & _ & Hserve).
  unfold HttpAdapter.handle_client.
  rewrite (request_buffer_not_empty "POST" "/login" v _ eq_refl), Hserve.
  unfold HttpAdapter.handle_login.
  assert (Request.parse_form_data req = form_of_body b) as ->
    by (unfold form_of_body, Request.parse_form_data; by rewrite Hbody).
  cbv zeta.
  destruct (String.eqb_spec (default "" (form_of_body b !! "username")) "admin")
    as [Hu | Hu]; [| done].
  destruct (String.eqb_spec (default "" (form_of_body b !! "password")) "password")
    as [Hp | Hp]; [| done].
  exfalso. apply Hbad. split.
  - by destruct (form_of_body b !! "username") as [u|]; simpl in Hu; subst.
  - by destruct (form_of_body b !! "password") as [u|]; simpl in Hp; subst.
Qed.

(** X29.  A POST to "/login" with the user admin and the password
    password is answered with status 200 by the bytes of
    "www/index.html", and the last header line sets the cookie
    auth=true for the path "/". *)
Theorem login_sets_auth_cookie v hs b routes buf :
  token v = true → forallb header_line_ok hs = true →
  routes !! ("POST", "/login") = None →
  credentials_ok b →
  open_rb w "www/index.html" = ReadOk buf →
  ∃ pre,
    HttpAdapter.handle_client w funs
      (request_buffer "POST" "/login" v (header_block hs +:+ CRLF +:+ b)) routes
    = [(ok_line +:+ pre +:+ "Set-Cookie: auth=true; Path=/" +:+ CRLF +:+ CRLF)
       +:+ buf].
Proof.
  intros Hv Hhs Hr [Hu Hp] Hopen.
  destruct (login_request v hs b routes Hv Hhs Hr)
    as (req & Hbody & Hhd & Hserve).
  unfold HttpAdapter.handle_client.
  rewrite (request_buffer_not_empty "POST" "/login" v _ eq_refl), Hserve.
  unfold HttpAdapter.handle_login.
  assert (Request.parse_form_data req = form_of_body b) as ->
    by (unfold form_of_body, Request.parse_form_data; by rewrite Hbody).
  cbv zeta. rewrite Hu, Hp.
  change (String.eqb (default "" (Some "admin")) "admin"
          && String.eqb (default "" (Some "password")) "password") with true.
  cbv iota.
  set (resp := Response.set_status_code
                 (Response.set_cookie Response.init "auth" "true" "/" None) 200).
  set (req1 := Request.set_path req "/index.html").
  destruct (build_response_static w resp req1 "/index.html" eq_refl eq_refl)
    as [ct ->].
  change (static_base w "/index.html") with (Some "www/").
  destruct (serve_file_read w (Response.set_header resp "Content-Type" ct)
              req1 "/index.html" "www/" buf Hhd Hopen)
    as (header & tail & Hheader & _ & ->).
  destruct (header_ends_with_cookie _ req1 header "auth" "auth=true; Path=/"
              Hheader eq_refl) as [pre ->].
  simpl. by exists pre.
Qed.

End LoginAndGuard.

(** At a request for the root without any header. *)
Lemma index_refused_without_auth_cookie_witness :
  HttpAdapter.handle_client Demo.world Demo.funs
    (request_buffer "GET" "/" "HTTP/1.1" PyStr.CRLF) ∅
  = [HttpAdapter.build_error_response 401 "Unauthorized - Please login first"].
Proof.
  apply (index_refused_without_auth_cookie Demo.world Demo.funs
           "GET" "/" "HTTP/1.1" PyStr.CRLF ∅);
    [reflexivity | reflexivity | by left | reflexivity | by vm_compute].
Defined.

(** At a request for the root that sends the cookie of the login. *)
Lemma index_served_with_auth_cookie_witness :
  ∃ tail,
    HttpAdapter.handle_client Demo.world Demo.funs
      (request_buffer "GET" "/" "HTTP/1.1"
         ("Cookie: auth=true" +:+ PyStr.CRLF +:+ PyStr.CRLF)) ∅
    = [(ok_line +:+ tail) +:+ "<h1>hi</h1>"].
Proof.
  apply (index_served_with_auth_cookie Demo.world Demo.funs
           "GET" "/" "HTTP/1.1"
           ("Cookie: auth=true" +:+ PyStr.CRLF +:+ PyStr.CRLF) ∅ "<h1>hi</h1>");
    [reflexivity | reflexivity | by left | reflexivity | by vm_compute
    | reflexivity].
Defined.

(** At a login with a wrong password. *)
Lemma login_refuses_other_credentials_witness :
  HttpAdapter.handle_client Demo.world Demo.funs
    (request_buffer "POST" "/login" "HTTP/1.1"
       (header_block ["Host: localhost"] +:+ PyStr.CRLF +:+
        "username=admin&password=secret")) ∅
  = [HttpAdapter.build_error_response 401 "Unauthorized"].
Proof.
  apply (login_refuses_other_credentials Demo.world Demo.funs "HTTP/1.1"
           ["Host: localhost"] "username=admin&password=secret" ∅);
    [reflexivity | reflexivity | reflexivity |].
  intros [_ Hp]. vm_compute in Hp. discriminate Hp.
Defined.

(** At the login of the form of the login page. *)
Lemma login_sets_auth_cookie_witness :
  ∃ pre,
    HttpAdapter.handle_client Demo.world Demo.funs
      (request_buffer "POST" "/login" "HTTP/1.1"
         (header_block ["Host: localhost"] +:+ PyStr.CRLF +:+
          "username=admin&password=password")) ∅
    = [(ok_line +:+ pre +:+ "Set-Cookie: auth=true; Path=/" +:+ PyStr.CRLF
        +:+ PyStr.CRLF) +:+ "<h1>hi</h1>"].
Proof.
  apply (login_sets_auth_cookie Demo.world Demo.funs "HTTP/1.1"
           ["Host: localhost"] "username=admin&password=password" ∅
           "<h1>hi</h1>");
    [reflexivity | reflexivity | reflexivity | | reflexivity].
  split; by vm_compute.
Defined.
